(** * BlackKeyX backend: lead pipeline, intake and filtered search

    A shallow embedding of the lead pipeline of the BlackKeyX backend
    (FastAPI routers, the repositories and the lead intake service), with
    the relational store modelled as lists of rows and the SQLAlchemy
    session as a small state-and-error monad.

    Layout: Python and SQL primitives, the row types, the session monad,
    the repositories, the routers and the intake service, then the
    theorems about them. *)

From Stdlib Require Import ZArith NArith List Ascii String Bool Lia.
From stdpp Require Import base option strings gmap.
Import ListNotations.

Local Open Scope Z_scope.
Local Open Scope string_scope.

(** Identifiers are 128-bit UUIDs, timestamps are instants on a discrete
    clock. *)
Abbreviation UUID := N (only parsing).
Abbreviation datetime := Z (only parsing).

(** ** Python primitives *)

Module Py.

(** [bool(s)] for a [str]: the empty string is falsy. *)
Definition truthy (s : string) : bool :=
  match s with
  | EmptyString => false
  | String _ _ => true
  end.

(** [bool(o)] for an [Optional[str]]: [None] and the empty string are falsy. *)
Definition truthy_opt (o : option string) : bool :=
  match o with
  | None => false
  | Some s => truthy s
  end.

(** [s.startswith(p)]. *)
Fixpoint startswith (s p : string) {struct p} : bool :=
  match p with
  | EmptyString => true
  | String a p' =>
      match s with
      | EmptyString => false
      | String b s' => Ascii.eqb a b && startswith s' p'
      end
  end.

(** [a or b] on an optional string with a string default, as in
    [lead.capacity or '']. *)
Definition or_str (a : option string) (b : string) : string :=
  match a with
  | Some s => if truthy s then s else b
  | None => b
  end.

(** [a or b] where both sides are optional strings, as in
    [x_forwarded_for or (...)]. *)
Definition or_opt (a b : option string) : option string :=
  if truthy_opt a then a else b.

(** [a or b] on an optional integer with an integer default: [None] and
    [0] are falsy. *)
Definition or_int (a : option Z) (b : Z) : Z :=
  match a with
  | Some n => if (n =? 0)%Z then b else n
  | None => b
  end.

(** [a or []] on an optional list. *)
Definition or_list {A} (a : option (list A)) : list A :=
  match a with
  | Some (x :: l) => x :: l
  | _ => []
  end.

(** [repr] of a [str] without quotes, backslashes or control characters,
    which is what the stage names are. *)
Definition repr_str (s : string) : string := "'" +:+ s +:+ "'".

Fixpoint join (sep : string) (l : list string) : string :=
  match l with
  | [] => EmptyString
  | [x] => x
  | x :: rest => x +:+ sep +:+ join sep rest
  end.

(** [repr] (and thus the f-string rendering) of a list of such strings. *)
Definition repr_list (l : list string) : string :=
  "[" +:+ join ", " (map repr_str l) +:+ "]".

(** [x in l] for a list of strings. *)
Definition contains (l : list string) (x : string) : bool :=
  existsb (String.eqb x) l.

Definition hex_digit (d : N) : ascii :=
  match d with
  | 0 => "0" | 1 => "1" | 2 => "2" | 3 => "3" | 4 => "4" | 5 => "5"
  | 6 => "6" | 7 => "7" | 8 => "8" | 9 => "9" | 10 => "a" | 11 => "b"
  | 12 => "c" | 13 => "d" | 14 => "e" | _ => "f"
  end%N%char.

(** The [k] low hexadecimal digits of [v], most significant first, put in
    front of [acc]. *)
Fixpoint hex (k : nat) (v : N) (acc : string) : string :=
  match k with
  | O => acc
  | S k' => hex k' (v / 16)%N (String (hex_digit (v mod 16)%N) acc)
  end.

(** [str(u)] for a [uuid.UUID]: the 8-4-4-4-12 hexadecimal form. *)
Definition str_uuid (u : UUID) : string :=
  let h := hex 32 u EmptyString in
  substring 0 8 h +:+ "-" +:+ substring 8 4 h +:+ "-" +:+ substring 12 4 h
    +:+ "-" +:+ substring 16 4 h +:+ "-" +:+ substring 20 12 h.

(** [s[n:]]. *)
Fixpoint drop (n : nat) (s : string) : string :=
  match n, s with
  | O, _ => s
  | S n', String _ s' => drop n' s'
  | S _, EmptyString => EmptyString
  end.

(** [s.replace(old, new, 1)]: the leftmost occurrence of [old], if any,
    is replaced. *)
Fixpoint replace_first (s old new : string) : string :=
  if startswith s old then new +:+ drop (String.length old) s
  else match s with
       | EmptyString => EmptyString
       | String c s' => String c (replace_first s' old new)
       end.

End Py.

(** ** SQL primitives

    A WHERE clause is evaluated in three-valued logic: a comparison with
    NULL is NULL, and a row is kept only when the clause is TRUE. Strings
    are byte strings; case folding covers the ASCII letters. *)

Module Sql.

(** A truth value: [None] is NULL. *)
Abbreviation tv := (option bool) (only parsing).

Definition is_true (t : tv) : bool :=
  match t with
  | Some true => true
  | _ => false
  end.

(** [a >= b] and [a <= b] on nullable integers. *)
Definition ge (a b : option Z) : tv :=
  match a, b with
  | Some x, Some y => Some (y <=? x)%Z
  | _, _ => None
  end.

Definition le (a b : option Z) : tv :=
  match a, b with
  | Some x, Some y => Some (x <=? y)%Z
  | _, _ => None
  end.

(** [a = b] on nullable strings. *)
Definition eq_str (a b : option string) : tv :=
  match a, b with
  | Some x, Some y => Some (String.eqb x y)
  | _, _ => None
  end.

(** [a OR b]. *)
Definition or3 (a b : tv) : tv :=
  match a, b with
  | Some true, _ => Some true
  | _, Some true => Some true
  | Some false, Some false => Some false
  | _, _ => None
  end.

Definition is_percent (c : ascii) : bool := Ascii.eqb c "%".
Definition is_underscore (c : ascii) : bool := Ascii.eqb c "_".
Definition is_backslash (c : ascii) : bool := Ascii.eqb c "092".

(** [s LIKE p] with the default escape character: [%] matches any
    sequence, [_] any one character, a backslash makes the next pattern
    character literal. A pattern that ends in a lone backslash is an
    error in PostgreSQL; the patterns built below always end in [%], so
    the case does not arise, and [like] answers [false] there. *)
Fixpoint like (p s : list ascii) {struct p} : bool :=
  match p with
  | [] => match s with [] => true | _ :: _ => false end
  | c :: p' =>
      if is_percent c then
        (fix scan (s : list ascii) : bool :=
           like p' s || match s with [] => false | _ :: s' => scan s' end) s
      else if is_underscore c then
        match s with [] => false | _ :: s' => like p' s' end
      else if is_backslash c then
        match p' with
        | [] => false
        | e :: p'' =>
            match s with
            | [] => false
            | x :: s' => Ascii.eqb e x && like p'' s'
            end
        end
      else
        match s with
        | [] => false
        | x :: s' => Ascii.eqb c x && like p' s'
        end
  end.

(** ASCII lower-casing: [A]..[Z] go to [a]..[z]. *)
Definition lower_char (c : ascii) : ascii :=
  let n := nat_of_ascii c in
  if (65 <=? n)%nat && (n <=? 90)%nat then ascii_of_nat (n + 32) else c.

Definition lower (s : list ascii) : list ascii := map lower_char s.

(** [s ILIKE p]: LIKE after case folding of both sides. *)
Definition ilike (p s : list ascii) : bool := like (lower p) (lower s).

(** [col.contains(x)], rendered [col LIKE '%' || x || '%']. *)
Definition col_contains (col : option string) (x : string) : tv :=
  match col with
  | None => None
  | Some s =>
      Some (like (list_ascii_of_string ("%" +:+ x +:+ "%"))
                 (list_ascii_of_string s))
  end.

(** [col.ilike(pattern)]. *)
Definition col_ilike (col : option string) (pattern : string) : tv :=
  match col with
  | None => None
  | Some s =>
      Some (ilike (list_ascii_of_string pattern) (list_ascii_of_string s))
  end.

(** Ordering of a nullable sort key: PostgreSQL treats NULL as larger
    than every value (NULLS LAST ascending, NULLS FIRST descending). *)
Definition key_le (a b : option Z) : bool :=
  match a, b with
  | _, None => true
  | None, Some _ => false
  | Some x, Some y => (x <=? y)%Z
  end.

Section OrderBy.
Context {A : Type} (key : A -> option Z).

Fixpoint insert_by (before : option Z -> option Z -> bool) (x : A)
    (l : list A) : list A :=
  match l with
  | [] => [x]
  | y :: l' =>
      if before (key x) (key y) then x :: y :: l'
      else y :: insert_by before x l'
  end.

(** ORDER BY key ASC / DESC. SQL leaves the order of rows with equal keys
    open; this sort keeps them in table order, which is one of the
    orders that the database may return. [page_of], further down,
    describes a page for every such order. *)
Definition order_by (desc : bool) (l : list A) : list A :=
  fold_right
    (insert_by (if desc then fun a b => key_le b a else key_le)) [] l.

End OrderBy.

(** A Python int bound to an INTEGER parameter ([$n::INTEGER]): the
    driver refuses a value outside the 32-bit range. *)
Definition int4 (v : Z) : bool :=
  (-2147483648 <=? v)%Z && (v <=? 2147483647)%Z.

Definition int4_opt (o : option Z) : bool :=
  match o with
  | Some v => int4 v
  | None => true
  end.

(** OFFSET skip LIMIT limit. *)
Definition offset_limit {A} (skip limit : nat) (l : list A) : list A :=
  firstn limit (skipn skip l).

End Sql.

(** ** Rows (models/*.py, alembic/versions/*.py)

    One record per table, with the columns that the mapped classes
    declare. PostgreSQL refuses a value that is wider than its VARCHAR
    column, and the request is rolled back; the store below does not
    refuse it. [fits], further down, names the widths where a statement
    depends on them. No function of
    the repository inserts into call_sessions or deal_matches, so the
    relations [calls] and [matches] of a lead are always empty and the two
    tables are left out. *)

(** Modelled from the spec: models/base.py ([Base], [UUIDMixin],
    [TimestampMixin]) is not among the sources. Following the data model
    of the specification and the migrations, every row has a UUID primary
    key generated when the object is created, [created_at] and
    [updated_at] are set to [now()] at INSERT, and [updated_at] is
    refreshed when a row is updated. *)

(** The class [InvestorProfile] (models/investor.py) declares the
    columns below and no attribute [name]: migration 002 adds a column
    [name] to the table only, which an INSERT leaves to its server
    default and which no loaded object carries. *)

Module InvestorProfile.

Record t := mk {
  id : UUID;
  phone : string;
  timeline : option string;
  capital_available : option Z;
  investment_preferences : list string;
  investment_thesis : option string;
  risk_tolerance : option string;
  stage : string;
  lead_score : Z;
  source : string;
  investor_type : option string;
  capacity : option string;
  fit : option string;
  process : option string;
  timing : option string;
  qualification_bucket : option string;
  qualification_score : option Z;
  created_at : datetime;
  updated_at : datetime
}.

(** [InvestorProfile(id=..., phone=..., timeline=..., capital_available=...,
    investment_preferences=..., stage=..., source=...)]: the columns not
    given take their defaults at INSERT ([lead_score] 0), the timestamps
    are set by the store. *)
Definition init (id : UUID) (phone : string) (timeline : option string)
    (capital_available : option Z) (investment_preferences : list string)
    (stage source : string) : t :=
  {| id := id; phone := phone; timeline := timeline;
     capital_available := capital_available;
     investment_preferences := investment_preferences;
     investment_thesis := None; risk_tolerance := None;
     stage := stage; lead_score := 0; source := source;
     investor_type := None; capacity := None; fit := None; process := None;
     timing := None; qualification_bucket := None;
     qualification_score := None; created_at := 0; updated_at := 0 |}.

(** The eight attribute assignments of the qualification block. *)
Definition set_qualification (investorType capacity' fit' process' timing'
    bucket : string) (score : Z) (i : t) : t :=
  {| id := id i; phone := phone i; timeline := timeline i;
     capital_available := capital_available i;
     investment_preferences := investment_preferences i;
     investment_thesis := investment_thesis i;
     risk_tolerance := risk_tolerance i;
     stage := stage i; lead_score := score; source := source i;
     investor_type := Some investorType; capacity := Some capacity';
     fit := Some fit'; process := Some process'; timing := Some timing';
     qualification_bucket := Some bucket;
     qualification_score := Some score;
     created_at := created_at i; updated_at := updated_at i |}.

(** The row as INSERTed at [now]: both timestamps are [now()]. *)
Definition stamp (now : datetime) (i : t) : t :=
  {| id := id i; phone := phone i; timeline := timeline i;
     capital_available := capital_available i;
     investment_preferences := investment_preferences i;
     investment_thesis := investment_thesis i;
     risk_tolerance := risk_tolerance i;
     stage := stage i; lead_score := lead_score i; source := source i;
     investor_type := investor_type i; capacity := capacity i;
     fit := fit i; process := process i; timing := timing i;
     qualification_bucket := qualification_bucket i;
     qualification_score := qualification_score i;
     created_at := now; updated_at := now |}.

(** The row after [UPDATE ... SET stage = s]. The unit of work emits the
    UPDATE only for a net change of the attribute, and [updated_at] is
    refreshed with it. *)
Definition set_stage (s : string) (now : datetime) (i : t) : t :=
  {| id := id i; phone := phone i; timeline := timeline i;
     capital_available := capital_available i;
     investment_preferences := investment_preferences i;
     investment_thesis := investment_thesis i;
     risk_tolerance := risk_tolerance i;
     stage := s; lead_score := lead_score i; source := source i;
     investor_type := investor_type i; capacity := capacity i;
     fit := fit i; process := process i; timing := timing i;
     qualification_bucket := qualification_bucket i;
     qualification_score := qualification_score i;
     created_at := created_at i;
     updated_at := if String.eqb s (stage i) then updated_at i else now |}.

End InvestorProfile.

Module Consent.

Record t := mk {
  id : UUID;
  investor_id : UUID;
  consent_text : string;
  ip_address : option string;
  user_agent : option string;
  created_at : datetime
}.

Definition stamp (now : datetime) (c : t) : t :=
  {| id := id c; investor_id := investor_id c;
     consent_text := consent_text c; ip_address := ip_address c;
     user_agent := user_agent c; created_at := now |}.

End Consent.

Module LeadNote.

Record t := mk {
  id : UUID;
  investor_id : UUID;
  content : string;
  created_by : string;
  created_at : datetime
}.

Definition stamp (now : datetime) (n : t) : t :=
  {| id := id n; investor_id := investor_id n; content := content n;
     created_by := created_by n; created_at := now |}.

End LeadNote.

Module StageHistory.

Record t := mk {
  id : UUID;
  investor_id : UUID;
  from_stage : option string;
  to_stage : string;
  changed_by : string;
  notes : option string;
  changed_at : datetime
}.

Definition stamp (now : datetime) (h : t) : t :=
  {| id := id h; investor_id := investor_id h; from_stage := from_stage h;
     to_stage := to_stage h; changed_by := changed_by h; notes := notes h;
     changed_at := now |}.

End StageHistory.

(** The columns of [properties] that the deal search reads or orders by. *)
Module Property.

Record t := mk {
  id : UUID;
  name : string;
  deal_type : string;
  summary : option string;
  minimum_investment : option Z;
  status : string;
  created_at : datetime
}.

End Property.

(** ** The store and the session (db/session.py, db/repositories/base.py)

    A store is the content of the tables the modelled code touches, with
    the state of the [uuid4] generator kept alongside (a fresh-name
    supply). A session holds the store as seen inside the transaction,
    the objects added or modified since the last flush, and the value of
    [now()] for the transaction. *)

Record Store := mkStore {
  investor_profiles : list InvestorProfile.t;
  consents : list Consent.t;
  lead_notes : list LeadNote.t;
  stage_history : list StageHistory.t;
  properties : list Property.t;
  next_uuid : UUID
}.

Definition empty_store : Store :=
  {| investor_profiles := []; consents := []; lead_notes := [];
     stage_history := []; properties := []; next_uuid := 0%N |}.

(** Row insertion and the other elementary changes of a store. *)
Definition insert_investor (i : InvestorProfile.t) (st : Store) : Store :=
  {| investor_profiles := investor_profiles st ++ [i];
     consents := consents st; lead_notes := lead_notes st;
     stage_history := stage_history st; properties := properties st;
     next_uuid := next_uuid st |}.

Definition insert_consent (c : Consent.t) (st : Store) : Store :=
  {| investor_profiles := investor_profiles st;
     consents := consents st ++ [c]; lead_notes := lead_notes st;
     stage_history := stage_history st; properties := properties st;
     next_uuid := next_uuid st |}.

Definition insert_note (n : LeadNote.t) (st : Store) : Store :=
  {| investor_profiles := investor_profiles st;
     consents := consents st; lead_notes := lead_notes st ++ [n];
     stage_history := stage_history st; properties := properties st;
     next_uuid := next_uuid st |}.

Definition insert_history (h : StageHistory.t) (st : Store) : Store :=
  {| investor_profiles := investor_profiles st;
     consents := consents st; lead_notes := lead_notes st;
     stage_history := stage_history st ++ [h]; properties := properties st;
     next_uuid := next_uuid st |}.

Definition update_investors (f : InvestorProfile.t -> InvestorProfile.t)
    (st : Store) : Store :=
  {| investor_profiles := map f (investor_profiles st);
     consents := consents st; lead_notes := lead_notes st;
     stage_history := stage_history st; properties := properties st;
     next_uuid := next_uuid st |}.

Definition draw_uuid (st : Store) : Store :=
  {| investor_profiles := investor_profiles st;
     consents := consents st; lead_notes := lead_notes st;
     stage_history := stage_history st; properties := properties st;
     next_uuid := N.succ (next_uuid st) |}.

Inductive Exc : Type :=
| HTTPException (status_code : Z) (detail : string)
| RequestValidationError
| MultipleResultsFound
| IntegrityError
| InvalidRequestError
| DBAPIError
| AttributeError.

Inductive result (A : Type) : Type :=
| Ok (a : A)
| Raise (e : Exc).
Arguments Ok {A} a.
Arguments Raise {A} e.

(** What the unit of work holds until the next flush. *)
Inductive Pending : Type :=
| NewInvestor (i : InvestorProfile.t)
| NewConsent (c : Consent.t)
| NewLeadNote (n : LeadNote.t)
| NewStageHistory (h : StageHistory.t)
| DirtyStage (id : UUID) (new_stage : string).

Record Session := mkSession {
  db : Store;
  pending : list Pending;
  now : datetime
}.

(** The session monad: state passing with exceptions. *)
Definition M (A : Type) : Type := Session -> result A * Session.

#[global] Instance M_ret : MRet M := fun A a s => (Ok a, s).

#[global] Instance M_bind : MBind M := fun A B f m s =>
  match m s with
  | (Ok a, s') => f a s'
  | (Raise e, s') => (Raise e, s')
  end.

Definition raise {A} (e : Exc) : M A := fun s => (Raise e, s).

Definition has_investor (st : Store) (id : UUID) : bool :=
  existsb (fun i => N.eqb (InvestorProfile.id i) id) (investor_profiles st).

(** [UPDATE investor_profiles SET stage = ... WHERE id = ...], on one
    row. *)
Definition stage_update (id : UUID) (new_stage : string) (now : datetime)
    (i : InvestorProfile.t) : InvestorProfile.t :=
  if N.eqb (InvestorProfile.id i) id
  then InvestorProfile.set_stage new_stage now i
  else i.

(** One INSERT or UPDATE of a flush, with the primary-key and foreign-key
    checks of the schema. The width of a VARCHAR value is not checked
    here: a statement that depends on it says that the value [fits]. *)
Definition flush_one (now : datetime) (p : Pending) (st : Store)
    : result Store :=
  match p with
  | NewInvestor i =>
      if has_investor st (InvestorProfile.id i) then Raise IntegrityError
      else Ok (insert_investor (InvestorProfile.stamp now i) st)
  | NewConsent c =>
      if has_investor st (Consent.investor_id c)
      then Ok (insert_consent (Consent.stamp now c) st)
      else Raise IntegrityError
  | NewLeadNote n =>
      if has_investor st (LeadNote.investor_id n)
      then Ok (insert_note (LeadNote.stamp now n) st)
      else Raise IntegrityError
  | NewStageHistory h =>
      if has_investor st (StageHistory.investor_id h)
      then Ok (insert_history (StageHistory.stamp now h) st)
      else Raise IntegrityError
  | DirtyStage id new_stage =>
      Ok (update_investors (stage_update id new_stage now) st)
  end.

Fixpoint flush_all (now : datetime) (ps : list Pending) (st : Store)
    : result Store :=
  match ps with
  | [] => Ok st
  | p :: ps' =>
      match flush_one now p st with
      | Ok st' => flush_all now ps' st'
      | Raise e => Raise e
      end
  end.

Module session.

(** [uuid.uuid4()]: the next identifier of the supply. *)
Definition uuid4 : M UUID := fun s =>
  (Ok (next_uuid (db s)),
   {| db := draw_uuid (db s); pending := pending s; now := now s |}).

(** [session.add(obj)], and an attribute assignment on a loaded object. *)
Definition add (p : Pending) : M unit := fun s =>
  (Ok tt, {| db := db s; pending := pending s ++ [p]; now := now s |}).

(** [await session.flush()]. *)
Definition flush : M unit := fun s =>
  match flush_all (now s) (pending s) (db s) with
  | Ok st' => (Ok tt, {| db := st'; pending := []; now := now s |})
  | Raise e => (Raise e, s)
  end.

(** Reading the tables as the transaction sees them. The session is
    created with [autoflush=False]: a query does not flush. *)
Definition store : M Store := fun s => (Ok (db s), s).

(** [result.scalar_one_or_none()]. *)
Definition scalar_one_or_none {A} (rows : list A) : M (option A) :=
  match rows with
  | [] => mret None
  | [x] => mret (Some x)
  | _ :: _ :: _ => raise MultipleResultsFound
  end.

(** [result.scalar_one()]. *)
Definition scalar_one {A} (rows : list A) : M A :=
  match rows with
  | [x] => mret x
  | [] => raise InvalidRequestError
  | _ :: _ :: _ => raise MultipleResultsFound
  end.

(** The dependency [get_db]: run the handler in a new session on the
    store, commit when it returns, roll back when it raises. *)
Definition get_db {A} (now : datetime) (handler : M A) (st : Store)
    : result A * Store :=
  match handler {| db := st; pending := []; now := now |} with
  | (Ok a, s) =>
      match flush s with
      | (Ok _, s') => (Ok a, db s')
      | (Raise e, _) => (Raise e, st)
      end
  | (Raise e, _) => (Raise e, st)
  end.

End session.

(** ** ORM entities

    Every relationship of [InvestorProfile] is declared [lazy="selectin"]:
    a SELECT of leads loads the related rows with it, notes and stage
    history newest first. *)

(** The rows behind the relationships [notes], [stage_history] and
    [consents] of the lead [id]. *)
Definition notes_of (st : Store) (id : UUID) : list LeadNote.t :=
  Sql.order_by (fun n => Some (LeadNote.created_at n)) true
    (List.filter (fun n => N.eqb (LeadNote.investor_id n) id) (lead_notes st)).

Definition stage_history_of (st : Store) (id : UUID) : list StageHistory.t :=
  Sql.order_by (fun h => Some (StageHistory.changed_at h)) true
    (List.filter (fun h => N.eqb (StageHistory.investor_id h) id)
       (stage_history st)).

Definition consents_of (st : Store) (id : UUID) : list Consent.t :=
  List.filter (fun c => N.eqb (Consent.investor_id c) id) (consents st).

Module Lead.

Record t := mk {
  row : InvestorProfile.t;
  notes : list LeadNote.t;
  stage_history : list StageHistory.t;
  consents : list Consent.t
}.

Definition load (st : Store) (i : InvestorProfile.t) : t :=
  {| row := i;
     notes := notes_of st (InvestorProfile.id i);
     stage_history := stage_history_of st (InvestorProfile.id i);
     consents := consents_of st (InvestorProfile.id i) |}.

(** [lead.name] on a loaded lead: the mapped class has no such
    attribute, so the read raises. *)
Definition name (lead : t) : M string := raise AttributeError.

End Lead.

(** ** Repositories (db/repositories/*.py) *)

Module base_repo.

(** [select(InvestorProfile).where(...)], executed. *)
Definition select_leads (where_ : InvestorProfile.t -> bool)
    : M (list Lead.t) :=
  st ← session.store;
  mret (map (Lead.load st) (List.filter where_ (investor_profiles st))).

(** [BaseRepository.get] at [InvestorProfile]. *)
Definition get (id : UUID) : M (option Lead.t) :=
  rows ← select_leads (fun i => N.eqb (InvestorProfile.id i) id);
  session.scalar_one_or_none rows.

(** [session.refresh(obj)] for a lead: the row is read again by its
    primary key. *)
Definition refresh_lead (id : UUID) : M Lead.t :=
  st ← session.store;
  match List.find (fun i => N.eqb (InvestorProfile.id i) id)
          (investor_profiles st) with
  | Some i => mret (Lead.load st i)
  | None => raise InvalidRequestError
  end.

Definition refresh_consent (id : UUID) : M Consent.t :=
  st ← session.store;
  match List.find (fun c => N.eqb (Consent.id c) id) (consents st) with
  | Some c => mret c
  | None => raise InvalidRequestError
  end.

Definition refresh_note (id : UUID) : M LeadNote.t :=
  st ← session.store;
  match List.find (fun n => N.eqb (LeadNote.id n) id) (lead_notes st) with
  | Some n => mret n
  | None => raise InvalidRequestError
  end.

(** [BaseRepository.create] at [InvestorProfile]. *)
Definition create (obj : InvestorProfile.t) : M Lead.t :=
  session.add (NewInvestor obj);;
  session.flush;;
  refresh_lead (InvestorProfile.id obj).

(** [BaseRepository.count] at [InvestorProfile]. *)
Definition count : M Z :=
  st ← session.store;
  mret (Z.of_nat (length (investor_profiles st))).

End base_repo.

Module investor_repo.

(** [InvestorRepository.get_with_relations]. *)
Definition get_with_relations (id : UUID) : M (option Lead.t) :=
  rows ← base_repo.select_leads (fun i => N.eqb (InvestorProfile.id i) id);
  session.scalar_one_or_none rows.

(** [InvestorRepository.get_by_phone]. *)
Definition get_by_phone (phone : string) : M (option Lead.t) :=
  rows ← base_repo.select_leads
           (fun i => String.eqb (InvestorProfile.phone i) phone);
  session.scalar_one_or_none rows.

Inductive SortColumn : Type := created_at | lead_score | capital_available.

Definition sort_key (c : SortColumn) (i : InvestorProfile.t) : option Z :=
  match c with
  | created_at => Some (InvestorProfile.created_at i)
  | lead_score => Some (InvestorProfile.lead_score i)
  | capital_available => InvestorProfile.capital_available i
  end.

(** The dict literal [sort_column_map]. *)
Definition sort_column_map : gmap string SortColumn :=
  <["created_at" := created_at]>
    (<["lead_score" := lead_score]>
       (<["capital_available" := capital_available]> ∅)).

(** The filters of [search_leads]: each [query.where(...)] that is
    applied adds one conjunct. *)
Definition lead_filter (stage : option string)
    (score_min score_max capital_min capital_max : option Z)
    (date_from date_to : option datetime) (search : option string)
    (i : InvestorProfile.t) : bool :=
  (if Py.truthy_opt stage
   then Sql.is_true (Sql.eq_str (Some (InvestorProfile.stage i)) stage)
   else true)
  && (match score_min with
      | Some _ => Sql.is_true (Sql.ge (Some (InvestorProfile.lead_score i)) score_min)
      | None => true
      end)
  && (match score_max with
      | Some _ => Sql.is_true (Sql.le (Some (InvestorProfile.lead_score i)) score_max)
      | None => true
      end)
  && (match capital_min with
      | Some _ => Sql.is_true (Sql.ge (InvestorProfile.capital_available i) capital_min)
      | None => true
      end)
  && (match capital_max with
      | Some _ => Sql.is_true (Sql.le (InvestorProfile.capital_available i) capital_max)
      | None => true
      end)
  && (match date_from with
      | Some _ => Sql.is_true (Sql.ge (Some (InvestorProfile.created_at i)) date_from)
      | None => true
      end)
  && (match date_to with
      | Some _ => Sql.is_true (Sql.le (Some (InvestorProfile.created_at i)) date_to)
      | None => true
      end)
  && (match search with
      | Some x =>
          if Py.truthy x
          then Sql.is_true (Sql.col_contains (Some (InvestorProfile.phone i)) x)
          else true
      | None => true
      end).

(** [InvestorRepository.search_leads]. The integer bounds, the offset
    and the limit are bound as INTEGER parameters; a negative OFFSET or
    LIMIT is refused by the database. *)
Definition search_leads (stage : option string)
    (score_min score_max capital_min capital_max : option Z)
    (date_from date_to : option datetime) (search : option string)
    (sort_by sort_order : string) (skip limit : Z)
    : M (list Lead.t * Z) :=
  let where_ :=
    lead_filter stage score_min score_max capital_min capital_max
      date_from date_to search in
  (* Count total before pagination *)
  if negb (Sql.int4_opt score_min && Sql.int4_opt score_max
           && Sql.int4_opt capital_min && Sql.int4_opt capital_max)
  then raise DBAPIError
  else
  matching ← base_repo.select_leads where_;
  let total := Z.of_nat (length matching) in
  (* Sorting *)
  let sort_column := default created_at (sort_column_map !! sort_by) in
  let desc := String.eqb sort_order "desc" in
  (* Pagination *)
  if (skip <? 0)%Z || (limit <? 0)%Z
     || negb (Sql.int4 skip && Sql.int4 limit)
  then raise DBAPIError
  else
    let leads :=
      Sql.offset_limit (Z.to_nat skip) (Z.to_nat limit)
        (Sql.order_by (fun l => sort_key sort_column (Lead.row l)) desc
           matching) in
    mret (leads, total).

(** [InvestorRepository.update_stage]. *)
Definition update_stage (investor_id : UUID) (new_stage changed_by : string)
    (notes : option string) : M (option Lead.t) :=
  investor ← base_repo.get investor_id;
  match investor with
  | None => mret None
  | Some investor =>
      let old_stage := InvestorProfile.stage (Lead.row investor) in
      session.add (DirtyStage investor_id new_stage);;
      (* Record stage change history *)
      hid ← session.uuid4;
      session.add
        (NewStageHistory
           {| StageHistory.id := hid;
              StageHistory.investor_id := investor_id;
              StageHistory.from_stage := Some old_stage;
              StageHistory.to_stage := new_stage;
              StageHistory.changed_by := changed_by;
              StageHistory.notes := notes;
              StageHistory.changed_at := 0 |});;
      session.flush;;
      investor ← base_repo.refresh_lead investor_id;
      mret (Some investor)
  end.

(** [InvestorRepository.add_note]. *)
Definition add_note (investor_id : UUID) (content created_by : string)
    : M (option LeadNote.t) :=
  investor ← base_repo.get investor_id;
  match investor with
  | None => mret None
  | Some _ =>
      nid ← session.uuid4;
      session.add
        (NewLeadNote
           {| LeadNote.id := nid; LeadNote.investor_id := investor_id;
              LeadNote.content := content;
              LeadNote.created_by := created_by;
              LeadNote.created_at := 0 |});;
      session.flush;;
      note ← base_repo.refresh_note nid;
      mret (Some note)
  end.

(** [InvestorRepository.add_consent]. *)
Definition add_consent (investor_id : UUID) (consent_text : string)
    (ip_address user_agent : option string) : M Consent.t :=
  cid ← session.uuid4;
  session.add
    (NewConsent
       {| Consent.id := cid; Consent.investor_id := investor_id;
          Consent.consent_text := consent_text;
          Consent.ip_address := ip_address;
          Consent.user_agent := user_agent;
          Consent.created_at := 0 |});;
  session.flush;;
  base_repo.refresh_consent cid.

(** [InvestorRepository.get_by_stage]. *)
Definition get_by_stage (stage : string) : M (list Lead.t) :=
  rows ← base_repo.select_leads
           (fun i => String.eqb (InvestorProfile.stage i) stage);
  mret (Sql.order_by
          (fun l => Some (InvestorProfile.lead_score (Lead.row l))) true
          rows).

(** The number of leads in a stage. *)
Definition count_in_stage (rows : list InvestorProfile.t) (stage : string)
    : nat :=
  length (List.filter (fun i => String.eqb (InvestorProfile.stage i) stage)
            rows).

(** The rows of [SELECT stage, count(id) ... GROUP BY stage]: one for
    each stage that occurs, here in the order of first occurrence. *)
Definition count_by_stage (rows : list InvestorProfile.t)
    : list (string * Z) :=
  map (fun stage => (stage, Z.of_nat (count_in_stage rows stage)))
    (List.nodup string_dec (map InvestorProfile.stage rows)).

(** [InvestorRepository.get_stats_by_stage]: [dict(result.all())]. *)
Definition get_stats_by_stage : M (gmap string Z) :=
  st ← session.store;
  mret (list_to_map (count_by_stage (investor_profiles st))).

Section Average.

(** Floating-point numbers are kept abstract: [float_of_ratio n d] is
    [float(avg)] for the average [n/d] that the database computes, [zero]
    is [0.0]. *)
Variable float : Type.
Variable float_of_ratio : Z -> Z -> float.
Variable zero : float.

(** [InvestorRepository.get_average_score]. The average over no row is
    NULL; [if avg] is false for NULL and for a zero average. *)
Definition get_average_score : M float :=
  st ← session.store;
  let scores := map InvestorProfile.lead_score (investor_profiles st) in
  let avg :=
    match scores with
    | [] => None
    | _ :: _ => Some (fold_right Z.add 0%Z scores, Z.of_nat (length scores))
    end in
  mret (match avg with
        | Some (total, count) =>
            if (total =? 0)%Z then zero else float_of_ratio total count
        | None => zero
        end).

End Average.

End investor_repo.

Module property_repo.

(** The filters of [search_deals]. *)
Definition deal_filter (status deal_type : option string)
    (min_investment_max : option Z) (search : option string)
    (p : Property.t) : bool :=
  (if Py.truthy_opt status
   then Sql.is_true (Sql.eq_str (Some (Property.status p)) status)
   else true)
  && (if Py.truthy_opt deal_type
      then Sql.is_true (Sql.eq_str (Some (Property.deal_type p)) deal_type)
      else true)
  && (match min_investment_max with
      | Some _ =>
          Sql.is_true (Sql.le (Property.minimum_investment p) min_investment_max)
      | None => true
      end)
  && (match search with
      | Some x =>
          if Py.truthy x
          then Sql.is_true
                 (Sql.or3
                    (Sql.col_ilike (Some (Property.name p)) ("%" +:+ x +:+ "%"))
                    (Sql.col_ilike (Property.summary p) ("%" +:+ x +:+ "%")))
          else true
      | None => true
      end).

(** [PropertyRepository.search_deals]. *)
Definition search_deals (status deal_type : option string)
    (min_investment_max : option Z) (search : option string)
    (skip limit : Z) : M (list Property.t * Z) :=
  if negb (Sql.int4_opt min_investment_max) then raise DBAPIError
  else
  st ← session.store;
  let matching :=
    List.filter (deal_filter status deal_type min_investment_max search)
      (properties st) in
  (* Count total *)
  let total := Z.of_nat (length matching) in
  (* Order and paginate *)
  if (skip <? 0)%Z || (limit <? 0)%Z
     || negb (Sql.int4 skip && Sql.int4 limit)
  then raise DBAPIError
  else
    let deals :=
      Sql.offset_limit (Z.to_nat skip) (Z.to_nat limit)
        (Sql.order_by (fun p => Some (Property.created_at p)) true matching) in
    mret (deals, total).

(** [BaseRepository.get] at [Property]. *)
Definition get (id : UUID) : M (option Property.t) :=
  st ← session.store;
  session.scalar_one_or_none
    (List.filter (fun p => N.eqb (Property.id p) id) (properties st)).

(** [BaseRepository.count] at [Property]. *)
Definition count : M Z :=
  st ← session.store;
  mret (Z.of_nat (length (properties st))).

(** [PropertyRepository.get_by_status]. *)
Definition get_by_status (status : string) (skip limit : Z)
    : M (list Property.t) :=
  st ← session.store;
  if (skip <? 0)%Z || (limit <? 0)%Z
     || negb (Sql.int4 skip && Sql.int4 limit)
  then raise DBAPIError
  else
    mret (Sql.offset_limit (Z.to_nat skip) (Z.to_nat limit)
            (Sql.order_by (fun p => Some (Property.created_at p)) true
               (List.filter (fun p => String.eqb (Property.status p) status)
                  (properties st)))).

(** [PropertyRepository.get_active_deals]. *)
Definition get_active_deals (skip limit : Z) : M (list Property.t * Z) :=
  st ← session.store;
  (* Count total active *)
  let total :=
    Z.of_nat
      (length (List.filter (fun p => String.eqb (Property.status p) "active")
                 (properties st))) in
  (* Get deals *)
  if (skip <? 0)%Z || (limit <? 0)%Z
     || negb (Sql.int4 skip && Sql.int4 limit)
  then raise DBAPIError
  else
    let deals :=
      Sql.offset_limit (Z.to_nat skip) (Z.to_nat limit)
        (Sql.order_by (fun p => Some (Property.created_at p)) true
           (List.filter (fun p => String.eqb (Property.status p) "active")
              (properties st))) in
    mret (deals, total).

End property_repo.

(** ** Request and response schemas (schemas/*.py) *)

Module QualificationData.

Record t := mk {
  investorType : string;
  capacity : string;
  fit : string;
  process : string;
  timing : string;
  score : Z;
  bucket : string
}.

End QualificationData.

Module LeadSubmissionRequest.

Record t := mk {
  phoneNumber : string;
  consent : bool;
  timestamp : string;
  qualification : option QualificationData.t;
  investmentTimeline : option string;
  capitalAvailable : option string;
  investmentPreferences : option (list string)
}.

End LeadSubmissionRequest.

Module LeadSubmissionResponse.

Record t := mk {
  success : bool;
  message : string;
  leadId : string
}.

End LeadSubmissionResponse.

Module InvestorQualificationResponse.

Record t := mk {
  investorType : string;
  capacity : string;
  fit : string;
  process : string;
  timing : string;
  score : Z;
  bucket : string
}.

End InvestorQualificationResponse.

Module LeadNoteResponse.

Record t := mk {
  id : string;
  content : string;
  createdBy : string;
  createdAt : datetime
}.

End LeadNoteResponse.

Module StageChangeResponse.

Record t := mk {
  id : string;
  fromStage : option string;
  toStage : string;
  changedBy : string;
  notes : option string;
  changedAt : datetime
}.

End StageChangeResponse.

Module LeadWithDetailsResponse.

(** [calls] and [matches] are the (empty) images of the relations that
    nothing writes; they carry no payload here. *)
Record t := mk {
  id : string;
  name : string;
  phone : string;
  timeline : option string;
  capitalAvailable : option Z;
  investmentPreferences : list string;
  investmentThesis : option string;
  riskTolerance : option string;
  stage : string;
  leadScore : Z;
  source : string;
  createdAt : datetime;
  updatedAt : datetime;
  calls : list unit;
  matches : list unit;
  notes : list LeadNoteResponse.t;
  stageHistory : list StageChangeResponse.t;
  qualification : option InvestorQualificationResponse.t
}.

End LeadWithDetailsResponse.

Module LeadListResponse.

Record t := mk {
  leads : list LeadWithDetailsResponse.t;
  total : Z;
  page : Z;
  pageSize : Z;
  totalPages : Z
}.

End LeadListResponse.

Module StageUpdateRequest.

Record t := mk {
  stage : string;
  notes : option string
}.

End StageUpdateRequest.

Module ActivityItem.

Record t := mk {
  id : string;
  type : string;
  message : string;
  timestamp : datetime
}.

End ActivityItem.

Module AdminStatsResponse.

Record t (float : Type) := mk {
  totalLeads : Z;
  byStage : gmap string Z;
  averageScore : float;
  totalDeals : Z;
  recentActivity : list ActivityItem.t
}.
Arguments mk {float}.
Arguments totalLeads {float}.
Arguments byStage {float}.
Arguments averageScore {float}.
Arguments totalDeals {float}.
Arguments recentActivity {float}.

End AdminStatsResponse.

(** ** Lead submission router (routers/leads.py) *)

Module leads.

(** The dict literal [capital_map] of [parse_capital]. *)
Definition capital_map : gmap string Z :=
  <["$100K-$250K" := 175000]>
    (<["$250K-$500K" := 375000]>
       (<["$500K-$1M" := 750000]>
          (<["$1M+" := 1500000]> ∅))).

(** [parse_capital]. *)
Definition parse_capital (capital_str : option string) : option Z :=
  match capital_str with
  | None => None
  | Some s =>
      if negb (Py.truthy s) then None
      else if Py.startswith s "other:" then None
      else capital_map !! s
  end.

(** The capital computed from the submission, before the profile is
    built. *)
Definition capital_of (lead_data : LeadSubmissionRequest.t) : option Z :=
  match LeadSubmissionRequest.qualification lead_data with
  | Some q => parse_capital (Some (QualificationData.capacity q))
  | None =>
      if Py.truthy_opt (LeadSubmissionRequest.capitalAvailable lead_data)
      then parse_capital (LeadSubmissionRequest.capitalAvailable lead_data)
      else None
  end.

(** The profile built from the submission: the constructor call, then the
    qualification attributes when the block is present. *)
Definition build_investor (id : UUID) (lead_data : LeadSubmissionRequest.t)
    : InvestorProfile.t :=
  let investor :=
    InvestorProfile.init id
      (LeadSubmissionRequest.phoneNumber lead_data)
      (LeadSubmissionRequest.investmentTimeline lead_data)
      (capital_of lead_data)
      (Py.or_list (LeadSubmissionRequest.investmentPreferences lead_data))
      "new_lead" "web" in
  match LeadSubmissionRequest.qualification lead_data with
  | Some q =>
      InvestorProfile.set_qualification
        (QualificationData.investorType q) (QualificationData.capacity q)
        (QualificationData.fit q) (QualificationData.process q)
        (QualificationData.timing q) (QualificationData.bucket q)
        (QualificationData.score q) investor
  | None => investor
  end.

(** [submit_lead]. [client_host] is [request.client.host] when the
    request has a client. *)
Definition submit_lead (client_host : option string)
    (lead_data : LeadSubmissionRequest.t)
    (x_forwarded_for user_agent : option string)
    : M LeadSubmissionResponse.t :=
  (* Validate consent *)
  if negb (LeadSubmissionRequest.consent lead_data) then
    raise (HTTPException 400 "Consent is required for lead submission")
  else
    (* Check if phone already exists *)
    existing ← investor_repo.get_by_phone
                 (LeadSubmissionRequest.phoneNumber lead_data);
    match existing with
    | Some existing =>
        mret {| LeadSubmissionResponse.success := true;
                LeadSubmissionResponse.message := "Lead already exists";
                LeadSubmissionResponse.leadId :=
                  Py.str_uuid (InvestorProfile.id (Lead.row existing)) |}
    | None =>
        id ← session.uuid4;
        (* Save investor *)
        investor ← base_repo.create (build_investor id lead_data);
        (* Store consent record *)
        let ip_address := Py.or_opt x_forwarded_for client_host in
        investor_repo.add_consent (InvestorProfile.id (Lead.row investor))
          "TCPA consent granted via web chatbot" ip_address user_agent;;
        (* Record initial stage *)
        hid ← session.uuid4;
        session.add
          (NewStageHistory
             {| StageHistory.id := hid;
                StageHistory.investor_id := InvestorProfile.id (Lead.row investor);
                StageHistory.from_stage := None;
                StageHistory.to_stage := "new_lead";
                StageHistory.changed_by := "system";
                StageHistory.notes := Some "Lead submitted via chatbot";
                StageHistory.changed_at := 0 |});;
        mret {| LeadSubmissionResponse.success := true;
                LeadSubmissionResponse.message := "Lead submitted successfully";
                LeadSubmissionResponse.leadId :=
                  Py.str_uuid (InvestorProfile.id (Lead.row investor)) |}
    end.

End leads.

(** ** Lead processing service (services/lead_processor.py) *)

Module lead_processor.

Definition capital_map : gmap string Z :=
  <["$100K-$250K" := 175000]>
    (<["$250K-$500K" := 375000]>
       (<["$500K-$1M" := 750000]>
          (<["$1M+" := 1500000]> ∅))).

(** [parse_capital_to_int]. *)
Definition parse_capital_to_int (capital_str : option string) : option Z :=
  match capital_str with
  | None => None
  | Some s =>
      if negb (Py.truthy s) then None
      else if Py.startswith s "other:" then None
      else capital_map !! s
  end.

Definition capital_of (lead_data : LeadSubmissionRequest.t) : option Z :=
  match LeadSubmissionRequest.qualification lead_data with
  | Some q => parse_capital_to_int (Some (QualificationData.capacity q))
  | None =>
      if Py.truthy_opt (LeadSubmissionRequest.capitalAvailable lead_data)
      then parse_capital_to_int
             (LeadSubmissionRequest.capitalAvailable lead_data)
      else None
  end.

Definition build_investor (id : UUID) (lead_data : LeadSubmissionRequest.t)
    : InvestorProfile.t :=
  let investor :=
    InvestorProfile.init id
      (LeadSubmissionRequest.phoneNumber lead_data)
      (LeadSubmissionRequest.investmentTimeline lead_data)
      (capital_of lead_data)
      (Py.or_list (LeadSubmissionRequest.investmentPreferences lead_data))
      "new_lead" "web" in
  match LeadSubmissionRequest.qualification lead_data with
  | Some q =>
      InvestorProfile.set_qualification
        (QualificationData.investorType q) (QualificationData.capacity q)
        (QualificationData.fit q) (QualificationData.process q)
        (QualificationData.timing q) (QualificationData.bucket q)
        (QualificationData.score q) investor
  | None => investor
  end.

(** [LeadProcessor.process_lead]. *)
Definition process_lead (lead_data : LeadSubmissionRequest.t)
    (ip_address user_agent : option string) : M Lead.t :=
  (* Check for existing lead *)
  existing ← investor_repo.get_by_phone
               (LeadSubmissionRequest.phoneNumber lead_data);
  match existing with
  | Some existing => mret existing
  | None =>
      id ← session.uuid4;
      (* Save investor *)
      investor ← base_repo.create (build_investor id lead_data);
      (* Store consent *)
      investor_repo.add_consent (InvestorProfile.id (Lead.row investor))
        "TCPA consent granted via web chatbot" ip_address user_agent;;
      mret investor
  end.

End lead_processor.

(** ** Admin dashboard router (routers/admin.py) *)

Module admin.

(** Valid pipeline stages. *)
Definition VALID_STAGES : list string :=
  [ "new_lead";
    "call_dispatched";
    "call_completed";
    "insights_extracted";
    "deals_matched";
    "under_review";
    "closed" ].

(** The qualification block that [_investor_to_response] builds first:
    [if lead.investor_type and lead.qualification_bucket]. *)
Definition qualification_of (lead : Lead.t)
    : option InvestorQualificationResponse.t :=
  let r := Lead.row lead in
  match InvestorProfile.investor_type r,
        InvestorProfile.qualification_bucket r with
  | Some investor_type, Some qualification_bucket =>
      if Py.truthy investor_type && Py.truthy qualification_bucket then
        Some {| InvestorQualificationResponse.investorType := investor_type;
                InvestorQualificationResponse.capacity :=
                  Py.or_str (InvestorProfile.capacity r) EmptyString;
                InvestorQualificationResponse.fit :=
                  Py.or_str (InvestorProfile.fit r) EmptyString;
                InvestorQualificationResponse.process :=
                  Py.or_str (InvestorProfile.process r) EmptyString;
                InvestorQualificationResponse.timing :=
                  Py.or_str (InvestorProfile.timing r) EmptyString;
                InvestorQualificationResponse.score :=
                  Py.or_int (InvestorProfile.qualification_score r)
                    (InvestorProfile.lead_score r);
                InvestorQualificationResponse.bucket :=
                  qualification_bucket |}
      else None
  | _, _ => None
  end.

(** [_investor_to_response]. The blocks are built first; the constructor
    call then reads its arguments in order, [lead.name] second. *)
Definition _investor_to_response (lead : Lead.t)
    : M LeadWithDetailsResponse.t :=
  let r := Lead.row lead in
  (* Build qualification if present *)
  let qualification := qualification_of lead in
  (* Convert notes *)
  let notes :=
    map (fun note =>
           {| LeadNoteResponse.id := Py.str_uuid (LeadNote.id note);
              LeadNoteResponse.content := LeadNote.content note;
              LeadNoteResponse.createdBy := LeadNote.created_by note;
              LeadNoteResponse.createdAt := LeadNote.created_at note |})
        (Lead.notes lead) in
  (* Convert stage history *)
  let stage_history :=
    map (fun change =>
           {| StageChangeResponse.id := Py.str_uuid (StageHistory.id change);
              StageChangeResponse.fromStage := StageHistory.from_stage change;
              StageChangeResponse.toStage := StageHistory.to_stage change;
              StageChangeResponse.changedBy := StageHistory.changed_by change;
              StageChangeResponse.notes := StageHistory.notes change;
              StageChangeResponse.changedAt := StageHistory.changed_at change |})
        (Lead.stage_history lead) in
  let id := Py.str_uuid (InvestorProfile.id r) in
  name ← Lead.name lead;
  mret
  {| LeadWithDetailsResponse.id := id;
     LeadWithDetailsResponse.name := name;
     LeadWithDetailsResponse.phone := InvestorProfile.phone r;
     LeadWithDetailsResponse.timeline := InvestorProfile.timeline r;
     LeadWithDetailsResponse.capitalAvailable :=
       InvestorProfile.capital_available r;
     LeadWithDetailsResponse.investmentPreferences :=
       InvestorProfile.investment_preferences r;
     LeadWithDetailsResponse.investmentThesis :=
       InvestorProfile.investment_thesis r;
     LeadWithDetailsResponse.riskTolerance := InvestorProfile.risk_tolerance r;
     LeadWithDetailsResponse.stage := InvestorProfile.stage r;
     LeadWithDetailsResponse.leadScore := InvestorProfile.lead_score r;
     LeadWithDetailsResponse.source := InvestorProfile.source r;
     LeadWithDetailsResponse.createdAt := InvestorProfile.created_at r;
     LeadWithDetailsResponse.updatedAt := InvestorProfile.updated_at r;
     LeadWithDetailsResponse.calls := [];
     LeadWithDetailsResponse.matches := [];
     LeadWithDetailsResponse.notes := notes;
     LeadWithDetailsResponse.stageHistory := stage_history;
     LeadWithDetailsResponse.qualification := qualification |}.

(** [get_lead]. *)
Definition get_lead (lead_id : UUID) : M LeadWithDetailsResponse.t :=
  lead ← investor_repo.get_with_relations lead_id;
  match lead with
  | None => raise (HTTPException 404 "Lead not found")
  | Some lead => _investor_to_response lead
  end.

(** [update_lead_stage]. *)
Definition update_lead_stage (lead_id : UUID)
    (stage_data : StageUpdateRequest.t) : M LeadWithDetailsResponse.t :=
  if negb (Py.contains VALID_STAGES (StageUpdateRequest.stage stage_data)) then
    raise (HTTPException 400
             ("Invalid stage. Must be one of: " +:+ Py.repr_list VALID_STAGES))
  else
    lead ← investor_repo.update_stage lead_id
             (StageUpdateRequest.stage stage_data) "admin"
             (StageUpdateRequest.notes stage_data);
    match lead with
    | None => raise (HTTPException 404 "Lead not found")
    | Some _ =>
        (* Reload with relations *)
        lead ← investor_repo.get_with_relations lead_id;
        match lead with
        | Some lead => _investor_to_response lead
        | None => raise AttributeError
        end
    end.

(** [add_lead_note]. *)
Definition add_lead_note (lead_id : UUID) (content : string)
    : M LeadNoteResponse.t :=
  note ← investor_repo.add_note lead_id content "admin";
  match note with
  | None => raise (HTTPException 404 "Lead not found")
  | Some note =>
      mret {| LeadNoteResponse.id := Py.str_uuid (LeadNote.id note);
              LeadNoteResponse.content := LeadNote.content note;
              LeadNoteResponse.createdBy := LeadNote.created_by note;
              LeadNoteResponse.createdAt := LeadNote.created_at note |}
  end.

(** [s.replace("Z", "+00:00")]. *)
Fixpoint replace_Z (s : string) : string :=
  match s with
  | EmptyString => EmptyString
  | String c s' =>
      if Ascii.eqb c "Z" then "+00:00" +:+ replace_Z s'
      else String c (replace_Z s')
  end.

(** [math.ceil(total / page_size) if total > 0 else 1], on integers. *)
Definition total_pages (total page_size : Z) : Z :=
  if (0 <? total)%Z then (total + page_size - 1) / page_size else 1.

Section ListLeads.

(** [datetime.fromisoformat], [None] standing for [ValueError]. *)
Variable fromisoformat : string -> option datetime.

Definition parse_date (d : option string) : option datetime :=
  match d with
  | Some s => if Py.truthy s then fromisoformat (replace_Z s) else None
  | None => None
  end.

(** [list_leads]. The bounds of [page] and [pageSize] are those of the
    [Query] declarations, checked before the handler runs. *)
Definition list_leads (stage : option string)
    (score_min score_max capital_min capital_max : option Z)
    (date_from date_to search : option string)
    (sort_by sort_order : string) (page page_size : Z)
    : M LeadListResponse.t :=
  if (page <? 1)%Z || (page_size <? 1)%Z || (100 <? page_size)%Z then
    raise RequestValidationError
  else
    (* Parse dates *)
    let date_from_dt := parse_date date_from in
    let date_to_dt := parse_date date_to in
    (* Calculate offset *)
    let skip := (page - 1) * page_size in
    (* Search *)
    '(leads, total) ← investor_repo.search_leads stage score_min score_max
                        capital_min capital_max date_from_dt date_to_dt
                        search sort_by sort_order skip page_size;
    (* Convert to response format *)
    lead_responses ← mapM _investor_to_response leads;
    mret {| LeadListResponse.leads := lead_responses;
            LeadListResponse.total := total;
            LeadListResponse.page := page;
            LeadListResponse.pageSize := page_size;
            LeadListResponse.totalPages := total_pages total page_size |}.

End ListLeads.

Section Stats.

(** Floating-point numbers are kept abstract, as in the repository:
    [round1 x] is [round(x, 1)]. *)
Variable float : Type.
Variable float_of_ratio : Z -> Z -> float.
Variable zero : float.
Variable round1 : float -> float.

(** [get_stats]. *)
Definition get_stats : M (AdminStatsResponse.t float) :=
  (* Get stats *)
  total_leads ← base_repo.count;
  by_stage ← investor_repo.get_stats_by_stage;
  average_score ← investor_repo.get_average_score float float_of_ratio zero;
  total_deals ← property_repo.count;
  (* Get recent leads for activity *)
  '(recent_leads, _) ← investor_repo.search_leads None None None None None
                         None None None "created_at" "desc" 0 5;
  let recent_activity :=
    map (fun lead =>
           {| ActivityItem.id :=
                Py.str_uuid (InvestorProfile.id (Lead.row lead));
              ActivityItem.type := "new_lead";
              ActivityItem.message :=
                "New lead from "
                +:+ substring 0 6 (InvestorProfile.phone (Lead.row lead))
                +:+ "***";
              ActivityItem.timestamp :=
                InvestorProfile.created_at (Lead.row lead) |})
        recent_leads in
  mret {| AdminStatsResponse.totalLeads := total_leads;
          AdminStatsResponse.byStage := by_stage;
          AdminStatsResponse.averageScore := round1 average_score;
          AdminStatsResponse.totalDeals := total_deals;
          AdminStatsResponse.recentActivity := recent_activity |}.

End Stats.

End admin.

(** ** Deals router (routers/properties.py) *)

Module properties.

Section Responses.

(** [_property_to_response] copies the columns of a row into the
    response one by one. The row type above keeps the columns that the
    repository reads, so the response type and the conversion are
    parameters here. *)
Variable DealMemoResponse : Type.
Variable _property_to_response : Property.t -> DealMemoResponse.

Record DealListResponse := mkDealListResponse {
  deals : list DealMemoResponse;
  total : Z
}.

(** [list_deals]. *)
Definition list_deals (status : option string) : M DealListResponse :=
  match status with
  | Some s =>
      if Py.truthy s then
        deals ← property_repo.get_by_status s 0 100;
        let total := Z.of_nat (length deals) in
        mret {| deals := map _property_to_response deals; total := total |}
      else
        '(deals, total) ← property_repo.get_active_deals 0 100;
        mret {| deals := map _property_to_response deals; total := total |}
  | None =>
      '(deals, total) ← property_repo.get_active_deals 0 100;
      mret {| deals := map _property_to_response deals; total := total |}
  end.

(** [get_deal]. *)
Definition get_deal (deal_id : UUID) : M DealMemoResponse :=
  deal ← property_repo.get deal_id;
  match deal with
  | None => raise (HTTPException 404 "Deal not found")
  | Some deal => mret (_property_to_response deal)
  end.

End Responses.

End properties.

(** ** Settings (config.py) *)

Module config.

(** [Settings.async_database_url], as a function of [database_url]. *)
Definition async_database_url (database_url : string) : string :=
  let url := database_url in
  if Py.startswith url "postgresql://"
  then Py.replace_first url "postgresql://" "postgresql+asyncpg://"
  else url.

End config.

(** ** Vocabulary of the statements *)

(** [t] occurs in [s] as a contiguous substring. *)
Definition occurs (t s : list ascii) : Prop :=
  exists pre post : list ascii, s = (pre ++ t ++ post)%list.

Definition occurs_in (t s : string) : Prop :=
  occurs (list_ascii_of_string t) (list_ascii_of_string s).

Fixpoint prefixb (t s : list ascii) : bool :=
  match t, s with
  | [], _ => true
  | _ :: _, [] => false
  | a :: t', b :: s' => Ascii.eqb a b && prefixb t' s'
  end.

Fixpoint infixb (t s : list ascii) : bool :=
  prefixb t s || match s with [] => false | _ :: s' => infixb t s' end.

(** No LIKE metacharacter in the term. *)
Definition plain_char (c : ascii) : bool :=
  negb (Sql.is_percent c) && negb (Sql.is_underscore c)
  && negb (Sql.is_backslash c).

Definition plain (t : list ascii) : bool := forallb plain_char t.

(** The leads that carry a phone number, in table order. *)
Definition leads_with_phone (st : Store) (phone : string)
    : list InvestorProfile.t :=
  List.filter (fun i => String.eqb (InvestorProfile.phone i) phone)
    (investor_profiles st).

(** The leads with a given identifier, in table order. *)
Definition leads_with_id (st : Store) (id : UUID) : list InvestorProfile.t :=
  List.filter (fun i => N.eqb (InvestorProfile.id i) id) (investor_profiles st).

(** Stage-history and consent rows of a lead, in insertion order. *)
Definition history_rows (st : Store) (id : UUID) : list StageHistory.t :=
  List.filter (fun h => N.eqb (StageHistory.investor_id h) id)
    (stage_history st).

Definition consent_rows (st : Store) (id : UUID) : list Consent.t :=
  List.filter (fun c => N.eqb (Consent.investor_id c) id) (consents st).

(** A creation row: no source stage, target [new_lead], actor [system]. *)
Definition is_creation_row (h : StageHistory.t) : bool :=
  match StageHistory.from_stage h with
  | None =>
      String.eqb (StageHistory.to_stage h) "new_lead"
      && String.eqb (StageHistory.changed_by h) "system"
  | Some _ => false
  end.

(** The schema constraints of the store (primary key of the leads,
    foreign keys of the child tables) and the freshness of the
    identifier supply. *)
Record wf (st : Store) : Prop := mkWf {
  wf_pk : NoDup (map InvestorProfile.id (investor_profiles st));
  wf_fresh : forall i, In i (investor_profiles st) ->
                       (InvestorProfile.id i < next_uuid st)%N;
  wf_fk_consents : forall c, In c (consents st) ->
                             has_investor st (Consent.investor_id c) = true;
  wf_fk_notes : forall n, In n (lead_notes st) ->
                          has_investor st (LeadNote.investor_id n) = true;
  wf_fk_history : forall h, In h (stage_history st) ->
                            has_investor st (StageHistory.investor_id h) = true
}.

(** Each row starts at the stage the previous row ended at; [prev] is the
    stage before the first row. *)
Fixpoint linked (prev : option string) (rows : list StageHistory.t) : Prop :=
  match rows with
  | [] => True
  | h :: rest =>
      StageHistory.from_stage h = prev
      /\ linked (Some (StageHistory.to_stage h)) rest
  end.

(** One stage update as a request of its own: repository call inside
    [get_db]. *)
Definition run_update_stage (now : datetime) (id : UUID)
    (new_stage changed_by : string) (notes : option string) (st : Store)
    : result (option Lead.t) * Store :=
  session.get_db now
    (investor_repo.update_stage id new_stage changed_by notes) st.

(** A series of stage updates of one lead, each a request of its own;
    an update is described by its time, stage, actor and notes. *)
Fixpoint run_updates (id : UUID)
    (ups : list (datetime * string * string * option string)) (st : Store)
    : Store :=
  match ups with
  | [] => st
  | (now, new_stage, changed_by, notes) :: rest =>
      run_updates id rest
        (snd (run_update_stage now id new_stage changed_by notes st))
  end.

(** The rows written by a first-time intake of [req] at [nw] on a store
    whose next identifier is [l]. *)
Definition intake_consent_row (l : UUID) (ip_address user_agent : option string)
    (nw : datetime) : Consent.t :=
  {| Consent.id := N.succ l; Consent.investor_id := l;
     Consent.consent_text := "TCPA consent granted via web chatbot";
     Consent.ip_address := ip_address; Consent.user_agent := user_agent;
     Consent.created_at := nw |}.

Definition intake_creation_row (l : UUID) (nw : datetime) : StageHistory.t :=
  {| StageHistory.id := N.succ (N.succ l); StageHistory.investor_id := l;
     StageHistory.from_stage := None; StageHistory.to_stage := "new_lead";
     StageHistory.changed_by := "system";
     StageHistory.notes := Some "Lead submitted via chatbot";
     StageHistory.changed_at := nw |}.

(** The store after the profile and its consent are saved. *)
Definition store_after_profile_and_consent (nw : datetime)
    (req : LeadSubmissionRequest.t) (ip_address user_agent : option string)
    (st : Store) : Store :=
  insert_consent (intake_consent_row (next_uuid st) ip_address user_agent nw)
    (draw_uuid
       (insert_investor
          (InvestorProfile.stamp nw (leads.build_investor (next_uuid st) req))
          (draw_uuid st))).

(** The store after a first-time [submit_lead] has committed. *)
Definition store_after_submit (nw : datetime) (req : LeadSubmissionRequest.t)
    (ip_address user_agent : option string) (st : Store) : Store :=
  insert_history (intake_creation_row (next_uuid st) nw)
    (draw_uuid
       (store_after_profile_and_consent nw req ip_address user_agent st)).

(** The store after a stage update of the lead [i] has committed. *)
Definition store_after_update (nw : datetime) (id : UUID)
    (new_stage changed_by : string) (notes : option string)
    (i : InvestorProfile.t) (st : Store) : Store :=
  insert_history
    {| StageHistory.id := next_uuid st; StageHistory.investor_id := id;
       StageHistory.from_stage := Some (InvestorProfile.stage i);
       StageHistory.to_stage := new_stage;
       StageHistory.changed_by := changed_by; StageHistory.notes := notes;
       StageHistory.changed_at := nw |}
    (update_investors (stage_update id new_stage nw) (draw_uuid st)).

(** The stage a row sequence ends at, [prev] being the stage before the
    first row. *)
Fixpoint final_stage (prev : option string) (rows : list StageHistory.t)
    : option string :=
  match rows with
  | [] => prev
  | h :: rest => final_stage (Some (StageHistory.to_stage h)) rest
  end.

(** The stage requested by an update of a series. *)
Definition update_stage_of (u : datetime * string * string * option string)
    : string :=
  let '(_, new_stage, _, _) := u in new_stage.

(** The history of a lead is a chain through the given stages that ends
    at the lead's current stage. *)
Definition history_chain (st : Store) (id : UUID) (stages : list string)
    : Prop :=
  exists i,
    leads_with_id st id = [i]
    /\ linked None (history_rows st id)
    /\ map StageHistory.to_stage (history_rows st id) = stages
    /\ final_stage None (history_rows st id) = Some (InvestorProfile.stage i).

(** The note row written by [add_note] on a store whose next identifier
    is [l], and the store after the request has committed. *)
Definition note_row (l investor_id : UUID) (content created_by : string)
    (nw : datetime) : LeadNote.t :=
  {| LeadNote.id := l; LeadNote.investor_id := investor_id;
     LeadNote.content := content; LeadNote.created_by := created_by;
     LeadNote.created_at := nw |}.

Definition store_after_note (nw : datetime) (investor_id : UUID)
    (content created_by : string) (st : Store) : Store :=
  insert_note (note_row (next_uuid st) investor_id content created_by nw)
    (draw_uuid st).

(** No two leads carry the same phone number. *)
Definition unique_phones (st : Store) : Prop :=
  NoDup (map InvestorProfile.phone (investor_profiles st)).

(** Every lead is in one of the seven stages and every history row leads
    to one of them. *)
Definition stages_valid (st : Store) : Prop :=
  (forall i, In i (investor_profiles st) ->
             In (InvestorProfile.stage i) admin.VALID_STAGES)
  /\ (forall h, In h (stage_history st) ->
                In (StageHistory.to_stage h) admin.VALID_STAGES).

(** The identifiers of the child rows were all drawn from the supply. *)
Record ids_fresh (st : Store) : Prop := mkIdsFresh {
  fresh_consents : forall c, In c (consents st) ->
                             (Consent.id c < next_uuid st)%N;
  fresh_notes : forall n, In n (lead_notes st) ->
                          (LeadNote.id n < next_uuid st)%N;
  fresh_history : forall h, In h (stage_history st) ->
                            (StageHistory.id h < next_uuid st)%N
}.

(** The stage history explains the stage of every lead: the rows of a
    lead form a chain that starts from no stage and ends at the stage
    the lead is in. *)
Definition history_explains (st : Store) : Prop :=
  forall i, In i (investor_profiles st) ->
    linked None (history_rows st (InvestorProfile.id i))
    /\ final_stage None (history_rows st (InvestorProfile.id i))
       = Some (InvestorProfile.stage i).

(** 1 for the stage [x], 0 for every other stage. *)
Definition stage_is (x k : string) : nat :=
  if String.eqb x k then 1%nat else 0%nat.

(** The rows of the answer of a paged query, none when it raised. *)
Definition rows_of {A} (r : result (list A * Z) * Session) : list A :=
  match fst r with
  | Ok (rows, _) => rows
  | Raise _ => []
  end.

(** Adjacent elements are in the given order. *)
Fixpoint ordered {A} (before : A -> A -> bool) (l : list A) : Prop :=
  match l with
  | [] => True
  | x :: rest =>
      match rest with
      | [] => True
      | y :: _ => before x y = true
      end
      /\ ordered before rest
  end.

(** The requests that write to the lead tables or read one lead, and a
    request served at a given time: the handler inside [get_db]. *)
Inductive Request : Type :=
| SubmitLead (client_host : option string)
    (lead_data : LeadSubmissionRequest.t)
    (x_forwarded_for user_agent : option string)
| UpdateLeadStage (lead_id : UUID) (stage_data : StageUpdateRequest.t)
| AddLeadNote (lead_id : UUID) (content : string)
| GetLead (lead_id : UUID).

Definition serve (r : datetime * Request) (st : Store) : Store :=
  match r with
  | (nw, SubmitLead client_host lead_data x_forwarded_for user_agent) =>
      snd (session.get_db nw
             (leads.submit_lead client_host lead_data x_forwarded_for
                user_agent) st)
  | (nw, UpdateLeadStage lead_id stage_data) =>
      snd (session.get_db nw (admin.update_lead_stage lead_id stage_data) st)
  | (nw, AddLeadNote lead_id content) =>
      snd (session.get_db nw (admin.add_lead_note lead_id content) st)
  | (nw, GetLead lead_id) =>
      snd (session.get_db nw (admin.get_lead lead_id) st)
  end.

(** A series of requests, served one after the other. *)
Definition serve_all (rs : list (datetime * Request)) (st : Store) : Store :=
  fold_left (fun st r => serve r st) rs st.

(** The widths of the VARCHAR columns (models/investor.py,
    models/consent.py): [fits n s] says that [s] has at most [n] bytes,
    and so at most [n] characters. *)
Definition fits (n : nat) (s : string) : bool := (String.length s <=? n)%nat.

Definition fits_opt (n : nat) (o : option string) : bool :=
  match o with
  | Some s => fits n s
  | None => true
  end.

(** The values that an intake of [req] writes fit the columns of
    investor_profiles: phone VARCHAR(20), timeline VARCHAR(50), the
    qualification answers VARCHAR(100), the bucket VARCHAR(50), the score
    INTEGER. *)
Definition request_fits (req : LeadSubmissionRequest.t) : bool :=
  fits 20 (LeadSubmissionRequest.phoneNumber req)
  && fits_opt 50 (LeadSubmissionRequest.investmentTimeline req)
  && match LeadSubmissionRequest.qualification req with
     | Some q =>
         fits 100 (QualificationData.investorType q)
         && fits 100 (QualificationData.capacity q)
         && fits 100 (QualificationData.fit q)
         && fits 100 (QualificationData.process q)
         && fits 100 (QualificationData.timing q)
         && fits 50 (QualificationData.bucket q)
         && Sql.int4 (QualificationData.score q)
     | None => true
     end.

(** A stage update fits the columns of stage_history: the stage
    VARCHAR(50), the actor VARCHAR(100). *)
Definition update_fits (u : datetime * string * string * option string)
    : bool :=
  let '(_, new_stage, changed_by, _) := u in
  fits 50 new_stage && fits 100 changed_by.

(** An optional integer bound that the driver accepts as an INTEGER
    parameter. *)
Definition in_int4 (o : option Z) : Prop :=
  forall v, o = Some v -> (-2147483648 <= v <= 2147483647)%Z.

(** Text in the ASCII range, where the case folding of ILIKE is that of
    the letters A to Z and a character is one byte. *)
Definition ascii_text (s : string) : bool :=
  forallb (fun c => (nat_of_ascii c <? 128)%nat) (list_ascii_of_string s).

(** The name and the summary of a deal are ASCII text. *)
Definition deal_ascii (p : Property.t) : bool :=
  ascii_text (Property.name p)
  && match Property.summary p with
     | Some s => ascii_text s
     | None => true
     end.

(** The filters of a lead listing in the words of the specification:
    the stage is the requested one, score, capital and creation time lie
    in the inclusive ranges, the phone number contains the search term. *)
Definition passes_filters (stage : option string)
    (score_min score_max capital_min capital_max : option Z)
    (date_from date_to : option datetime) (search : option string)
    (i : InvestorProfile.t) : bool :=
  match stage with
  | Some s => negb (Py.truthy s) || String.eqb (InvestorProfile.stage i) s
  | None => true
  end
  && match score_min with
     | Some m => (m <=? InvestorProfile.lead_score i)%Z
     | None => true
     end
  && match score_max with
     | Some m => (InvestorProfile.lead_score i <=? m)%Z
     | None => true
     end
  && match capital_min, InvestorProfile.capital_available i with
     | Some m, Some c => (m <=? c)%Z
     | Some _, None => false
     | None, _ => true
     end
  && match capital_max, InvestorProfile.capital_available i with
     | Some m, Some c => (c <=? m)%Z
     | Some _, None => false
     | None, _ => true
     end
  && match date_from with
     | Some d => (d <=? InvestorProfile.created_at i)%Z
     | None => true
     end
  && match date_to with
     | Some d => (InvestorProfile.created_at i <=? d)%Z
     | None => true
     end
  && match search with
     | Some x =>
         negb (Py.truthy x)
         || infixb (list_ascii_of_string x)
              (list_ascii_of_string (InvestorProfile.phone i))
     | None => true
     end.

(** The sort key of a lead listing in the words of the specification:
    created_at, lead_score or capital_available, and created_at for any
    other name. *)
Definition sort_key_of (sort_by : string) (i : InvestorProfile.t)
    : option Z :=
  if String.eqb sort_by "lead_score"
  then Some (InvestorProfile.lead_score i)
  else if String.eqb sort_by "capital_available"
  then InvestorProfile.capital_available i
  else Some (InvestorProfile.created_at i).

(** Rows in the order of a sort key: ascending, or descending, a missing
    key counting as the largest. *)
Definition in_order {A} (key : A -> option Z) (desc : bool) (l : list A)
    : Prop :=
  ordered (fun a b => if desc then Sql.key_le (key b) (key a)
                      else Sql.key_le (key a) (key b)) l.

(** [page] is a page of the rows [rows] sorted by [key]: the rows from
    offset [skip], at most [limit] of them, of a listing that holds the
    rows, each once, in the order of the key. SQL leaves the order of
    rows with equal keys open, and so does this. *)
Definition page_of {A} (key : A -> option Z) (desc : bool)
    (skip limit : Z) (rows page : list A) : Prop :=
  exists listing,
    Permutation listing rows
    /\ in_order key desc listing
    /\ page = firstn (Z.to_nat limit) (skipn (Z.to_nat skip) listing).

(** ** Sample data *)

Definition sample_qualification : QualificationData.t :=
  {| QualificationData.investorType := "hnw";
     QualificationData.capacity := "$250K-$500K";
     QualificationData.fit := "high_priority";
     QualificationData.process := "toe_in";
     QualificationData.timing := "actively_deploying";
     QualificationData.score := 80;
     QualificationData.bucket := "active_intro" |}.

Definition sample_request : LeadSubmissionRequest.t :=
  {| LeadSubmissionRequest.phoneNumber := "5551234567";
     LeadSubmissionRequest.consent := true;
     LeadSubmissionRequest.timestamp := "2026-01-16T10:00:00Z";
     LeadSubmissionRequest.qualification := Some sample_qualification;
     LeadSubmissionRequest.investmentTimeline := Some "6 months";
     LeadSubmissionRequest.capitalAvailable := None;
     LeadSubmissionRequest.investmentPreferences := Some ["multifamily"] |}.

(** The same phone number with other qualification data. *)
Definition sample_resubmission : LeadSubmissionRequest.t :=
  {| LeadSubmissionRequest.phoneNumber := "5551234567";
     LeadSubmissionRequest.consent := true;
     LeadSubmissionRequest.timestamp := "2026-01-17T09:30:00Z";
     LeadSubmissionRequest.qualification := None;
     LeadSubmissionRequest.investmentTimeline := None;
     LeadSubmissionRequest.capitalAvailable := Some "$1M+";
     LeadSubmissionRequest.investmentPreferences := None |}.

(** A submission whose qualification has an empty investor type. *)
Definition blank_type_request : LeadSubmissionRequest.t :=
  {| LeadSubmissionRequest.phoneNumber := "5559876543";
     LeadSubmissionRequest.consent := true;
     LeadSubmissionRequest.timestamp := "2026-01-16T11:00:00Z";
     LeadSubmissionRequest.qualification :=
       Some {| QualificationData.investorType := EmptyString;
               QualificationData.capacity := "$1M+";
               QualificationData.fit := "medium_priority";
               QualificationData.process := "full_commitment";
               QualificationData.timing := "just_researching";
               QualificationData.score := 40;
               QualificationData.bucket := "nurture" |};
     LeadSubmissionRequest.investmentTimeline := None;
     LeadSubmissionRequest.capitalAvailable := None;
     LeadSubmissionRequest.investmentPreferences := None |}.

(** The lead that this submission stores, as a later SELECT loads it. *)
Definition blank_type_store : Store :=
  snd (session.get_db 10
         (leads.submit_lead None blank_type_request None None) empty_store).

Definition blank_type_lead : Lead.t :=
  Lead.load blank_type_store
    (InvestorProfile.stamp 10 (leads.build_investor 0%N blank_type_request)).

(** Two leads that carry one phone number, as two racing first
    submissions leave them: the table has no unique constraint on
    [phone]. *)
Definition twin_store : Store :=
  {| investor_profiles :=
       [ InvestorProfile.stamp 10
           (leads.build_investor 0%N sample_request);
         InvestorProfile.stamp 10
           (leads.build_investor 3%N sample_resubmission) ];
     consents :=
       [ intake_consent_row 0%N None None 10;
         intake_consent_row 3%N None None 10 ];
     lead_notes := [];
     stage_history :=
       [ intake_creation_row 0%N 10; intake_creation_row 3%N 10 ];
     properties := [];
     next_uuid := 6%N |}.

(** A deal whose name matches the pattern [%r_l%] without containing the
    term. *)
Definition harbor_lofts : Property.t :=
  {| Property.id := 7%N; Property.name := "Harbor Lofts";
     Property.deal_type := "multifamily"; Property.summary := None;
     Property.minimum_investment := Some 50000;
     Property.status := "active"; Property.created_at := 1 |}.

(** The store after the sample submission, and a series of updates. *)
Definition sample_store : Store :=
  snd (session.get_db 10
         (leads.submit_lead None sample_request None None) empty_store).

Definition sample_updates : list (datetime * string * string * option string) :=
  [ (20, "call_dispatched", "admin", None);
    (30, "call_completed", "admin", Some "spoke for ten minutes");
    (40, "call_completed", "admin", None) ].

(** Five leads, submitted one after the other. *)
Definition phone_request (phone : string) : LeadSubmissionRequest.t :=
  {| LeadSubmissionRequest.phoneNumber := phone;
     LeadSubmissionRequest.consent := true;
     LeadSubmissionRequest.timestamp := "2026-01-16T10:00:00Z";
     LeadSubmissionRequest.qualification := None;
     LeadSubmissionRequest.investmentTimeline := None;
     LeadSubmissionRequest.capitalAvailable := Some "$500K-$1M";
     LeadSubmissionRequest.investmentPreferences := None |}.

Definition five_lead_store : Store :=
  fold_left
    (fun st '(nw, phone) =>
       snd (session.get_db nw
              (leads.submit_lead None (phone_request phone) None None) st))
    [ (1, "5550000001"); (2, "5550000002"); (3, "5550000003");
      (4, "5550000004"); (5, "5550000005") ]
    empty_store.

(** Three qualified leads with scores 70, 90 and 80; the second names a
    capacity outside the brackets and has no capital. *)
Definition scored_request (phone capacity : string) (score : Z)
    : LeadSubmissionRequest.t :=
  {| LeadSubmissionRequest.phoneNumber := phone;
     LeadSubmissionRequest.consent := true;
     LeadSubmissionRequest.timestamp := "2026-01-16T10:00:00Z";
     LeadSubmissionRequest.qualification :=
       Some {| QualificationData.investorType := "hnw";
               QualificationData.capacity := capacity;
               QualificationData.fit := "high_priority";
               QualificationData.process := "toe_in";
               QualificationData.timing := "actively_deploying";
               QualificationData.score := score;
               QualificationData.bucket := "active_intro" |};
     LeadSubmissionRequest.investmentTimeline := None;
     LeadSubmissionRequest.capitalAvailable := None;
     LeadSubmissionRequest.investmentPreferences := None |}.

Definition scored_store : Store :=
  fold_left
    (fun st '(nw, phone, capacity, score) =>
       snd (session.get_db nw
              (leads.submit_lead None (scored_request phone capacity score)
                 None None) st))
    [ (1, "5550000001", "$500K-$1M", 70);
      (2, "5550000002", "other: family office", 90);
      (3, "5550000003", "$250K-$500K", 80) ]
    empty_store.

(** A date parser that knows no date: every string is a [ValueError]. *)
Definition no_date (s : string) : option datetime := None.

(** The detail of the rejection of an invalid stage, as Python renders
    the f-string. *)
Definition invalid_stage_detail : string :=
  "Invalid stage. Must be one of: ['new_lead', 'call_dispatched', 'call_completed', 'insights_extracted', 'deals_matched', 'under_review', 'closed']".

(** A series of requests on the sample lead; the fifth asks for a stage
    outside the valid set, the second for a phone number already known. *)
Definition sample_requests : list (datetime * Request) :=
  [ (10, SubmitLead None sample_request None None);
    (20, SubmitLead None sample_resubmission (Some "10.0.0.7") None);
    (30, UpdateLeadStage 0%N
           {| StageUpdateRequest.stage := "call_dispatched";
              StageUpdateRequest.notes := None |});
    (40, AddLeadNote 0%N "left a voicemail");
    (50, UpdateLeadStage 0%N
           {| StageUpdateRequest.stage := "archived";
              StageUpdateRequest.notes := None |});
    (60, GetLead 0%N) ].

(** A submission that withholds consent. *)
Definition refused_request : LeadSubmissionRequest.t :=
  {| LeadSubmissionRequest.phoneNumber := "5551112222";
     LeadSubmissionRequest.consent := false;
     LeadSubmissionRequest.timestamp := "2026-01-18T08:00:00Z";
     LeadSubmissionRequest.qualification := None;
     LeadSubmissionRequest.investmentTimeline := None;
     LeadSubmissionRequest.capitalAvailable := None;
     LeadSubmissionRequest.investmentPreferences := None |}.

(** The first of the five leads, and a filter on stage, score, capital
    and phone number. *)
Definition first_of_five : InvestorProfile.t :=
  InvestorProfile.stamp 1
    (leads.build_investor 0%N (phone_request "5550000001")).

(** A store with three deals: two active, one closed. *)
Definition deal_store : Store :=
  {| investor_profiles := []; consents := []; lead_notes := [];
     stage_history := [];
     properties :=
       [ harbor_lofts;
         {| Property.id := 8%N; Property.name := "Cedar Court";
            Property.deal_type := "multifamily";
            Property.summary := Some "48 units near the harbor";
            Property.minimum_investment := None;
            Property.status := "closed"; Property.created_at := 2 |};
         {| Property.id := 9%N; Property.name := "Mill Street Retail";
            Property.deal_type := "retail"; Property.summary := None;
            Property.minimum_investment := Some 250000;
            Property.status := "active"; Property.created_at := 3 |} ];
     next_uuid := 10%N |}.

(** Two claims in the form the specification words them, for the cases
    where the code departs from the wording. *)

(** A deal passes the free-text filter exactly when the term occurs, up
    to case, in its name or in its summary. *)
Definition deal_search_is_substring : Prop :=
  forall (x : string) (p : Property.t),
    Py.truthy x = true ->
    property_repo.deal_filter None None None (Some x) p = true
    <-> occurs (Sql.lower (list_ascii_of_string x))
               (Sql.lower (list_ascii_of_string (Property.name p)))
        \/ exists summary,
             Property.summary p = Some summary
             /\ occurs (Sql.lower (list_ascii_of_string x))
                       (Sql.lower (list_ascii_of_string summary)).

(** A submission whose phone number some lead of the store carries
    returns that lead's id and leaves the store as it was. *)
Definition intake_returns_existing : Prop :=
  forall (st : Store) (nw : datetime) (client xff ua : option string)
         (req : LeadSubmissionRequest.t),
    wf st ->
    LeadSubmissionRequest.consent req = true ->
    leads_with_phone st (LeadSubmissionRequest.phoneNumber req) <> [] ->
    exists existing,
      In existing (leads_with_phone st (LeadSubmissionRequest.phoneNumber req))
      /\ session.get_db nw (leads.submit_lead client req xff ua) st
         = (Ok {| LeadSubmissionResponse.success := true;
                  LeadSubmissionResponse.message := "Lead already exists";
                  LeadSubmissionResponse.leadId :=
                    Py.str_uuid (InvestorProfile.id existing) |}, st).

(** ** Lists and strings *)

Section ListFacts.
Context {A : Type}.
Implicit Types (f : A -> bool) (l : list A).

Lemma filter_nil_existsb f l : List.filter f l = [] -> existsb f l = false.
Proof.
  induction l as [|a l IH]; simpl; [reflexivity|].
  destruct (f a); [discriminate | exact IH].
Qed.

Lemma filter_cons_existsb f l x r :
  List.filter f l = x :: r -> existsb f l = true.
Proof.
  induction l as [|a l IH]; simpl; [discriminate|].
  destruct (f a); [reflexivity | exact IH].
Qed.

Lemma filter_cons_find f l x r :
  List.filter f l = x :: r -> List.find f l = Some x.
Proof.
  induction l as [|a l IH]; simpl; [discriminate|].
  destruct (f a); [congruence | exact IH].
Qed.

Lemma filter_cons_holds f l x r : List.filter f l = x :: r -> f x = true.
Proof.
  intros H.
  assert (Hin : In x (List.filter f l)) by (rewrite H; left; reflexivity).
  apply List.filter_In in Hin. tauto.
Qed.

Lemma filter_snoc f l x :
  List.filter f (l ++ [x])
  = (List.filter f l ++ if f x then [x] else [])%list.
Proof. rewrite List.filter_app. reflexivity. Qed.

Lemma existsb_snoc f l x : existsb f (l ++ [x]) = existsb f l || f x.
Proof. rewrite List.existsb_app. simpl. rewrite orb_false_r. reflexivity. Qed.

Lemma find_snoc_fresh f l x :
  existsb f l = false -> f x = true -> List.find f (l ++ [x]) = Some x.
Proof.
  induction l as [|a l IH]; simpl; intros Hl Hx.
  - rewrite Hx. reflexivity.
  - destruct (f a); [discriminate | auto].
Qed.

Lemma find_snoc_some f l x :
  f x = true -> exists y, List.find f (l ++ [x]) = Some y.
Proof.
  intros Hx. induction l as [|a l IH]; simpl.
  - rewrite Hx. eauto.
  - destruct (f a); eauto.
Qed.

Lemma existsb_false_filter f l : existsb f l = false -> List.filter f l = [].
Proof.
  induction l as [|a l IH]; simpl; [reflexivity|].
  destruct (f a); simpl; [discriminate | exact IH].
Qed.

End ListFacts.

Lemma contains_false (l : list string) (x : string) :
  ~ In x l -> Py.contains l x = false.
Proof.
  intros H. unfold Py.contains.
  destruct (existsb (String.eqb x) l) eqn:E; [|reflexivity].
  apply List.existsb_exists in E as (y & Hy & Heq).
  apply String.eqb_eq in Heq. subst y. contradiction.
Qed.

Lemma contains_true (l : list string) (x : string) :
  In x l -> Py.contains l x = true.
Proof.
  intros H. apply List.existsb_exists. exists x.
  split; [exact H | apply String.eqb_refl].
Qed.

Lemma prefixb_app (t s : list ascii) :
  prefixb t s = true -> exists post, s = (t ++ post)%list.
Proof.
  revert s. induction t as [|a t IH]; intros s H.
  - exists s. reflexivity.
  - destruct s as [|b s]; simpl in H; [discriminate|].
    apply andb_prop in H as [Hab Hts].
    apply Ascii.eqb_eq in Hab. subst b.
    destruct (IH _ Hts) as [post ->]. exists post. reflexivity.
Qed.

Lemma infixb_occurs (t s : list ascii) : infixb t s = true -> occurs t s.
Proof.
  induction s as [|b s IH]; simpl; intros H.
  - rewrite orb_false_r in H. apply prefixb_app in H as [post ->].
    exists [], post. reflexivity.
  - apply orb_prop in H as [H|H].
    + apply prefixb_app in H as [post ->]. exists [], post. reflexivity.
    + destruct (IH H) as (pre & post & ->).
      exists (b :: pre), post. reflexivity.
Qed.

Section MapFacts.
Context {A : Type} (f : A -> bool) (g : A -> A).
Hypothesis Hfg : forall a, f (g a) = f a.

Lemma filter_map_stable (l : list A) :
  List.filter f (map g l) = map g (List.filter f l).
Proof.
  induction l as [|a l IH]; simpl; [reflexivity|].
  rewrite Hfg. destruct (f a); simpl; rewrite IH; reflexivity.
Qed.

Lemma existsb_map_stable (l : list A) : existsb f (map g l) = existsb f l.
Proof.
  induction l as [|a l IH]; simpl; [reflexivity|].
  rewrite Hfg, IH. reflexivity.
Qed.

Lemma find_map_stable (l : list A) :
  List.find f (map g l) = option_map g (List.find f l).
Proof.
  induction l as [|a l IH]; simpl; [reflexivity|].
  rewrite Hfg. destruct (f a); [reflexivity | exact IH].
Qed.

End MapFacts.

Section OrderByFacts.
Context {A : Type} (key : A -> option Z).

Lemma insert_by_length before (x : A) l :
  length (Sql.insert_by key before x l) = S (length l).
Proof.
  induction l as [|y l IH]; simpl; [reflexivity|].
  destruct (before (key x) (key y)); simpl; [reflexivity | rewrite IH; reflexivity].
Qed.

Lemma order_by_length desc (l : list A) :
  length (Sql.order_by key desc l) = length l.
Proof.
  unfold Sql.order_by. induction l as [|x l IH]; simpl; [reflexivity|].
  rewrite insert_by_length, IH. reflexivity.
Qed.

Lemma insert_by_In before (x y : A) l :
  In y (Sql.insert_by key before x l) <-> y = x \/ In y l.
Proof.
  induction l as [|z l IH]; simpl.
  - intuition.
  - destruct (before (key x) (key z)); simpl; [intuition|].
    rewrite IH. intuition.
Qed.

Lemma order_by_In desc (y : A) (l : list A) :
  In y (Sql.order_by key desc l) <-> In y l.
Proof.
  unfold Sql.order_by. induction l as [|x l IH]; simpl; [tauto|].
  rewrite insert_by_In, IH. intuition.
Qed.

End OrderByFacts.

Lemma offset_limit_length {A} (skip limit : nat) (l : list A) :
  length (Sql.offset_limit skip limit l) = Nat.min limit (length l - skip).
Proof.
  unfold Sql.offset_limit. rewrite List.length_firstn, List.length_skipn.
  reflexivity.
Qed.

Lemma offset_limit_all {A} (limit : nat) (l : list A) :
  (length l <= limit)%nat -> Sql.offset_limit 0 limit l = l.
Proof. intros H. unfold Sql.offset_limit. simpl. apply List.firstn_all2, H. Qed.

Lemma firstn_incl {A} (n : nat) (l : list A) (x : A) :
  In x (firstn n l) -> In x l.
Proof.
  revert l. induction n as [|n IH]; intros [|a l]; simpl; try tauto.
  intros [H|H]; [left; exact H | right; apply IH, H].
Qed.

Lemma offset_limit_In {A} (skip limit : nat) (l : list A) (x : A) :
  In x (Sql.offset_limit skip limit l) -> In x l.
Proof.
  unfold Sql.offset_limit. intros H.
  apply firstn_incl in H.
  rewrite <- (List.firstn_skipn skip l). apply List.in_or_app. right. exact H.
Qed.

(** ** C6: capital brackets *)

Lemma capital_map_other (s : string) :
  s <> "$100K-$250K" -> s <> "$250K-$500K" -> s <> "$500K-$1M" ->
  s <> "$1M+" -> leads.capital_map !! s = None.
Proof.
  intros H1 H2 H3 H4. unfold leads.capital_map.
  rewrite !lookup_insert_ne by congruence. apply lookup_empty.
Qed.

Lemma parse_capital_to_int_eq (o : option string) :
  lead_processor.parse_capital_to_int o = leads.parse_capital o.
Proof. reflexivity. Qed.

(** C6. The capacity bracket is mapped by the fixed four-entry table;
    every other string, any string that starts with [other:] and an
    absent bracket give [None], never an exception; the service's
    [parse_capital_to_int] is the same function; and the capital of the
    profile built at intake is the image of the qualification's capacity
    (of [capitalAvailable] when there is no qualification). *)
Theorem capital_bracket_mapping :
  leads.parse_capital (Some "$100K-$250K") = Some 175000
  /\ leads.parse_capital (Some "$250K-$500K") = Some 375000
  /\ leads.parse_capital (Some "$500K-$1M") = Some 750000
  /\ leads.parse_capital (Some "$1M+") = Some 1500000
  /\ (forall s, s <> "$100K-$250K" -> s <> "$250K-$500K" ->
                s <> "$500K-$1M" -> s <> "$1M+" ->
                leads.parse_capital (Some s) = None)
  /\ (forall s, leads.parse_capital (Some ("other:" +:+ s)) = None)
  /\ leads.parse_capital None = None
  /\ (forall o, lead_processor.parse_capital_to_int o = leads.parse_capital o)
  /\ (forall id req,
        InvestorProfile.capital_available (leads.build_investor id req)
        = match LeadSubmissionRequest.qualification req with
          | Some q => leads.parse_capital (Some (QualificationData.capacity q))
          | None =>
              leads.parse_capital (LeadSubmissionRequest.capitalAvailable req)
          end
        /\ lead_processor.build_investor id req = leads.build_investor id req).
Proof.
  do 4 (split; [vm_compute; reflexivity|]).
  split.
  { intros s H1 H2 H3 H4. unfold leads.parse_capital.
    destruct (negb (Py.truthy s)); [reflexivity|].
    destruct (Py.startswith s "other:"); [reflexivity|].
    apply capital_map_other; assumption. }
  split; [intros s; reflexivity|].
  split; [reflexivity|].
  split; [intros o; reflexivity|].
  intros id req. split; [|reflexivity].
  unfold leads.build_investor, leads.capital_of.
  destruct (LeadSubmissionRequest.qualification req) as [q|]; simpl.
  - reflexivity.
  - destruct (LeadSubmissionRequest.capitalAvailable req) as [[|c s]|];
      reflexivity.
Qed.

Lemma capital_bracket_mapping_witness :
  leads.parse_capital (Some "other:crypto") = None
  /\ leads.parse_capital (Some "a lot") = None.
Proof.
  destruct capital_bracket_mapping as (_ & _ & _ & _ & Hother & Hprefix & _).
  split.
  - exact (Hprefix "crypto").
  - apply Hother; discriminate.
Defined.

(** ** C3: the closed stage set at the API *)

Lemma invalid_stage_detail_eq :
  "Invalid stage. Must be one of: " +:+ Py.repr_list admin.VALID_STAGES
  = invalid_stage_detail.
Proof. vm_compute. reflexivity. Qed.

Lemma invalid_stage_detail_enumerates (v : string) :
  In v admin.VALID_STAGES -> occurs_in (Py.repr_str v) invalid_stage_detail.
Proof.
  intros H. apply infixb_occurs.
  simpl in H.
  repeat (destruct H as [<-|H]; [vm_compute; reflexivity|]).
  contradiction.
Qed.

(** C3. A stage outside the seven valid values is refused with status 400
    and a detail that lists every valid value; the handler returns at
    once, whatever the session holds (no repository call: the session is
    returned as it was received, and the lead need not even exist); the
    store after the request is the store before it, so the lead's stage
    and its history are unchanged. *)
Theorem invalid_stage_rejected (lead_id : UUID) (stage : string)
    (notes : option string) :
  ~ In stage admin.VALID_STAGES ->
  let stage_data :=
    {| StageUpdateRequest.stage := stage; StageUpdateRequest.notes := notes |} in
  (forall s : Session,
      admin.update_lead_stage lead_id stage_data s
      = (Raise (HTTPException 400 invalid_stage_detail), s))
  /\ (forall (nw : datetime) (st : Store),
        session.get_db nw (admin.update_lead_stage lead_id stage_data) st
        = (Raise (HTTPException 400 invalid_stage_detail), st))
  /\ (forall v, In v admin.VALID_STAGES ->
                occurs_in (Py.repr_str v) invalid_stage_detail).
Proof.
  intros Hout stage_data.
  assert (Hrun : forall s : Session,
             admin.update_lead_stage lead_id stage_data s
             = (Raise (HTTPException 400 invalid_stage_detail), s)).
  { intros s. unfold admin.update_lead_stage, stage_data.
    cbn [StageUpdateRequest.stage StageUpdateRequest.notes].
    rewrite (contains_false _ _ Hout). cbn [negb].
    rewrite invalid_stage_detail_eq. reflexivity. }
  split; [exact Hrun|]. split.
  - intros nw st. unfold session.get_db. rewrite Hrun. reflexivity.
  - exact invalid_stage_detail_enumerates.
Qed.

Lemma invalid_stage_rejected_witness :
  session.get_db 5
    (admin.update_lead_stage 0%N
       {| StageUpdateRequest.stage := "archived";
          StageUpdateRequest.notes := None |}) empty_store
  = (Raise (HTTPException 400 invalid_stage_detail), empty_store).
Proof.
  refine (proj1 (proj2 (invalid_stage_rejected 0%N "archived" None _))
            5 empty_store).
  simpl. intros H.
  repeat (destruct H as [H|H]; [discriminate H|]). exact H.
Defined.

(** ** C9: the free-text filter of the deal search *)

Lemma prefixb_self (t post : list ascii) : prefixb t (t ++ post) = true.
Proof.
  induction t as [|a t IH]; simpl; [reflexivity|].
  rewrite Ascii.eqb_refl. exact IH.
Qed.

Lemma occurs_infixb (t s : list ascii) : occurs t s -> infixb t s = true.
Proof.
  assert (Hunfold : forall s', infixb t s'
            = prefixb t s'
              || match s' with [] => false | _ :: r => infixb t r end)
    by (intros []; reflexivity).
  intros (pre & post & ->). induction pre as [|a pre IH].
  - rewrite Hunfold. cbn [app]. rewrite prefixb_self. reflexivity.
  - rewrite Hunfold. cbn [app]. rewrite IH. apply orb_true_r.
Qed.

Lemma list_ascii_app (a b : string) :
  list_ascii_of_string (a +:+ b)
  = (list_ascii_of_string a ++ list_ascii_of_string b)%list.
Proof.
  induction a as [|c a IH]; [reflexivity|].
  change (String c a +:+ b) with (String c (a +:+ b)).
  simpl. rewrite IH. reflexivity.
Qed.

Lemma like_percent (p s : list ascii) :
  Sql.like ("%"%char :: p) s
  = Sql.like p s
    || match s with [] => false | _ :: s' => Sql.like ("%"%char :: p) s' end.
Proof. destruct s; reflexivity. Qed.

Lemma like_percent_iff (p s : list ascii) :
  Sql.like ("%"%char :: p) s = true
  <-> exists pre r, s = (pre ++ r)%list /\ Sql.like p r = true.
Proof.
  split.
  - induction s as [|a s IH]; rewrite like_percent; intros H.
    + rewrite orb_false_r in H. exists [], []. auto.
    + apply orb_prop in H as [H|H].
      * exists [], (a :: s). auto.
      * destruct (IH H) as (pre & r & -> & Hr).
        exists (a :: pre), r. auto.
  - intros (pre & r & -> & Hr). induction pre as [|a pre IH].
    + rewrite like_percent. cbn [app]. rewrite Hr. reflexivity.
    + rewrite like_percent. cbn [app]. rewrite IH. apply orb_true_r.
Qed.

Lemma like_plain_cons (c : ascii) (p s : list ascii) :
  plain_char c = true ->
  Sql.like (c :: p) s
  = match s with
    | [] => false
    | x :: s' => Ascii.eqb c x && Sql.like p s'
    end.
Proof.
  unfold plain_char. intros H.
  apply andb_prop in H as [H Hb]. apply andb_prop in H as [Hp Hu].
  apply negb_true_iff in Hp, Hu, Hb.
  simpl. rewrite Hp, Hu, Hb. reflexivity.
Qed.

Lemma like_plain_app (t p s : list ascii) :
  plain t = true ->
  Sql.like (t ++ p) s = true
  <-> exists r, s = (t ++ r)%list /\ Sql.like p r = true.
Proof.
  revert s. induction t as [|c t IH]; intros s Ht.
  - simpl. split; [intros H; exists s; auto | intros (r & -> & H); exact H].
  - simpl in Ht. apply andb_prop in Ht as [Hc Ht].
    cbn [app]. rewrite (like_plain_cons _ _ _ Hc).
    destruct s as [|x s]; simpl.
    + split; [discriminate | intros (r & Hr & _); discriminate].
    + split.
      * intros H. apply andb_prop in H as [Hx H].
        apply Ascii.eqb_eq in Hx. subst x.
        apply (IH _ Ht) in H as (r & -> & Hr). exists r. auto.
      * intros (r & Heq & Hr). injection Heq as -> ->.
        rewrite Ascii.eqb_refl. simpl. apply (IH _ Ht). eauto.
Qed.

Lemma like_any (s : list ascii) : Sql.like ["%"%char] s = true.
Proof. apply like_percent_iff. exists s, []. rewrite app_nil_r. auto. Qed.

(** A pattern [%t%] with no metacharacter in [t] is a substring test. *)
Lemma like_wrapped_plain (t s : list ascii) :
  plain t = true ->
  Sql.like ("%"%char :: t ++ ["%"%char]) s = true <-> occurs t s.
Proof.
  intros Ht. rewrite like_percent_iff. split.
  - intros (pre & r & -> & Hr).
    apply (like_plain_app _ _ _ Ht) in Hr as (post & -> & _).
    exists pre, post. reflexivity.
  - intros (pre & post & ->). exists pre, (t ++ post)%list.
    split; [reflexivity|]. apply (like_plain_app _ _ _ Ht).
    exists post. split; [reflexivity | apply like_any].
Qed.

Lemma lower_char_plain (c : ascii) :
  plain_char c = true -> plain_char (Sql.lower_char c) = true.
Proof.
  destruct c as [[] [] [] [] [] [] [] []]; vm_compute; auto.
Qed.

Lemma lower_plain (t : list ascii) :
  plain t = true -> plain (Sql.lower t) = true.
Proof.
  induction t as [|c t IH]; simpl; [auto|].
  intros H. apply andb_prop in H as [Hc Ht].
  rewrite (lower_char_plain _ Hc), (IH Ht). reflexivity.
Qed.

Lemma lower_wrapped (x : string) :
  Sql.lower (list_ascii_of_string ("%" +:+ x +:+ "%"))
  = "%"%char :: (Sql.lower (list_ascii_of_string x) ++ ["%"%char])%list.
Proof.
  rewrite !list_ascii_app. unfold Sql.lower. simpl.
  rewrite List.map_app. reflexivity.
Qed.

(** For a term without [%], [_] and backslash, [ILIKE '%term%'] holds
    exactly when the term occurs in the column up to case. *)
Lemma ilike_wrapped_plain (x s : string) :
  plain (list_ascii_of_string x) = true ->
  Sql.ilike (list_ascii_of_string ("%" +:+ x +:+ "%")) (list_ascii_of_string s)
  = true
  <-> occurs (Sql.lower (list_ascii_of_string x))
             (Sql.lower (list_ascii_of_string s)).
Proof.
  intros Hx. unfold Sql.ilike. rewrite lower_wrapped.
  apply like_wrapped_plain, lower_plain, Hx.
Qed.

Lemma where_eq_str_iff (o : option string) (v : string) :
  (if Py.truthy_opt o then Sql.is_true (Sql.eq_str (Some v) o) else true)
  = true
  <-> (Py.truthy_opt o = true -> o = Some v).
Proof.
  destruct o as [s|]; simpl.
  - destruct (Py.truthy s); simpl.
    + destruct (String.eqb_spec v s) as [->|Hne].
      * split; auto.
      * split; [discriminate|].
        intros H. specialize (H eq_refl). congruence.
    + split; [discriminate | reflexivity].
  - split; [discriminate | reflexivity].
Qed.

Lemma where_le_iff (m c : option Z) :
  match c with Some _ => Sql.is_true (Sql.le m c) | None => true end = true
  <-> (forall c', c = Some c' -> exists m', m = Some m' /\ (m' <= c')%Z).
Proof.
  destruct c as [c|]; [|split; [discriminate | reflexivity]].
  destruct m as [m|]; simpl.
  - destruct (Z.leb_spec m c) as [Hle|Hgt].
    + split; [|reflexivity]. intros _ c' [= <-]. eauto.
    + split; [discriminate|].
      intros H. destruct (H c eq_refl) as (m' & [= <-] & Hle). lia.
  - split; [discriminate|].
    intros H. destruct (H c eq_refl) as (m' & Hm & _). discriminate.
Qed.

Lemma where_text_iff (name : string) (summary : option string)
    (pattern : string) :
  Sql.is_true
    (Sql.or3 (Sql.col_ilike (Some name) pattern)
             (Sql.col_ilike summary pattern)) = true
  <-> Sql.ilike (list_ascii_of_string pattern) (list_ascii_of_string name)
      = true
      \/ exists s, summary = Some s
                   /\ Sql.ilike (list_ascii_of_string pattern)
                        (list_ascii_of_string s) = true.
Proof.
  unfold Sql.col_ilike.
  set (P := list_ascii_of_string pattern).
  destruct summary as [s|]; simpl.
  - destruct (Sql.ilike P (list_ascii_of_string name)) eqn:Hn;
      destruct (Sql.ilike P (list_ascii_of_string s)) eqn:Hs; simpl;
      (split; [intros H; try discriminate; auto; right; eauto|]);
      intros [H|(s' & [= <-] & H)]; congruence.
  - destruct (Sql.ilike P (list_ascii_of_string name)); simpl; split; auto.
    intros [H|(s' & H & _)]; discriminate.
Qed.

Lemma int4_true (v : Z) :
  (-2147483648 <= v <= 2147483647)%Z -> Sql.int4 v = true.
Proof.
  intros [Hlo Hhi]. unfold Sql.int4.
  apply andb_true_intro. split; apply Z.leb_le; assumption.
Qed.

Lemma int4_opt_true (o : option Z) :
  (forall v, o = Some v -> (-2147483648 <= v <= 2147483647)%Z) ->
  Sql.int4_opt o = true.
Proof.
  destruct o as [v|]; intros H; [|reflexivity].
  apply int4_true, H. reflexivity.
Qed.

(** An offset and a limit that the database accepts. *)
Lemma paging_accepted (skip limit : Z) :
  (0 <= skip <= 2147483647)%Z -> (0 <= limit <= 2147483647)%Z ->
  (skip <? 0)%Z || (limit <? 0)%Z || negb (Sql.int4 skip && Sql.int4 limit)
  = false.
Proof.
  intros Hskip Hlimit.
  rewrite (int4_true skip), (int4_true limit) by lia.
  destruct (Z.ltb_spec skip 0); [lia|].
  destruct (Z.ltb_spec limit 0); [lia|]. reflexivity.
Qed.

Lemma search_deals_run (status deal_type : option string)
    (ceiling : option Z) (search : option string) (skip limit : Z)
    (s : Session) :
  (forall c, ceiling = Some c -> (-2147483648 <= c <= 2147483647)%Z) ->
  (0 <= skip <= 2147483647)%Z -> (0 <= limit <= 2147483647)%Z ->
  let matching :=
    List.filter (property_repo.deal_filter status deal_type ceiling search)
      (properties (db s)) in
  property_repo.search_deals status deal_type ceiling search skip limit s
  = (Ok (Sql.offset_limit (Z.to_nat skip) (Z.to_nat limit)
           (Sql.order_by (fun p => Some (Property.created_at p)) true
              matching),
         Z.of_nat (length matching)), s).
Proof.
  intros Hceiling Hskip Hlimit matching.
  unfold property_repo.search_deals.
  rewrite (int4_opt_true ceiling Hceiling). cbn [negb].
  unfold session.store, mbind, M_bind. cbn [db].
  rewrite (paging_accepted skip limit Hskip Hlimit). reflexivity.
Qed.

(** C9, as the code has it, for ASCII text. With a non-empty search
    term, a deal passes the filters exactly when the status, deal-type
    and ceiling filters that are present hold and the pattern [%term%]
    matches its name or its (non-NULL) summary under ILIKE; for a term
    without [%], [_] and backslash that match is the occurrence of the
    term, up to the case of the letters A to Z, in the name or the
    summary. The search returns the filtered deals and their count. *)
Theorem deal_search_free_text (status deal_type : option string)
    (ceiling : option Z) (x : string) :
  Py.truthy x = true ->
  ascii_text x = true ->
  let pattern := list_ascii_of_string ("%" +:+ x +:+ "%") in
  let text_match (p : Property.t) :=
    Sql.ilike pattern (list_ascii_of_string (Property.name p)) = true
    \/ exists s, Property.summary p = Some s
                 /\ Sql.ilike pattern (list_ascii_of_string s) = true in
  let passes := property_repo.deal_filter status deal_type ceiling (Some x) in
  (forall p,
      deal_ascii p = true ->
      passes p = true
      <-> (Py.truthy_opt status = true -> status = Some (Property.status p))
          /\ (Py.truthy_opt deal_type = true ->
              deal_type = Some (Property.deal_type p))
          /\ (forall c, ceiling = Some c ->
                exists m, Property.minimum_investment p = Some m
                          /\ (m <= c)%Z)
          /\ text_match p)
  /\ (plain (list_ascii_of_string x) = true ->
      forall p,
        deal_ascii p = true ->
        text_match p
        <-> occurs (Sql.lower (list_ascii_of_string x))
                   (Sql.lower (list_ascii_of_string (Property.name p)))
            \/ exists s,
                 Property.summary p = Some s
                 /\ occurs (Sql.lower (list_ascii_of_string x))
                           (Sql.lower (list_ascii_of_string s)))
  /\ (forall (sess : Session) (skip limit : Z),
        (forall c, ceiling = Some c -> (-2147483648 <= c <= 2147483647)%Z) ->
        (0 <= skip <= 2147483647)%Z -> (0 <= limit <= 2147483647)%Z ->
        (forall p, In p (properties (db sess)) -> deal_ascii p = true) ->
        let matching := List.filter passes (properties (db sess)) in
        exists deals,
          property_repo.search_deals status deal_type ceiling (Some x)
            skip limit sess
          = (Ok (deals, Z.of_nat (length matching)), sess)
          /\ (forall d, In d deals ->
                        In d (properties (db sess)) /\ passes d = true)
          /\ (skip = 0%Z -> (Z.of_nat (length matching) <= limit)%Z ->
              forall d, In d (properties (db sess)) -> passes d = true ->
                        In d deals)).
Proof.
  intros Hx Hascii pattern text_match passes. split; [|split].
  - intros p _. unfold passes, property_repo.deal_filter. rewrite Hx.
    rewrite !andb_true_iff, !where_eq_str_iff, where_le_iff, where_text_iff.
    unfold text_match, pattern. tauto.
  - intros Hplain p _. unfold text_match, pattern.
    rewrite (ilike_wrapped_plain x (Property.name p) Hplain).
    split.
    + intros [H|(s & Hs & H)]; [left; exact H|].
      right. exists s. split; [exact Hs|].
      apply (ilike_wrapped_plain x s Hplain), H.
    + intros [H|(s & Hs & H)]; [left; exact H|].
      right. exists s. split; [exact Hs|].
      apply (ilike_wrapped_plain x s Hplain), H.
  - intros sess skip limit Hceiling Hskip Hlimit _ matching.
    eexists. split; [apply search_deals_run; assumption|]. split.
    + intros d Hd. apply offset_limit_In, order_by_In in Hd.
      apply List.filter_In in Hd. exact Hd.
    + intros -> Hall d Hd Hpass.
      rewrite offset_limit_all.
      * apply order_by_In, List.filter_In. auto.
      * rewrite order_by_length. fold passes. fold matching. lia.
Qed.

(** The wildcard [_] matches any character; escaped, only itself. *)
Example like_underscore :
  Sql.like (list_ascii_of_string "%a_c%") (list_ascii_of_string "xxabcxx")
  = true
  /\ Sql.like
       (list_ascii_of_string "%a" ++ ["092"%char]
        ++ list_ascii_of_string "_c%")%list
       (list_ascii_of_string "xxabcxx") = false
  /\ Sql.like
       (list_ascii_of_string "%a" ++ ["092"%char]
        ++ list_ascii_of_string "_c%")%list
       (list_ascii_of_string "xxa_cxx") = true.
Proof. repeat split; vm_compute; reflexivity. Qed.

(** Descending order puts NULL first, ascending order last. *)
Example order_by_nulls :
  Sql.order_by (fun x : option Z => x) true [Some 1; None; Some 3; Some 2]%Z
  = [None; Some 3; Some 2; Some 1]%Z
  /\ Sql.order_by (fun x : option Z => x) false
       [Some 1; None; Some 3; Some 2]%Z
     = [Some 1; Some 2; Some 3; None]%Z.
Proof. split; vm_compute; reflexivity. Qed.

(** C9, as worded, fails on a term with a LIKE wildcard: [r_l] matches
    "Harbor Lofts", in which it does not occur. *)
Lemma deal_search_wildcard_term : ~ deal_search_is_substring.
Proof.
  intros H.
  destruct (proj1 (H "r_l" harbor_lofts eq_refl)) as [Hocc|(s & Hs & _)].
  - vm_compute. reflexivity.
  - apply occurs_infixb in Hocc. vm_compute in Hocc. discriminate Hocc.
  - discriminate Hs.
Qed.

Lemma deal_search_free_text_witness :
  property_repo.deal_filter (Some "active") None (Some 100000) (Some "LOFT")
    harbor_lofts = true
  /\ occurs (Sql.lower (list_ascii_of_string "LOFT"))
            (Sql.lower (list_ascii_of_string (Property.name harbor_lofts))).
Proof.
  destruct (deal_search_free_text (Some "active") None (Some 100000) "LOFT"
              eq_refl eq_refl) as (Hfilter & Hplain & _).
  assert (Hpass : property_repo.deal_filter (Some "active") None
                    (Some 100000) (Some "LOFT") harbor_lofts = true)
    by (vm_compute; reflexivity).
  split; [exact Hpass|].
  destruct (proj1 (Hfilter harbor_lofts eq_refl) Hpass)
    as (_ & _ & _ & Htext).
  destruct (proj1 (Hplain eq_refl harbor_lofts eq_refl) Htext)
    as [Hocc|(s & Hs & _)].
  - exact Hocc.
  - discriminate Hs.
Defined.

(** ** Running the repository operations *)

Lemma has_investor_fresh (st : Store) :
  wf st -> has_investor st (next_uuid st) = false.
Proof.
  intros Hwf. unfold has_investor.
  destruct (existsb _ (investor_profiles st)) eqn:E; [|reflexivity].
  apply List.existsb_exists in E as (i & Hin & Heq).
  apply N.eqb_eq in Heq. pose proof (wf_fresh st Hwf i Hin). lia.
Qed.

Lemma has_investor_by_id (st : Store) (id : UUID) :
  has_investor st id
  = match leads_with_id st id with [] => false | _ :: _ => true end.
Proof.
  unfold has_investor, leads_with_id.
  destruct (List.filter _ (investor_profiles st)) eqn:E.
  - apply filter_nil_existsb, E.
  - eapply filter_cons_existsb, E.
Qed.

Lemma has_investor_insert (i : InvestorProfile.t) (st : Store) (id : UUID) :
  has_investor (insert_investor i st) id
  = has_investor st id || N.eqb (InvestorProfile.id i) id.
Proof.
  unfold has_investor, insert_investor. cbn [investor_profiles].
  rewrite existsb_snoc. reflexivity.
Qed.

Lemma get_by_phone_run (phone : string) (s : Session) :
  investor_repo.get_by_phone phone s
  = (match leads_with_phone (db s) phone with
     | [] => Ok None
     | [i] => Ok (Some (Lead.load (db s) i))
     | _ :: _ :: _ => Raise MultipleResultsFound
     end, s).
Proof.
  unfold investor_repo.get_by_phone, base_repo.select_leads, leads_with_phone,
    session.store, mbind, M_bind, mret, M_ret.
  destruct (List.filter _ (investor_profiles (db s))) as [|i [|j r]];
    reflexivity.
Qed.

Lemma get_run (id : UUID) (s : Session) :
  base_repo.get id s
  = (match leads_with_id (db s) id with
     | [] => Ok None
     | [i] => Ok (Some (Lead.load (db s) i))
     | _ :: _ :: _ => Raise MultipleResultsFound
     end, s).
Proof.
  unfold base_repo.get, base_repo.select_leads, leads_with_id,
    session.store, mbind, M_bind, mret, M_ret.
  destruct (List.filter _ (investor_profiles (db s))) as [|i [|j r]];
    reflexivity.
Qed.

Lemma get_with_relations_run (id : UUID) (s : Session) :
  investor_repo.get_with_relations id s = base_repo.get id s.
Proof. reflexivity. Qed.

Lemma create_run (obj : InvestorProfile.t) (st : Store) (nw : datetime) :
  has_investor st (InvestorProfile.id obj) = false ->
  let row := InvestorProfile.stamp nw obj in
  let st1 := insert_investor row st in
  base_repo.create obj {| db := st; pending := []; now := nw |}
  = (Ok (Lead.load st1 row), {| db := st1; pending := []; now := nw |}).
Proof.
  intros Hfresh row st1.
  unfold base_repo.create, base_repo.refresh_lead, session.add,
    session.flush, session.store, mbind, M_bind, mret, M_ret.
  simpl. rewrite Hfresh. simpl.
  rewrite (find_snoc_fresh _ _ row).
  - reflexivity.
  - exact Hfresh.
  - simpl. apply N.eqb_refl.
Qed.

Lemma add_consent_run (investor_id : UUID) (consent_text : string)
    (ip_address user_agent : option string) (st : Store) (nw : datetime) :
  has_investor st investor_id = true ->
  let row :=
    {| Consent.id := next_uuid st; Consent.investor_id := investor_id;
       Consent.consent_text := consent_text;
       Consent.ip_address := ip_address; Consent.user_agent := user_agent;
       Consent.created_at := nw |} in
  exists c,
    investor_repo.add_consent investor_id consent_text ip_address user_agent
      {| db := st; pending := []; now := nw |}
    = (Ok c, {| db := insert_consent row (draw_uuid st);
                pending := []; now := nw |}).
Proof.
  intros Hfk row.
  unfold investor_repo.add_consent, base_repo.refresh_consent, session.add,
    session.flush, session.store, session.uuid4, mbind, M_bind, mret, M_ret.
  cbn [db pending now app flush_all flush_one Consent.investor_id].
  change (has_investor (draw_uuid st) investor_id)
    with (has_investor st investor_id).
  rewrite Hfk.
  cbn [db pending now insert_consent consents draw_uuid Consent.stamp
       Consent.id Consent.investor_id Consent.consent_text
       Consent.ip_address Consent.user_agent].
  destruct (find_snoc_some
              (fun c => N.eqb (Consent.id c) (next_uuid st))
              (consents st) row) as [c Hc].
  - simpl. apply N.eqb_refl.
  - change (Consent.stamp nw _) with row. rewrite Hc. eauto.
Qed.

Lemma stage_update_id id new_stage nw i :
  InvestorProfile.id (stage_update id new_stage nw i) = InvestorProfile.id i.
Proof. unfold stage_update. destruct (N.eqb _ id); reflexivity. Qed.

Lemma stage_update_phone id new_stage nw i :
  InvestorProfile.phone (stage_update id new_stage nw i)
  = InvestorProfile.phone i.
Proof. unfold stage_update. destruct (N.eqb _ id); reflexivity. Qed.

Lemma leads_with_id_update (st : Store) (id id' : UUID) (new_stage : string)
    (nw : datetime) :
  leads_with_id (update_investors (stage_update id new_stage nw) st) id'
  = map (stage_update id new_stage nw) (leads_with_id st id').
Proof.
  unfold leads_with_id. simpl. apply filter_map_stable.
  intros a. rewrite stage_update_id. reflexivity.
Qed.

Lemma has_investor_update (st : Store) (id id' : UUID) (new_stage : string)
    (nw : datetime) :
  has_investor (update_investors (stage_update id new_stage nw) st) id'
  = has_investor st id'.
Proof.
  unfold has_investor. simpl. apply existsb_map_stable.
  intros a. rewrite stage_update_id. reflexivity.
Qed.

Lemma update_stage_run (id : UUID) (new_stage changed_by : string)
    (notes : option string) (st : Store) (nw : datetime)
    (i : InvestorProfile.t) :
  leads_with_id st id = [i] ->
  let st' := store_after_update nw id new_stage changed_by notes i st in
  investor_repo.update_stage id new_stage changed_by notes
    {| db := st; pending := []; now := nw |}
  = (Ok (Some (Lead.load st' (InvestorProfile.set_stage new_stage nw i))),
     {| db := st'; pending := []; now := nw |}).
Proof.
  intros Hi st'.
  assert (Hid : InvestorProfile.id i = id).
  { apply N.eqb_eq. apply (filter_cons_holds _ _ _ _ Hi). }
  unfold investor_repo.update_stage.
  unfold mbind at 1. unfold M_bind at 1. rewrite get_run.
  cbn [db]. rewrite Hi.
  unfold base_repo.refresh_lead, session.add, session.flush, session.store,
    session.uuid4, mbind, M_bind, mret, M_ret.
  cbn [db pending now app flush_all flush_one StageHistory.investor_id
       Lead.row].
  rewrite has_investor_update.
  assert (Hhas : has_investor (draw_uuid st) id = true).
  { change (has_investor (draw_uuid st) id) with (has_investor st id).
    rewrite has_investor_by_id, Hi. reflexivity. }
  rewrite Hhas.
  cbn [db pending now insert_history investor_profiles update_investors
       draw_uuid StageHistory.stamp].
  rewrite find_map_stable by (intros a; rewrite stage_update_id; reflexivity).
  unfold leads_with_id in Hi. rewrite (filter_cons_find _ _ _ _ Hi).
  cbn [option_map]. unfold stage_update at 2. rewrite Hid, N.eqb_refl.
  reflexivity.
Qed.

Lemma update_stage_missing (id : UUID) (new_stage changed_by : string)
    (notes : option string) (s : Session) :
  leads_with_id (db s) id = [] ->
  investor_repo.update_stage id new_stage changed_by notes s = (Ok None, s).
Proof.
  intros Hnone. unfold investor_repo.update_stage.
  unfold mbind at 1. unfold M_bind at 1. rewrite get_run, Hnone.
  reflexivity.
Qed.

Lemma run_bind {A B} (m : M A) (f : A -> M B) (s : Session) :
  (m ≫= f) s
  = match m s with
    | (Ok a, s') => f a s'
    | (Raise e, s') => (Raise e, s')
    end.
Proof. reflexivity. Qed.

Lemma child_rows_fresh (st : Store) :
  wf st ->
  history_rows st (next_uuid st) = [] /\ consent_rows st (next_uuid st) = [].
Proof.
  intros Hwf. pose proof (has_investor_fresh st Hwf) as Hfresh. split.
  - apply existsb_false_filter.
    destruct (existsb _ (stage_history st)) eqn:E; [|reflexivity].
    apply List.existsb_exists in E as (h & Hin & Heq).
    apply N.eqb_eq in Heq. pose proof (wf_fk_history st Hwf h Hin) as Hfk.
    rewrite Heq in Hfk. congruence.
  - apply existsb_false_filter.
    destruct (existsb _ (consents st)) eqn:E; [|reflexivity].
    apply List.existsb_exists in E as (c & Hin & Heq).
    apply N.eqb_eq in Heq. pose proof (wf_fk_consents st Hwf c Hin) as Hfk.
    rewrite Heq in Hfk. congruence.
Qed.

(** A first-time submission through the router. *)
Lemma submit_lead_new (st : Store) (nw : datetime)
    (client xff ua : option string) (req : LeadSubmissionRequest.t) :
  wf st ->
  LeadSubmissionRequest.consent req = true ->
  leads_with_phone st (LeadSubmissionRequest.phoneNumber req) = [] ->
  session.get_db nw (leads.submit_lead client req xff ua) st
  = (Ok {| LeadSubmissionResponse.success := true;
           LeadSubmissionResponse.message := "Lead submitted successfully";
           LeadSubmissionResponse.leadId := Py.str_uuid (next_uuid st) |},
     store_after_submit nw req (Py.or_opt xff client) ua st).
Proof.
  intros Hwf Hconsent Hnew.
  pose proof (has_investor_fresh st Hwf) as Hfresh.
  unfold session.get_db, leads.submit_lead. rewrite Hconsent. cbn [negb].
  rewrite run_bind, get_by_phone_run. cbn [db]. rewrite Hnew.
  rewrite run_bind. cbn [session.uuid4 db pending now].
  rewrite run_bind.
  assert (Hid : InvestorProfile.id (leads.build_investor (next_uuid st) req)
                = next_uuid st).
  { unfold leads.build_investor.
    destruct (LeadSubmissionRequest.qualification req); reflexivity. }
  rewrite (create_run (leads.build_investor (next_uuid st) req)
             (draw_uuid st) nw) by (rewrite Hid; exact Hfresh).
  cbn [Lead.row Lead.load].
  change (InvestorProfile.id
            (InvestorProfile.stamp nw
               (leads.build_investor (next_uuid st) req)))
    with (InvestorProfile.id (leads.build_investor (next_uuid st) req)).
  rewrite Hid.
  set (st1 := insert_investor _ (draw_uuid st)).
  assert (Hhas : has_investor st1 (next_uuid st) = true).
  { unfold st1. rewrite has_investor_insert.
    change (InvestorProfile.id (InvestorProfile.stamp nw ?o))
      with (InvestorProfile.id o).
    rewrite Hid, N.eqb_refl. apply orb_true_r. }
  destruct (add_consent_run (next_uuid st)
              "TCPA consent granted via web chatbot"
              (Py.or_opt xff client) ua st1 nw Hhas) as [c Hc].
  rewrite run_bind, Hc.
  rewrite run_bind. cbn [session.uuid4 db pending now].
  rewrite run_bind. cbn [session.add db pending now app].
  cbn [mret M_ret].
  unfold session.flush.
  cbn [db pending now flush_all flush_one StageHistory.investor_id].
  change (has_investor (draw_uuid (insert_consent ?c0 (draw_uuid st1)))
            (next_uuid st))
    with (has_investor st1 (next_uuid st)).
  rewrite Hhas. reflexivity.
Qed.

(** A first-time submission through the service. *)
Lemma process_lead_new (st : Store) (nw : datetime)
    (ip ua : option string) (req : LeadSubmissionRequest.t) :
  wf st ->
  leads_with_phone st (LeadSubmissionRequest.phoneNumber req) = [] ->
  let row := InvestorProfile.stamp nw (leads.build_investor (next_uuid st) req) in
  session.get_db nw (lead_processor.process_lead req ip ua) st
  = (Ok (Lead.load (insert_investor row (draw_uuid st)) row),
     store_after_profile_and_consent nw req ip ua st).
Proof.
  intros Hwf Hnew row.
  pose proof (has_investor_fresh st Hwf) as Hfresh.
  unfold session.get_db, lead_processor.process_lead.
  rewrite run_bind, get_by_phone_run. cbn [db]. rewrite Hnew.
  rewrite run_bind. cbn [session.uuid4 db pending now].
  rewrite run_bind.
  change (lead_processor.build_investor (next_uuid st) req)
    with (leads.build_investor (next_uuid st) req).
  assert (Hid : InvestorProfile.id (leads.build_investor (next_uuid st) req)
                = next_uuid st).
  { unfold leads.build_investor.
    destruct (LeadSubmissionRequest.qualification req); reflexivity. }
  rewrite (create_run (leads.build_investor (next_uuid st) req)
             (draw_uuid st) nw) by (rewrite Hid; exact Hfresh).
  cbn [Lead.row Lead.load].
  change (InvestorProfile.id
            (InvestorProfile.stamp nw
               (leads.build_investor (next_uuid st) req)))
    with (InvestorProfile.id (leads.build_investor (next_uuid st) req)).
  rewrite Hid. fold row.
  set (st1 := insert_investor row (draw_uuid st)).
  assert (Hhas : has_investor st1 (next_uuid st) = true).
  { unfold st1. rewrite has_investor_insert. unfold row.
    change (InvestorProfile.id (InvestorProfile.stamp nw ?o))
      with (InvestorProfile.id o).
    rewrite Hid, N.eqb_refl. apply orb_true_r. }
  destruct (add_consent_run (next_uuid st)
              "TCPA consent granted via web chatbot" ip ua st1 nw Hhas)
    as [c Hc].
  rewrite run_bind, Hc. reflexivity.
Qed.

(** A submission for a phone number that exactly one lead carries. *)
Lemma submit_lead_existing (st : Store) (nw : datetime)
    (client xff ua : option string) (req : LeadSubmissionRequest.t)
    (existing : InvestorProfile.t) :
  LeadSubmissionRequest.consent req = true ->
  leads_with_phone st (LeadSubmissionRequest.phoneNumber req) = [existing] ->
  session.get_db nw (leads.submit_lead client req xff ua) st
  = (Ok {| LeadSubmissionResponse.success := true;
           LeadSubmissionResponse.message := "Lead already exists";
           LeadSubmissionResponse.leadId :=
             Py.str_uuid (InvestorProfile.id existing) |}, st).
Proof.
  intros Hconsent Hone.
  unfold session.get_db, leads.submit_lead. rewrite Hconsent. cbn [negb].
  rewrite run_bind, get_by_phone_run. cbn [db]. rewrite Hone.
  reflexivity.
Qed.

Lemma process_lead_existing (st : Store) (nw : datetime)
    (ip ua : option string) (req : LeadSubmissionRequest.t)
    (existing : InvestorProfile.t) :
  leads_with_phone st (LeadSubmissionRequest.phoneNumber req) = [existing] ->
  session.get_db nw (lead_processor.process_lead req ip ua) st
  = (Ok (Lead.load st existing), st).
Proof.
  intros Hone.
  unfold session.get_db, lead_processor.process_lead.
  rewrite run_bind, get_by_phone_run. cbn [db]. rewrite Hone.
  reflexivity.
Qed.

Lemma submit_lead_twins (st : Store) (nw : datetime)
    (client xff ua : option string) (req : LeadSubmissionRequest.t)
    (a b : InvestorProfile.t) (rest : list InvestorProfile.t) :
  LeadSubmissionRequest.consent req = true ->
  leads_with_phone st (LeadSubmissionRequest.phoneNumber req)
  = a :: b :: rest ->
  session.get_db nw (leads.submit_lead client req xff ua) st
  = (Raise MultipleResultsFound, st).
Proof.
  intros Hconsent Htwo.
  unfold session.get_db, leads.submit_lead. rewrite Hconsent. cbn [negb].
  rewrite run_bind, get_by_phone_run. cbn [db]. rewrite Htwo.
  reflexivity.
Qed.

Lemma process_lead_twins (st : Store) (nw : datetime)
    (ip ua : option string) (req : LeadSubmissionRequest.t)
    (a b : InvestorProfile.t) (rest : list InvestorProfile.t) :
  leads_with_phone st (LeadSubmissionRequest.phoneNumber req)
  = a :: b :: rest ->
  session.get_db nw (lead_processor.process_lead req ip ua) st
  = (Raise MultipleResultsFound, st).
Proof.
  intros Htwo.
  unfold session.get_db, lead_processor.process_lead.
  rewrite run_bind, get_by_phone_run. cbn [db]. rewrite Htwo.
  reflexivity.
Qed.

Lemma build_investor_phone (id : UUID) (req : LeadSubmissionRequest.t) :
  InvestorProfile.phone (leads.build_investor id req)
  = LeadSubmissionRequest.phoneNumber req.
Proof.
  unfold leads.build_investor.
  destruct (LeadSubmissionRequest.qualification req); reflexivity.
Qed.

Lemma build_investor_id (id : UUID) (req : LeadSubmissionRequest.t) :
  InvestorProfile.id (leads.build_investor id req) = id.
Proof.
  unfold leads.build_investor.
  destruct (LeadSubmissionRequest.qualification req); reflexivity.
Qed.

Lemma build_investor_stage (id : UUID) (req : LeadSubmissionRequest.t) :
  InvestorProfile.stage (leads.build_investor id req) = "new_lead".
Proof.
  unfold leads.build_investor.
  destruct (LeadSubmissionRequest.qualification req); reflexivity.
Qed.

(** What the tables hold for the new lead once its profile and consent
    are saved, and once the creation row is added. *)
Lemma rows_after_profile_and_consent (st : Store) (nw : datetime)
    (req : LeadSubmissionRequest.t) (ip ua : option string) :
  wf st ->
  leads_with_phone st (LeadSubmissionRequest.phoneNumber req) = [] ->
  let st1 := store_after_profile_and_consent nw req ip ua st in
  let row := InvestorProfile.stamp nw (leads.build_investor (next_uuid st) req) in
  leads_with_phone st1 (LeadSubmissionRequest.phoneNumber req) = [row]
  /\ leads_with_id st1 (next_uuid st) = [row]
  /\ consent_rows st1 (next_uuid st)
     = [intake_consent_row (next_uuid st) ip ua nw]
  /\ history_rows st1 (next_uuid st) = [].
Proof.
  intros Hwf Hnew st1 row.
  destruct (child_rows_fresh st Hwf) as [Hh Hc].
  pose proof (has_investor_fresh st Hwf) as Hfresh.
  rewrite has_investor_by_id in Hfresh.
  destruct (leads_with_id st (next_uuid st)) eqn:Hl; [|discriminate].
  unfold leads_with_phone, leads_with_id, consent_rows, history_rows in *.
  unfold st1, store_after_profile_and_consent.
  cbn [investor_profiles consents stage_history insert_consent draw_uuid
       insert_investor].
  fold row.
  assert (Hphone : InvestorProfile.phone row
                   = LeadSubmissionRequest.phoneNumber req)
    by apply build_investor_phone.
  assert (Hid : InvestorProfile.id row = next_uuid st)
    by apply build_investor_id.
  rewrite !filter_snoc, Hnew, Hl, Hc, Hphone, Hid, String.eqb_refl.
  cbn [intake_consent_row Consent.investor_id].
  rewrite N.eqb_refl. auto.
Qed.

Lemma rows_after_submit (st : Store) (nw : datetime)
    (req : LeadSubmissionRequest.t) (ip ua : option string) :
  wf st ->
  leads_with_phone st (LeadSubmissionRequest.phoneNumber req) = [] ->
  let st1 := store_after_submit nw req ip ua st in
  let row := InvestorProfile.stamp nw (leads.build_investor (next_uuid st) req) in
  leads_with_phone st1 (LeadSubmissionRequest.phoneNumber req) = [row]
  /\ leads_with_id st1 (next_uuid st) = [row]
  /\ consent_rows st1 (next_uuid st)
     = [intake_consent_row (next_uuid st) ip ua nw]
  /\ history_rows st1 (next_uuid st)
     = [intake_creation_row (next_uuid st) nw].
Proof.
  intros Hwf Hnew st1 row.
  destruct (rows_after_profile_and_consent st nw req ip ua Hwf Hnew)
    as (Hp & Hi & Hc & Hh).
  repeat split; try assumption.
  unfold st1, store_after_submit, history_rows in *.
  cbn [stage_history insert_history draw_uuid].
  rewrite filter_snoc, Hh.
  cbn [intake_creation_row StageHistory.investor_id].
  rewrite N.eqb_refl. reflexivity.
Qed.

(** ** The store constraints are kept *)

Lemma wf_draw_uuid (st : Store) : wf st -> wf (draw_uuid st).
Proof.
  intros [Hpk Hfresh Hc Hn Hh]. constructor; cbn; auto.
  intros i Hi. specialize (Hfresh i Hi). lia.
Qed.

Lemma wf_insert_child (st st' : Store) :
  wf st ->
  investor_profiles st' = investor_profiles st ->
  next_uuid st' = next_uuid st ->
  (forall c, In c (consents st') ->
             has_investor st (Consent.investor_id c) = true) ->
  (forall n, In n (lead_notes st') ->
             has_investor st (LeadNote.investor_id n) = true) ->
  (forall h, In h (stage_history st') ->
             has_investor st (StageHistory.investor_id h) = true) ->
  wf st'.
Proof.
  intros [Hpk Hfresh _ _ _] Hrows Hnext Hc Hn Hh.
  assert (Hhas : forall id, has_investor st' id = has_investor st id)
    by (intros id; unfold has_investor; rewrite Hrows; reflexivity).
  constructor.
  - rewrite Hrows. exact Hpk.
  - rewrite Hrows, Hnext. exact Hfresh.
  - intros c Hin. rewrite Hhas. auto.
  - intros n Hin. rewrite Hhas. auto.
  - intros h Hin. rewrite Hhas. auto.
Qed.

Lemma wf_insert_investor (st : Store) (i : InvestorProfile.t) :
  wf st ->
  has_investor st (InvestorProfile.id i) = false ->
  (InvestorProfile.id i < next_uuid st)%N ->
  wf (insert_investor i st).
Proof.
  intros [Hpk Hfresh Hc Hn Hh] Hnew Hlt.
  assert (Hmore : forall id, has_investor st id = true ->
                             has_investor (insert_investor i st) id = true)
    by (intros id H; rewrite has_investor_insert, H; reflexivity).
  constructor; cbn [investor_profiles consents lead_notes stage_history
                    next_uuid insert_investor]; auto.
  - rewrite List.map_app. apply NoDup_app. split; [exact Hpk|].
    split; [|apply NoDup_singleton].
    intros x Hx Hx'. apply list_elem_of_In in Hx, Hx'.
    destruct Hx' as [<-|[]].
    apply List.in_map_iff in Hx as (a & Ha & Hin).
    unfold has_investor in Hnew.
    assert (existsb (fun i0 => N.eqb (InvestorProfile.id i0)
                                 (InvestorProfile.id i))
              (investor_profiles st) = true).
    { apply List.existsb_exists. exists a. split; [exact Hin|].
      apply N.eqb_eq, Ha. }
    congruence.
  - intros a Ha. apply List.in_app_or in Ha as [Ha|[<-|[]]]; auto.
Qed.

Lemma wf_update_investors (st : Store) (id : UUID) (new_stage : string)
    (nw : datetime) :
  wf st -> wf (update_investors (stage_update id new_stage nw) st).
Proof.
  intros [Hpk Hfresh Hc Hn Hh].
  constructor.
  - cbn [investor_profiles update_investors].
    rewrite List.map_map.
    erewrite List.map_ext; [exact Hpk|].
    intros a. apply stage_update_id.
  - cbn [investor_profiles update_investors next_uuid].
    intros x Hx. apply List.in_map_iff in Hx as (a & <- & Ha).
    rewrite stage_update_id. auto.
  - intros x Hx. rewrite has_investor_update. auto.
  - intros x Hx. rewrite has_investor_update. auto.
  - intros x Hx. rewrite has_investor_update. auto.
Qed.

(** A first-time submission and a stage update lead from a store that
    meets the schema constraints to one that does. *)
Lemma wf_after_submit (st : Store) (nw : datetime)
    (req : LeadSubmissionRequest.t) (ip ua : option string) :
  wf st -> wf (store_after_submit nw req ip ua st).
Proof.
  intros Hwf.
  pose proof (has_investor_fresh st Hwf) as Hnew.
  assert (Hwf1 : wf (insert_investor
                       (InvestorProfile.stamp nw
                          (leads.build_investor (next_uuid st) req))
                       (draw_uuid st))).
  { apply wf_insert_investor; [apply wf_draw_uuid, Hwf | |].
    - change (InvestorProfile.id (InvestorProfile.stamp nw ?o))
        with (InvestorProfile.id o).
      rewrite build_investor_id. exact Hnew.
    - change (InvestorProfile.id (InvestorProfile.stamp nw ?o))
        with (InvestorProfile.id o).
      rewrite build_investor_id. cbn. lia. }
  set (st1 := insert_investor _ (draw_uuid st)) in *.
  assert (Hhas : has_investor st1 (next_uuid st) = true).
  { unfold st1. rewrite has_investor_insert.
    change (InvestorProfile.id (InvestorProfile.stamp nw ?o))
      with (InvestorProfile.id o).
    rewrite build_investor_id, N.eqb_refl. apply orb_true_r. }
  apply wf_draw_uuid in Hwf1.
  assert (Hwf2 : wf (insert_consent
                       (intake_consent_row (next_uuid st) ip ua nw)
                       (draw_uuid st1))).
  { destruct Hwf1 as [Hpk Hfresh Hc Hn Hh].
    apply (wf_insert_child (draw_uuid st1)); auto.
    - constructor; assumption.
    - cbn [consents insert_consent]. intros c Hin.
      apply List.in_app_or in Hin as [Hin|[<-|[]]]; [auto | exact Hhas]. }
  apply wf_draw_uuid in Hwf2.
  destruct Hwf2 as [Hpk Hfresh Hc Hn Hh].
  unfold store_after_submit, store_after_profile_and_consent. fold st1.
  eapply wf_insert_child; [constructor; eassumption | reflexivity
                          | reflexivity | auto | auto |].
  cbn [stage_history insert_history]. intros h Hin.
  apply List.in_app_or in Hin as [Hin|[<-|[]]]; [auto | exact Hhas].
Qed.

Lemma wf_after_update (st : Store) (nw : datetime) (id : UUID)
    (new_stage changed_by : string) (notes : option string)
    (i : InvestorProfile.t) :
  wf st -> leads_with_id st id = [i] ->
  wf (store_after_update nw id new_stage changed_by notes i st).
Proof.
  intros Hwf Hi.
  assert (Hhas : has_investor st id = true)
    by (rewrite has_investor_by_id, Hi; reflexivity).
  pose proof (wf_update_investors _ id new_stage nw (wf_draw_uuid _ Hwf))
    as Hwf1.
  destruct Hwf1 as [Hpk Hfresh Hc Hn Hh].
  unfold store_after_update.
  eapply wf_insert_child; [constructor; eassumption | reflexivity
                          | reflexivity | auto | auto |].
  cbn [stage_history insert_history]. intros h Hin.
  apply List.in_app_or in Hin as [Hin|[<-|[]]]; [auto|].
  cbn [StageHistory.investor_id]. rewrite has_investor_update. exact Hhas.
Qed.

(** ** C1: the creation row of the stage history *)

(** C1. On a first-time submission the router's [submit_lead] stores
    exactly one stage-history row for the new lead, the creation row
    (no source stage, target new_lead, actor system); the service's
    [process_lead] stores the lead and its consent but no stage-history
    row at all, although its docstring lists "Record initial stage
    change" as a step. *)
Theorem intake_creation_history (st : Store) (nw : datetime)
    (client xff ua ip : option string) (req : LeadSubmissionRequest.t) :
  wf st ->
  LeadSubmissionRequest.consent req = true ->
  leads_with_phone st (LeadSubmissionRequest.phoneNumber req) = [] ->
  let l := next_uuid st in
  (exists resp st',
      session.get_db nw (leads.submit_lead client req xff ua) st
      = (Ok resp, st')
      /\ LeadSubmissionResponse.leadId resp = Py.str_uuid l
      /\ history_rows st' l = [intake_creation_row l nw]
      /\ is_creation_row (intake_creation_row l nw) = true)
  /\ (exists lead st',
        session.get_db nw (lead_processor.process_lead req ip ua) st
        = (Ok lead, st')
        /\ InvestorProfile.id (Lead.row lead) = l
        /\ leads_with_id st' l = [Lead.row lead]
        /\ consent_rows st' l = [intake_consent_row l ip ua nw]
        /\ history_rows st' l = []).
Proof.
  intros Hwf Hconsent Hnew l. split.
  - eexists _, _. split; [apply submit_lead_new; assumption|].
    split; [reflexivity|]. split; [|reflexivity].
    apply rows_after_submit; assumption.
  - eexists _, _. split; [apply process_lead_new; assumption|].
    destruct (rows_after_profile_and_consent st nw req ip ua Hwf Hnew)
      as (_ & Hi & Hc & Hh).
    split; [apply build_investor_id|]. auto.
Qed.

Lemma empty_store_wf : wf empty_store.
Proof.
  constructor; simpl; try (intros ? []).
  - constructor.
Qed.

Lemma intake_creation_history_witness :
  history_rows
    (snd (session.get_db 10
            (leads.submit_lead None sample_request None None) empty_store))
    0%N
  = [intake_creation_row 0%N 10]
  /\ history_rows
       (snd (session.get_db 10
               (lead_processor.process_lead sample_request None None)
               empty_store)) 0%N
     = [].
Proof.
  destruct (intake_creation_history empty_store 10 None None None None
              sample_request empty_store_wf eq_refl eq_refl)
    as [(resp & st1 & Hrun1 & _ & Hrows1 & _)
        (lead & st2 & Hrun2 & _ & _ & _ & Hrows2)].
  rewrite Hrun1, Hrun2. split; [exact Hrows1 | exact Hrows2].
Defined.

(** ** C2: intake is idempotent per phone number *)

(** C2. A submission whose phone number exactly one lead carries
    returns that lead (its id in the router's response) and leaves the
    store as it was: no consent row, no stage-history row, no change of
    the lead. Submitting a new phone number twice through
    [submit_lead], the first time with values that fit their columns,
    the second time with any data, gives the same leadId twice; the
    second request changes nothing, and the lead has one consent row and
    one stage-history row, the creation row. Through [process_lead] the
    two calls return the same lead id and the second changes nothing,
    the lead having one consent row. Where two or more leads carry the
    phone number, the lookup by [scalar_one_or_none] raises
    [MultipleResultsFound] on both paths: no lead is returned, against
    the comment "Return existing lead_id instead of creating
    duplicate"; nothing is written. *)
Theorem intake_idempotent (st : Store) (nw nw2 : datetime)
    (client xff ua ip client2 xff2 ua2 ip2 : option string)
    (req req2 : LeadSubmissionRequest.t) :
  LeadSubmissionRequest.consent req = true ->
  LeadSubmissionRequest.consent req2 = true ->
  LeadSubmissionRequest.phoneNumber req2
  = LeadSubmissionRequest.phoneNumber req ->
  (forall existing,
      leads_with_phone st (LeadSubmissionRequest.phoneNumber req) = [existing] ->
      session.get_db nw (leads.submit_lead client req xff ua) st
      = (Ok {| LeadSubmissionResponse.success := true;
               LeadSubmissionResponse.message := "Lead already exists";
               LeadSubmissionResponse.leadId :=
                 Py.str_uuid (InvestorProfile.id existing) |}, st)
      /\ session.get_db nw (lead_processor.process_lead req ip ua) st
         = (Ok (Lead.load st existing), st))
  /\ (wf st ->
      leads_with_phone st (LeadSubmissionRequest.phoneNumber req) = [] ->
      request_fits req = true ->
      fits_opt 45 (Py.or_opt xff client) = true ->
      fits_opt 45 ip = true ->
      let l := next_uuid st in
      (exists r1 r2 st1,
          session.get_db nw (leads.submit_lead client req xff ua) st
          = (Ok r1, st1)
          /\ session.get_db nw2 (leads.submit_lead client2 req2 xff2 ua2) st1
             = (Ok r2, st1)
          /\ LeadSubmissionResponse.leadId r1 = Py.str_uuid l
          /\ LeadSubmissionResponse.leadId r2 = Py.str_uuid l
          /\ length (consent_rows st1 l) = 1%nat
          /\ history_rows st1 l = [intake_creation_row l nw])
      /\ (exists lead1 lead2 st1,
            session.get_db nw (lead_processor.process_lead req ip ua) st
            = (Ok lead1, st1)
            /\ session.get_db nw2
                 (lead_processor.process_lead req2 ip2 ua2) st1
               = (Ok lead2, st1)
            /\ InvestorProfile.id (Lead.row lead1) = l
            /\ InvestorProfile.id (Lead.row lead2) = l
            /\ length (consent_rows st1 l) = 1%nat))
  /\ (forall a b rest,
        leads_with_phone st (LeadSubmissionRequest.phoneNumber req)
        = a :: b :: rest ->
        session.get_db nw (leads.submit_lead client req xff ua) st
        = (Raise MultipleResultsFound, st)
        /\ session.get_db nw (lead_processor.process_lead req ip ua) st
           = (Raise MultipleResultsFound, st)).
Proof.
  intros Hconsent Hconsent2 Hphone. split; [|split].
  - intros existing Hone. split.
    + apply submit_lead_existing; assumption.
    + apply process_lead_existing; assumption.
  - intros Hwf Hnew _ _ _ l. split.
    + destruct (rows_after_submit st nw req (Py.or_opt xff client) ua Hwf Hnew)
        as (Hp & Hi & Hc & Hh).
      eexists _, _, _. split; [apply submit_lead_new; assumption|].
      split.
      * rewrite (submit_lead_existing _ nw2 client2 xff2 ua2 req2 _
                   Hconsent2 ltac:(rewrite Hphone; exact Hp)).
        change (InvestorProfile.id (InvestorProfile.stamp nw ?o))
          with (InvestorProfile.id o).
        rewrite build_investor_id. reflexivity.
      * repeat split; try reflexivity.
        -- fold l in Hc. rewrite Hc. reflexivity.
        -- exact Hh.
    + destruct (rows_after_profile_and_consent st nw req ip ua Hwf Hnew)
        as (Hp & Hi & Hc & Hh).
      eexists _, _, _. split; [apply process_lead_new; assumption|].
      split.
      * apply process_lead_existing. rewrite Hphone. exact Hp.
      * split; [apply build_investor_id|].
        split; [apply build_investor_id|].
        fold l in Hc. rewrite Hc. reflexivity.
  - intros a b rest Htwo. split.
    + eapply submit_lead_twins; eassumption.
    + eapply process_lead_twins; eassumption.
Qed.

Lemma twin_store_wf : wf twin_store.
Proof.
  constructor; simpl.
  - apply NoDup_cons. split.
    + intros H%list_elem_of_In. destruct H as [H|[]]. discriminate H.
    + apply NoDup_cons. split; [|apply NoDup_nil; exact I].
      intros H%list_elem_of_In. destruct H.
  - intros i [<-|[<-|[]]]; vm_compute; reflexivity.
  - intros c [<-|[<-|[]]]; vm_compute; reflexivity.
  - intros n [].
  - intros h [<-|[<-|[]]]; vm_compute; reflexivity.
Qed.

(** The three cases at the sample submission: a new phone number
    submitted twice, a phone number that one lead carries, and the store
    in which two leads carry it, where both paths raise. *)
Lemma intake_idempotent_witness :
  (exists r1 r2 st1,
      session.get_db 10 (leads.submit_lead None sample_request None None)
        empty_store = (Ok r1, st1)
      /\ session.get_db 20
           (leads.submit_lead None sample_resubmission None None) st1
         = (Ok r2, st1)
      /\ LeadSubmissionResponse.leadId r1 = LeadSubmissionResponse.leadId r2
      /\ length (consent_rows st1 0%N) = 1%nat
      /\ length (history_rows st1 0%N) = 1%nat)
  /\ session.get_db 20
       (lead_processor.process_lead sample_resubmission None None)
       sample_store
     = (Ok (Lead.load sample_store
              (InvestorProfile.stamp 10
                 (leads.build_investor 0%N sample_request))),
        sample_store)
  /\ session.get_db 20 (leads.submit_lead None sample_request None None)
       twin_store
     = (Raise MultipleResultsFound, twin_store)
  /\ session.get_db 20
       (lead_processor.process_lead sample_request None None) twin_store
     = (Raise MultipleResultsFound, twin_store).
Proof.
  split; [|split].
  - destruct (intake_idempotent empty_store 10 20 None None None None
                None None None None sample_request sample_resubmission
                eq_refl eq_refl eq_refl)
      as (_ & Htwice & _).
    destruct (Htwice empty_store_wf eq_refl eq_refl eq_refl eq_refl)
      as [(r1 & r2 & st1 & H1 & H2 & Hid1 & Hid2 & Hc & Hh) _].
    exists r1, r2, st1.
    split; [exact H1|]. split; [exact H2|].
    split; [rewrite Hid1, Hid2; reflexivity|].
    split; [exact Hc|]. exact (f_equal (@length _) Hh).
  - destruct (intake_idempotent sample_store 20 20 None None None None
                None None None None sample_resubmission sample_resubmission
                eq_refl eq_refl eq_refl)
      as (Hexisting & _).
    apply (Hexisting
             (InvestorProfile.stamp 10
                (leads.build_investor 0%N sample_request))).
    vm_compute. reflexivity.
  - destruct (intake_idempotent twin_store 20 20 None None None None
                None None None None sample_request sample_request
                eq_refl eq_refl eq_refl)
      as (_ & _ & Htwins).
    exact (Htwins _ _ [] eq_refl).
Defined.

(** C2, as worded, fails on that store: two leads carry the phone
    number and no id is returned. *)
Lemma intake_twin_phone_raises : ~ intake_returns_existing.
Proof.
  intros H.
  destruct (H twin_store 20 None None None sample_request twin_store_wf
              eq_refl)
    as (existing & _ & Hrun).
  - vm_compute. discriminate.
  - vm_compute in Hrun. discriminate Hrun.
Qed.

(** ** C4: stage updates and the history chain *)

Lemma linked_snoc (prev : option string) (rows : list StageHistory.t)
    (h : StageHistory.t) :
  linked prev (rows ++ [h])
  <-> linked prev rows /\ StageHistory.from_stage h = final_stage prev rows.
Proof.
  revert prev. induction rows as [|r rows IH]; intros prev; simpl.
  - tauto.
  - rewrite IH. tauto.
Qed.

Lemma final_stage_snoc (prev : option string) (rows : list StageHistory.t)
    (h : StageHistory.t) :
  final_stage prev (rows ++ [h]) = Some (StageHistory.to_stage h).
Proof.
  revert prev. induction rows as [|r rows IH]; intros prev; simpl; auto.
Qed.

Lemma history_rows_after_update (st : Store) (nw : datetime) (id id' : UUID)
    (new_stage changed_by : string) (notes : option string)
    (i : InvestorProfile.t) :
  history_rows (store_after_update nw id new_stage changed_by notes i st) id'
  = (history_rows st id'
     ++ if N.eqb id id'
        then [ {| StageHistory.id := next_uuid st;
                  StageHistory.investor_id := id;
                  StageHistory.from_stage := Some (InvestorProfile.stage i);
                  StageHistory.to_stage := new_stage;
                  StageHistory.changed_by := changed_by;
                  StageHistory.notes := notes;
                  StageHistory.changed_at := nw |} ]
        else [])%list.
Proof.
  unfold history_rows, store_after_update.
  cbn [stage_history insert_history update_investors draw_uuid].
  rewrite filter_snoc. reflexivity.
Qed.

Lemma leads_with_id_after_update (st : Store) (nw : datetime) (id : UUID)
    (new_stage changed_by : string) (notes : option string)
    (i : InvestorProfile.t) :
  leads_with_id st id = [i] ->
  leads_with_id (store_after_update nw id new_stage changed_by notes i st) id
  = [InvestorProfile.set_stage new_stage nw i].
Proof.
  intros Hi.
  change (leads_with_id (store_after_update nw id new_stage changed_by
                           notes i st) id)
    with (leads_with_id (update_investors (stage_update id new_stage nw) st)
            id).
  rewrite leads_with_id_update, Hi. cbn [map]. unfold stage_update.
  rewrite (filter_cons_holds _ _ _ _ Hi). reflexivity.
Qed.

Lemma run_update_stage_existing (st : Store) (nw : datetime) (id : UUID)
    (new_stage changed_by : string) (notes : option string)
    (i : InvestorProfile.t) :
  leads_with_id st id = [i] ->
  let st' := store_after_update nw id new_stage changed_by notes i st in
  run_update_stage nw id new_stage changed_by notes st
  = (Ok (Some (Lead.load st' (InvestorProfile.set_stage new_stage nw i))),
     st').
Proof.
  intros Hi st'. unfold run_update_stage, session.get_db.
  rewrite (update_stage_run id new_stage changed_by notes st nw i Hi).
  reflexivity.
Qed.

Lemma run_update_stage_missing (st : Store) (nw : datetime) (id : UUID)
    (new_stage changed_by : string) (notes : option string) :
  leads_with_id st id = [] ->
  run_update_stage nw id new_stage changed_by notes st = (Ok None, st).
Proof.
  intros Hnone. unfold run_update_stage, session.get_db.
  rewrite update_stage_missing by exact Hnone. reflexivity.
Qed.

Lemma history_chain_step (st : Store) (nw : datetime) (id : UUID)
    (new_stage changed_by : string) (notes : option string)
    (stages : list string) :
  history_chain st id stages ->
  history_chain
    (snd (run_update_stage nw id new_stage changed_by notes st)) id
    (stages ++ [new_stage]).
Proof.
  intros (i & Hi & Hlinked & Hmap & Hfinal).
  rewrite (run_update_stage_existing st nw id new_stage changed_by notes i Hi).
  cbn [snd].
  exists (InvestorProfile.set_stage new_stage nw i).
  rewrite history_rows_after_update, N.eqb_refl.
  split; [apply leads_with_id_after_update, Hi|].
  split; [apply linked_snoc; split; [exact Hlinked | symmetry; exact Hfinal]|].
  split; [rewrite List.map_app, Hmap; reflexivity|].
  apply final_stage_snoc.
Qed.

Lemma history_chain_updates (id : UUID)
    (ups : list (datetime * string * string * option string)) :
  forall (st : Store) (stages : list string),
    history_chain st id stages ->
    history_chain (run_updates id ups st) id
      (stages ++ map update_stage_of ups).
Proof.
  induction ups as [|[[[nw new_stage] changed_by] notes] ups IH];
    intros st stages Hchain.
  - simpl. rewrite app_nil_r. exact Hchain.
  - cbn [run_updates map update_stage_of].
    replace (stages ++ new_stage :: map update_stage_of ups)%list
      with ((stages ++ [new_stage]) ++ map update_stage_of ups)%list
      by (rewrite <- app_assoc; reflexivity).
    apply IH, history_chain_step, Hchain.
Qed.

Lemma history_chain_after_submit (st : Store) (nw : datetime)
    (req : LeadSubmissionRequest.t) (ip ua : option string) :
  wf st ->
  leads_with_phone st (LeadSubmissionRequest.phoneNumber req) = [] ->
  history_chain (store_after_submit nw req ip ua st) (next_uuid st)
    ["new_lead"].
Proof.
  intros Hwf Hnew.
  destruct (rows_after_submit st nw req ip ua Hwf Hnew) as (_ & Hi & _ & Hh).
  eexists. split; [exact Hi|]. rewrite Hh. cbn.
  repeat split. f_equal. symmetry. apply build_investor_stage.
Qed.

(** A series of updates of an existing lead extends its history by one
    row per update, none of them a creation row, and keeps it a chain
    that ends at the stage of the lead. *)
Lemma updates_extend_chain (id : UUID)
    (ups : list (datetime * string * string * option string)) :
  forall (st : Store) (prev : option string) (i : InvestorProfile.t),
    leads_with_id st id = [i] ->
    linked prev (history_rows st id) ->
    final_stage prev (history_rows st id) = Some (InvestorProfile.stage i) ->
    exists i' added,
      leads_with_id (run_updates id ups st) id = [i']
      /\ history_rows (run_updates id ups st) id
         = (history_rows st id ++ added)%list
      /\ map StageHistory.to_stage added = map update_stage_of ups
      /\ Forall (fun h => is_creation_row h = false) added
      /\ linked prev (history_rows (run_updates id ups st) id)
      /\ final_stage prev (history_rows (run_updates id ups st) id)
         = Some (InvestorProfile.stage i').
Proof.
  induction ups as [|[[[nw new_stage] changed_by] notes] ups IH];
    intros st prev i Hi Hlinked Hfinal.
  - exists i, []. cbn [run_updates map]. rewrite List.app_nil_r.
    repeat split; try assumption. constructor.
  - cbn [run_updates].
    rewrite (run_update_stage_existing st nw id new_stage changed_by notes i
               Hi).
    cbn [snd].
    set (st' := store_after_update nw id new_stage changed_by notes i st).
    assert (Hrows : history_rows st' id
                    = (history_rows st id
                       ++ [ {| StageHistory.id := next_uuid st;
                               StageHistory.investor_id := id;
                               StageHistory.from_stage :=
                                 Some (InvestorProfile.stage i);
                               StageHistory.to_stage := new_stage;
                               StageHistory.changed_by := changed_by;
                               StageHistory.notes := notes;
                               StageHistory.changed_at := nw |} ])%list).
    { unfold st'. rewrite history_rows_after_update, N.eqb_refl.
      reflexivity. }
    destruct (IH st' prev (InvestorProfile.set_stage new_stage nw i))
      as (i' & added & Hi' & Hadded & Hmap & Hnone & Hlinked' & Hfinal').
    + apply leads_with_id_after_update, Hi.
    + rewrite Hrows. apply linked_snoc. split; [exact Hlinked|].
      symmetry. exact Hfinal.
    + rewrite Hrows, final_stage_snoc. reflexivity.
    + exists i'. eexists (_ :: added).
      split; [exact Hi'|].
      split; [rewrite Hadded, Hrows, <- List.app_assoc; reflexivity|].
      split; [cbn [map update_stage_of]; rewrite Hmap; reflexivity|].
      split; [constructor; [reflexivity | exact Hnone]|].
      split; assumption.
Qed.

(** C4. For an existing lead, one stage update whose stage and actor fit
    their columns sets the stage to the new value and appends exactly
    one stage-history row, from the stage the lead had to the new one,
    and touches no other table; for an unknown id it returns [None] and
    changes nothing. After a first-time submission through
    [submit_lead] and N stage updates the lead has N+1 history rows,
    each starting at the stage the previous one ended at, the first
    being the creation row, and the lead is at the stage the last row
    ends at. After a first-time intake through [process_lead], which
    writes no creation row, and N stage updates the lead has N history
    rows, none of them a creation row: the chain starts at [new_lead]
    and not from no stage. *)
Theorem stage_update_history (st : Store) (nw : datetime) (id : UUID)
    (new_stage changed_by : string) (notes : option string)
    (client xff ua ip : option string) (req : LeadSubmissionRequest.t)
    (ups : list (datetime * string * string * option string)) :
  (forall i,
      leads_with_id st id = [i] ->
      fits 50 new_stage = true ->
      fits 100 changed_by = true ->
      let row :=
        {| StageHistory.id := next_uuid st; StageHistory.investor_id := id;
           StageHistory.from_stage := Some (InvestorProfile.stage i);
           StageHistory.to_stage := new_stage;
           StageHistory.changed_by := changed_by;
           StageHistory.notes := notes; StageHistory.changed_at := nw |} in
      exists lead' st',
        run_update_stage nw id new_stage changed_by notes st
        = (Ok (Some lead'), st')
        /\ Lead.row lead' = InvestorProfile.set_stage new_stage nw i
        /\ InvestorProfile.stage (Lead.row lead') = new_stage
        /\ leads_with_id st' id = [Lead.row lead']
        /\ stage_history st' = (stage_history st ++ [row])%list
        /\ history_rows st' id = (history_rows st id ++ [row])%list
        /\ consents st' = consents st
        /\ lead_notes st' = lead_notes st
        /\ properties st' = properties st)
  /\ (leads_with_id st id = [] ->
      run_update_stage nw id new_stage changed_by notes st = (Ok None, st))
  /\ (wf st ->
      LeadSubmissionRequest.consent req = true ->
      leads_with_phone st (LeadSubmissionRequest.phoneNumber req) = [] ->
      request_fits req = true ->
      fits_opt 45 (Py.or_opt xff client) = true ->
      Forall (fun u => update_fits u = true) ups ->
      let l := next_uuid st in
      let st1 :=
        snd (session.get_db nw (leads.submit_lead client req xff ua) st) in
      let rows := history_rows (run_updates l ups st1) l in
      length rows = S (length ups)
      /\ linked None rows
      /\ map StageHistory.to_stage rows
         = "new_lead" :: map update_stage_of ups
      /\ exists i, leads_with_id (run_updates l ups st1) l = [i]
                   /\ final_stage None rows = Some (InvestorProfile.stage i))
  /\ (wf st ->
      leads_with_phone st (LeadSubmissionRequest.phoneNumber req) = [] ->
      request_fits req = true ->
      fits_opt 45 ip = true ->
      Forall (fun u => update_fits u = true) ups ->
      let l := next_uuid st in
      let st1 :=
        snd (session.get_db nw (lead_processor.process_lead req ip ua) st) in
      let rows := history_rows (run_updates l ups st1) l in
      length rows = length ups
      /\ Forall (fun h => is_creation_row h = false) rows
      /\ linked (Some "new_lead") rows
      /\ map StageHistory.to_stage rows = map update_stage_of ups
      /\ exists i, leads_with_id (run_updates l ups st1) l = [i]
                   /\ final_stage (Some "new_lead") rows
                      = Some (InvestorProfile.stage i)).
Proof.
  split; [|split; [|split]].
  - intros i Hi _ _ row. eexists _, _.
    split; [apply run_update_stage_existing, Hi|].
    split; [reflexivity|]. split; [reflexivity|].
    split; [apply leads_with_id_after_update, Hi|].
    split; [reflexivity|].
    split; [rewrite history_rows_after_update, N.eqb_refl; reflexivity|].
    repeat split.
  - apply run_update_stage_missing.
  - intros Hwf Hconsent Hnew _ _ _ l st1 rows.
    pose proof (history_chain_updates l ups _ _
                  (history_chain_after_submit st nw req
                     (Py.or_opt xff client) ua Hwf Hnew))
      as (i & Hi & Hlinked & Hmap & Hfinal).
    subst rows st1. rewrite submit_lead_new by assumption. cbn [snd].
    split.
    { rewrite <- (List.length_map StageHistory.to_stage), Hmap.
      simpl. rewrite List.length_map. reflexivity. }
    split; [exact Hlinked|]. split; [exact Hmap|].
    exists i. split; assumption.
  - intros Hwf Hnew _ _ _ l st1 rows.
    destruct (rows_after_profile_and_consent st nw req ip ua Hwf Hnew)
      as (_ & Hi & _ & Hh).
    subst rows st1. rewrite process_lead_new by assumption. cbn [snd].
    destruct (updates_extend_chain l ups
                (store_after_profile_and_consent nw req ip ua st)
                (Some "new_lead")
                (InvestorProfile.stamp nw (leads.build_investor l req)))
      as (i' & added & Hi' & Hadded & Hmap & Hnone & Hlinked & Hfinal).
    + exact Hi.
    + fold l in Hh. rewrite Hh. exact I.
    + fold l in Hh. rewrite Hh. cbn [final_stage].
      change (InvestorProfile.stage (InvestorProfile.stamp nw ?o))
        with (InvestorProfile.stage o).
      rewrite build_investor_stage. reflexivity.
    + fold l in Hh. rewrite Hh in Hadded. cbn [app] in Hadded.
      rewrite Hadded in *.
      split; [rewrite <- (List.length_map StageHistory.to_stage), Hmap;
              apply List.length_map|].
      split; [exact Hnone|]. split; [exact Hlinked|].
      split; [exact Hmap|]. exists i'. split; assumption.
Qed.

(** The sample lead and three updates: four rows after [submit_lead],
    three after [process_lead], and an update of an unknown id. *)
Lemma stage_update_history_witness :
  length (history_rows (run_updates 0%N sample_updates sample_store) 0%N)
  = 4%nat
  /\ map StageHistory.to_stage
       (history_rows (run_updates 0%N sample_updates sample_store) 0%N)
     = ["new_lead"; "call_dispatched"; "call_completed"; "call_completed"]
  /\ length
       (history_rows
          (run_updates 0%N sample_updates
             (snd (session.get_db 10
                     (lead_processor.process_lead sample_request None None)
                     empty_store))) 0%N)
     = 3%nat
  /\ run_update_stage 50 9%N "closed" "admin" None sample_store
     = (Ok None, sample_store).
Proof.
  destruct (stage_update_history empty_store 10 0%N "closed" "admin" None
              None None None None sample_request sample_updates)
    as (_ & _ & Hseries & Hservice).
  assert (Hups : Forall (fun u => update_fits u = true) sample_updates)
    by (repeat constructor).
  destruct (Hseries empty_store_wf eq_refl eq_refl eq_refl eq_refl Hups)
    as (Hlen & _ & Hmap & _).
  destruct (Hservice empty_store_wf eq_refl eq_refl eq_refl Hups)
    as (Hlen' & _).
  split; [exact Hlen|]. split; [exact Hmap|]. split; [exact Hlen'|].
  destruct (stage_update_history sample_store 50 9%N "closed" "admin" None
              None None None None sample_request [])
    as (_ & Hmissing & _).
  apply Hmissing. vm_compute. reflexivity.
Defined.

(** ** C10: self-transitions *)

Lemma set_stage_same (nw : datetime) (i : InvestorProfile.t) :
  InvestorProfile.set_stage (InvestorProfile.stage i) nw i = i.
Proof.
  destruct i. unfold InvestorProfile.set_stage. simpl.
  rewrite String.eqb_refl. reflexivity.
Qed.

Lemma update_investors_same (st : Store) (nw : datetime) (id : UUID)
    (i : InvestorProfile.t) :
  leads_with_id st id = [i] ->
  map (stage_update id (InvestorProfile.stage i) nw) (investor_profiles st)
  = investor_profiles st.
Proof.
  intros Hi. rewrite <- (List.map_id (investor_profiles st)) at 2.
  apply List.map_ext_in. intros a Ha. unfold stage_update.
  destruct (N.eqb (InvestorProfile.id a) id) eqn:E; [|reflexivity].
  assert (Hin : In a (leads_with_id st id))
    by (apply List.filter_In; split; assumption).
  rewrite Hi in Hin. destruct Hin as [<-|[]]. apply set_stage_same.
Qed.

Lemma self_updates (id : UUID) (i : InvestorProfile.t)
    (ups : list (datetime * string * string * option string)) :
  Forall (fun u => update_stage_of u = InvestorProfile.stage i) ups ->
  forall st : Store,
    leads_with_id st id = [i] ->
    leads_with_id (run_updates id ups st) id = [i]
    /\ investor_profiles (run_updates id ups st) = investor_profiles st
    /\ exists added,
         history_rows (run_updates id ups st) id
         = (history_rows st id ++ added)%list
         /\ length added = length ups
         /\ Forall (fun h => StageHistory.from_stage h
                             = Some (StageHistory.to_stage h)
                             /\ StageHistory.to_stage h
                                = InvestorProfile.stage i) added.
Proof.
  induction 1 as [|[[[nw new_stage] changed_by] notes] ups Hu _ IH];
    intros st Hi.
  - simpl. split; [exact Hi|]. split; [reflexivity|].
    exists []. rewrite app_nil_r. auto.
  - cbn [run_updates]. simpl in Hu. subst new_stage.
    rewrite (run_update_stage_existing st nw id _ changed_by notes i Hi).
    cbn [snd].
    set (st' := store_after_update nw id (InvestorProfile.stage i)
                  changed_by notes i st).
    assert (Hi' : leads_with_id st' id = [i]).
    { unfold st'. rewrite leads_with_id_after_update by exact Hi.
      rewrite set_stage_same. reflexivity. }
    assert (Hrows : investor_profiles st' = investor_profiles st).
    { unfold st', store_after_update.
      cbn [investor_profiles insert_history update_investors draw_uuid].
      apply update_investors_same, Hi. }
    destruct (IH st' Hi') as (Hl & Hp & added & Hh & Hlen & Hself).
    split; [exact Hl|]. split; [congruence|].
    eexists (_ :: added). split; [|split].
    + rewrite Hh. unfold st'.
      rewrite history_rows_after_update, N.eqb_refl, <- app_assoc.
      reflexivity.
    + simpl. rewrite Hlen. reflexivity.
    + constructor; [split; reflexivity | exact Hself].
Qed.

(** Rendering a lead raises, whatever the lead. *)
Lemma to_response_raises (lead : Lead.t) (s : Session) :
  admin._investor_to_response lead s = (Raise AttributeError, s).
Proof. reflexivity. Qed.

(** A valid stage update through the API, for an existing lead: the
    repository call writes inside the transaction, the rendering of the
    answer raises. *)
Lemma update_lead_stage_session (st : Store) (nw : datetime) (id : UUID)
    (stage : string) (notes : option string) (i : InvestorProfile.t) :
  leads_with_id st id = [i] ->
  In stage admin.VALID_STAGES ->
  admin.update_lead_stage id
    {| StageUpdateRequest.stage := stage;
       StageUpdateRequest.notes := notes |}
    {| db := st; pending := []; now := nw |}
  = (Raise AttributeError,
     {| db := store_after_update nw id stage "admin" notes i st;
        pending := []; now := nw |}).
Proof.
  intros Hi Hvalid.
  unfold admin.update_lead_stage.
  cbn [StageUpdateRequest.stage StageUpdateRequest.notes].
  rewrite (contains_true _ _ Hvalid). cbn [negb].
  rewrite run_bind, (update_stage_run id stage "admin" notes st nw i Hi).
  rewrite run_bind, get_with_relations_run, get_run. cbn [db].
  rewrite leads_with_id_after_update by exact Hi.
  apply to_response_raises.
Qed.

Lemma update_lead_stage_run (st : Store) (nw : datetime) (id : UUID)
    (stage : string) (notes : option string) (i : InvestorProfile.t) :
  leads_with_id st id = [i] ->
  In stage admin.VALID_STAGES ->
  session.get_db nw
    (admin.update_lead_stage id
       {| StageUpdateRequest.stage := stage;
          StageUpdateRequest.notes := notes |}) st
  = (Raise AttributeError, st).
Proof.
  intros Hi Hvalid. unfold session.get_db.
  rewrite (update_lead_stage_session st nw id stage notes i Hi Hvalid).
  reflexivity.
Qed.

(** C10. The repository has no self-transition guard: for an existing
    lead, [update_stage] with the current stage of the lead (stage and
    actor fitting their columns) succeeds, leaves the lead row as it is
    and appends one history row whose source and target stage are both
    the current stage; a series of such updates keeps the lead rows as
    they are and adds one such row per update. Through the API the
    request passes the stage check and the repository call, and then
    fails: the rendering of the answer reads [lead.name], which the
    mapped class does not have, the handler raises [AttributeError] and
    the transaction is rolled back, so no row is appended and the store
    is as before. *)
Theorem self_transition_appends_history (st : Store) (nw : datetime)
    (id : UUID) (notes : option string) (i : InvestorProfile.t)
    (ups : list (datetime * string * string * option string)) :
  leads_with_id st id = [i] ->
  let stage := InvestorProfile.stage i in
  let row (changed_by : string) :=
    {| StageHistory.id := next_uuid st; StageHistory.investor_id := id;
       StageHistory.from_stage := Some stage;
       StageHistory.to_stage := stage;
       StageHistory.changed_by := changed_by; StageHistory.notes := notes;
       StageHistory.changed_at := nw |} in
  (forall changed_by,
      fits 50 stage = true -> fits 100 changed_by = true ->
      exists st',
        run_update_stage nw id stage changed_by notes st
        = (Ok (Some (Lead.load st' i)), st')
        /\ investor_profiles st' = investor_profiles st
        /\ leads_with_id st' id = [i]
        /\ stage_history st' = (stage_history st ++ [row changed_by])%list
        /\ history_rows st' id
           = (history_rows st id ++ [row changed_by])%list)
  /\ (Forall (fun u => update_stage_of u = stage) ups ->
      Forall (fun u => update_fits u = true) ups ->
      leads_with_id (run_updates id ups st) id = [i]
      /\ investor_profiles (run_updates id ups st) = investor_profiles st
      /\ exists added,
           history_rows (run_updates id ups st) id
           = (history_rows st id ++ added)%list
           /\ length added = length ups
           /\ Forall (fun h => StageHistory.from_stage h
                               = Some (StageHistory.to_stage h)
                               /\ StageHistory.to_stage h = stage) added)
  /\ (In stage admin.VALID_STAGES ->
      (exists st',
          admin.update_lead_stage id
            {| StageUpdateRequest.stage := stage;
               StageUpdateRequest.notes := notes |}
            {| db := st; pending := []; now := nw |}
          = (Raise AttributeError, {| db := st'; pending := []; now := nw |})
          /\ stage_history st' = (stage_history st ++ [row "admin"])%list)
      /\ session.get_db nw
           (admin.update_lead_stage id
              {| StageUpdateRequest.stage := stage;
                 StageUpdateRequest.notes := notes |}) st
         = (Raise AttributeError, st)).
Proof.
  intros Hi stage row. split; [|split].
  - intros changed_by _ _. eexists. split.
    + rewrite (run_update_stage_existing st nw id stage changed_by notes i Hi).
      unfold stage. rewrite set_stage_same. reflexivity.
    + split.
      { unfold store_after_update.
        cbn [investor_profiles insert_history update_investors draw_uuid].
        apply update_investors_same, Hi. }
      split.
      { rewrite leads_with_id_after_update by exact Hi.
        unfold stage. rewrite set_stage_same. reflexivity. }
      split; [reflexivity|].
      rewrite history_rows_after_update, N.eqb_refl. reflexivity.
  - intros Hall _. apply self_updates; assumption.
  - intros Hvalid. split.
    + eexists. split.
      * apply (update_lead_stage_session st nw id stage notes i Hi Hvalid).
      * reflexivity.
    + apply (update_lead_stage_run st nw id stage notes i Hi Hvalid).
Qed.

(** The sample lead, in stage [new_lead]: the repository appends a
    second history row for an update to [new_lead]; the API request
    raises and leaves the store as it was. *)
Lemma self_transition_appends_history_witness :
  (exists st',
      run_update_stage 20 0%N "new_lead" "admin" None sample_store
      = (Ok (Some (Lead.load st'
                     (InvestorProfile.stamp 10
                        (leads.build_investor 0%N sample_request)))), st')
      /\ investor_profiles st' = investor_profiles sample_store
      /\ length (stage_history st') = 2%nat)
  /\ session.get_db 20
       (admin.update_lead_stage 0%N
          {| StageUpdateRequest.stage := "new_lead";
             StageUpdateRequest.notes := None |}) sample_store
     = (Raise AttributeError, sample_store).
Proof.
  destruct (self_transition_appends_history sample_store 20 0%N None
              (InvestorProfile.stamp 10 (leads.build_investor 0%N sample_request))
              [] eq_refl)
    as (Hrepo & _ & Hapi).
  split.
  - destruct (Hrepo "admin" eq_refl eq_refl)
      as (st' & Hrun & Hrows & _ & Hhist & _).
    exists st'. split; [exact Hrun|]. split; [exact Hrows|].
    rewrite Hhist. reflexivity.
  - apply Hapi. vm_compute. auto.
Defined.

(** ** Sorted listings and their pages *)

Lemma key_le_total (a b : option Z) :
  Sql.key_le a b = false -> Sql.key_le b a = true.
Proof.
  destruct a as [x|], b as [y|]; cbn; try congruence.
  intros H. apply Z.leb_gt in H. apply Z.leb_le. lia.
Qed.

Section OrderedFacts.
Context {A : Type} (key : A -> option Z) (before : option Z -> option Z -> bool).
Hypothesis before_total : forall a b, before a b = false -> before b a = true.

Lemma insert_by_ordered (x : A) (l : list A) :
  ordered (fun a b => before (key a) (key b)) l ->
  ordered (fun a b => before (key a) (key b)) (Sql.insert_by key before x l).
Proof.
  induction l as [|y l IH]; intros Hl.
  - cbn. auto.
  - cbn [Sql.insert_by]. destruct (before (key x) (key y)) eqn:E.
    + cbn [ordered]. split; [exact E | exact Hl].
    + destruct Hl as [Hhead Hrest].
      cbn [ordered]. split; [|apply IH, Hrest].
      destruct l as [|z l].
      * cbn. apply before_total, E.
      * cbn [Sql.insert_by]. destruct (before (key x) (key z)).
        -- apply before_total, E.
        -- exact Hhead.
Qed.

Lemma fold_insert_by_ordered (l : list A) :
  ordered (fun a b => before (key a) (key b))
    (fold_right (Sql.insert_by key before) [] l).
Proof.
  induction l as [|x l IH]; [exact I|].
  cbn [fold_right]. apply insert_by_ordered, IH.
Qed.

End OrderedFacts.

Section OrderedSlices.
Context {A : Type} (before : A -> A -> bool).

Lemma ordered_skipn (n : nat) (l : list A) :
  ordered before l -> ordered before (skipn n l).
Proof.
  revert l. induction n as [|n IH]; intros [|x l] H; try exact H.
  cbn [skipn]. apply IH. destruct H as [_ H]. exact H.
Qed.

Lemma ordered_firstn (n : nat) (l : list A) :
  ordered before l -> ordered before (firstn n l).
Proof.
  revert l. induction n as [|n IH]; intros [|x l] H; try exact I.
  destruct H as [Hhead Hrest]. cbn [firstn ordered].
  split; [|apply IH, Hrest].
  destruct n as [|n]; [exact I|].
  destruct l as [|y l]; [exact I | exact Hhead].
Qed.

Lemma firstn_add (a b : nat) (l : list A) :
  firstn (a + b) l = (firstn a l ++ firstn b (skipn a l))%list.
Proof.
  revert l. induction a as [|a IH]; intros l; [reflexivity|].
  destruct l as [|x l]; cbn [Nat.add firstn skipn app].
  - destruct b; reflexivity.
  - rewrite IH. reflexivity.
Qed.

(** Slices of [n] rows, one after the other, give the first [k * n]
    rows. *)
Lemma slices_concat (n k : nat) (l : list A) :
  concat (map (fun p => Sql.offset_limit (p * n) n l) (seq 0 k))
  = firstn (k * n) l.
Proof.
  induction k as [|k IH]; [reflexivity|].
  rewrite List.seq_S, List.map_app, List.concat_app, IH.
  cbn [Nat.add map concat]. rewrite List.app_nil_r.
  unfold Sql.offset_limit.
  replace (S k * n)%nat with (k * n + n)%nat by lia.
  rewrite firstn_add. reflexivity.
Qed.

End OrderedSlices.

Lemma order_by_ordered {A} (key : A -> option Z) (desc : bool) (l : list A) :
  ordered (fun a b => if desc then Sql.key_le (key b) (key a)
                      else Sql.key_le (key a) (key b))
    (Sql.order_by key desc l).
Proof.
  unfold Sql.order_by. destruct desc.
  - apply (fold_insert_by_ordered key (fun a b => Sql.key_le b a)).
    intros a b. apply key_le_total.
  - apply (fold_insert_by_ordered key Sql.key_le).
    intros a b. apply key_le_total.
Qed.

Section OrderByPages.
Context {A : Type} (key : A -> option Z).

Lemma insert_by_perm before (x : A) (l : list A) :
  Permutation (Sql.insert_by key before x l) (x :: l).
Proof.
  induction l as [|y l IH]; cbn [Sql.insert_by]; [reflexivity|].
  destruct (before (key x) (key y)); [reflexivity|].
  rewrite IH. apply perm_swap.
Qed.

Lemma order_by_perm (desc : bool) (l : list A) :
  Permutation (Sql.order_by key desc l) l.
Proof.
  unfold Sql.order_by. induction l as [|x l IH]; [reflexivity|].
  cbn [fold_right]. rewrite insert_by_perm. apply perm_skip, IH.
Qed.

(** A page cut from the sorted rows is a page of the rows. *)
Lemma order_by_page_of (desc : bool) (skip limit : Z) (rows : list A) :
  page_of key desc skip limit rows
    (Sql.offset_limit (Z.to_nat skip) (Z.to_nat limit)
       (Sql.order_by key desc rows)).
Proof.
  exists (Sql.order_by key desc rows).
  split; [apply order_by_perm|].
  split; [apply order_by_ordered | reflexivity].
Qed.

End OrderByPages.

Lemma ordered_ext {A} (before before' : A -> A -> bool) (l : list A) :
  (forall a b, before a b = before' a b) ->
  ordered before l -> ordered before' l.
Proof.
  intros Hext. induction l as [|x l IH]; [exact (fun H => H)|].
  intros [Hhead Hrest]. split; [|apply IH, Hrest].
  destruct l as [|y l]; [exact I|]. rewrite <- Hext. exact Hhead.
Qed.

Lemma page_of_ext {A} (key key' : A -> option Z) (desc : bool)
    (skip limit : Z) (rows page : list A) :
  (forall a, key a = key' a) ->
  page_of key desc skip limit rows page ->
  page_of key' desc skip limit rows page.
Proof.
  intros Hext (listing & Hperm & Hord & Hpage).
  exists listing. split; [exact Hperm|]. split; [|exact Hpage].
  unfold in_order in *. revert Hord. apply ordered_ext.
  intros a b. rewrite !Hext. reflexivity.
Qed.

(** ** C5: the total is counted before pagination *)

Lemma select_leads_run (where_ : InvestorProfile.t -> bool) (s : Session) :
  base_repo.select_leads where_ s
  = (Ok (map (Lead.load (db s))
           (List.filter where_ (investor_profiles (db s)))), s).
Proof. reflexivity. Qed.

Lemma search_leads_run (stage : option string)
    (score_min score_max capital_min capital_max : option Z)
    (date_from date_to : option datetime) (search : option string)
    (sort_by sort_order : string) (skip limit : Z) (s : Session) :
  in_int4 score_min -> in_int4 score_max ->
  in_int4 capital_min -> in_int4 capital_max ->
  (0 <= skip <= 2147483647)%Z -> (0 <= limit <= 2147483647)%Z ->
  let matching :=
    List.filter
      (investor_repo.lead_filter stage score_min score_max capital_min
         capital_max date_from date_to search)
      (investor_profiles (db s)) in
  let sort_column :=
    default investor_repo.created_at
      (investor_repo.sort_column_map !! sort_by) in
  investor_repo.search_leads stage score_min score_max capital_min
    capital_max date_from date_to search sort_by sort_order skip limit s
  = (Ok (Sql.offset_limit (Z.to_nat skip) (Z.to_nat limit)
           (Sql.order_by
              (fun l => investor_repo.sort_key sort_column (Lead.row l))
              (String.eqb sort_order "desc")
              (map (Lead.load (db s)) matching)),
         Z.of_nat (length matching)), s).
Proof.
  intros Hsmin Hsmax Hcmin Hcmax Hskip Hlimit matching sort_column.
  unfold investor_repo.search_leads.
  rewrite (int4_opt_true _ Hsmin), (int4_opt_true _ Hsmax),
    (int4_opt_true _ Hcmin), (int4_opt_true _ Hcmax).
  cbn [andb negb].
  rewrite run_bind, select_leads_run. fold matching.
  rewrite (paging_accepted skip limit Hskip Hlimit).
  rewrite List.length_map. reflexivity.
Qed.

Lemma is_true_Some (b : bool) : Sql.is_true (Some b) = b.
Proof. destruct b; reflexivity. Qed.

(** The WHERE clause of [search_leads] lets pass the leads that the
    filters describe, for a search term without LIKE metacharacters. *)
Lemma lead_filter_passes (stage : option string)
    (score_min score_max capital_min capital_max : option Z)
    (date_from date_to : option datetime) (search : option string)
    (i : InvestorProfile.t) :
  (forall x, search = Some x -> plain (list_ascii_of_string x) = true) ->
  investor_repo.lead_filter stage score_min score_max capital_min capital_max
    date_from date_to search i
  = passes_filters stage score_min score_max capital_min capital_max
      date_from date_to search i.
Proof.
  intros Hplain. unfold investor_repo.lead_filter, passes_filters.
  apply (f_equal2 andb).
  apply (f_equal2 andb).
  apply (f_equal2 andb).
  apply (f_equal2 andb).
  apply (f_equal2 andb).
  apply (f_equal2 andb).
  apply (f_equal2 andb).
  - destruct stage as [x|]; [|reflexivity].
    cbn [Py.truthy_opt Sql.eq_str]. rewrite is_true_Some.
    destruct (Py.truthy x); reflexivity.
  - destruct score_min; [|reflexivity].
    cbn [Sql.ge]. apply is_true_Some.
  - destruct score_max; [|reflexivity].
    cbn [Sql.le]. apply is_true_Some.
  - destruct capital_min, (InvestorProfile.capital_available i);
      try reflexivity.
    cbn [Sql.ge]. apply is_true_Some.
  - destruct capital_max, (InvestorProfile.capital_available i);
      try reflexivity.
    cbn [Sql.le]. apply is_true_Some.
  - destruct date_from; [|reflexivity].
    cbn [Sql.ge]. apply is_true_Some.
  - destruct date_to; [|reflexivity].
    cbn [Sql.le]. apply is_true_Some.
  - destruct search as [x|]; [|reflexivity].
    specialize (Hplain x eq_refl).
    destruct (Py.truthy x); [|reflexivity].
    cbn [negb orb Sql.col_contains]. rewrite is_true_Some.
    rewrite !list_ascii_app.
    change (list_ascii_of_string "%") with ["%"%char]. cbn [app].
    apply eq_true_iff_eq.
    rewrite (like_wrapped_plain _ _ Hplain). split.
    + apply occurs_infixb.
    + apply infixb_occurs.
Qed.



(** ** C7: unknown sort keys *)

Lemma sort_column_unknown (sort_by : string) :
  sort_by <> "created_at" -> sort_by <> "lead_score" ->
  sort_by <> "capital_available" ->
  investor_repo.sort_column_map !! sort_by = None.
Proof.
  intros H1 H2 H3. unfold investor_repo.sort_column_map.
  rewrite !lookup_insert_ne by congruence. apply lookup_empty.
Qed.

Lemma sort_column_created_at :
  investor_repo.sort_column_map !! "created_at"
  = Some investor_repo.created_at.
Proof. vm_compute. reflexivity. Qed.

(** The column that [search_leads] sorts by is the one the sort key
    names, and [created_at] for every other name. *)
Lemma sort_key_of_column (sort_by : string) (i : InvestorProfile.t) :
  investor_repo.sort_key
    (default investor_repo.created_at
       (investor_repo.sort_column_map !! sort_by)) i
  = sort_key_of sort_by i.
Proof.
  unfold sort_key_of.
  destruct (String.eqb_spec sort_by "lead_score") as [->|Hscore];
    [reflexivity|].
  destruct (String.eqb_spec sort_by "capital_available") as [->|Hcapital];
    [reflexivity|].
  destruct (String.eqb_spec sort_by "created_at") as [->|Hcreated];
    [reflexivity|].
  rewrite sort_column_unknown by assumption. reflexivity.
Qed.

(** The page of a search, as a page of the matching leads in the order
    of the sort key. *)
Lemma search_leads_page (stage : option string)
    (score_min score_max capital_min capital_max : option Z)
    (date_from date_to : option datetime) (search : option string)
    (sort_by sort_order : string) (skip limit : Z) (s : Session) :
  in_int4 score_min -> in_int4 score_max ->
  in_int4 capital_min -> in_int4 capital_max ->
  (0 <= skip <= 2147483647)%Z -> (0 <= limit <= 2147483647)%Z ->
  let matching :=
    List.filter
      (investor_repo.lead_filter stage score_min score_max capital_min
         capital_max date_from date_to search)
      (investor_profiles (db s)) in
  exists leads,
    investor_repo.search_leads stage score_min score_max capital_min
      capital_max date_from date_to search sort_by sort_order skip limit s
    = (Ok (leads, Z.of_nat (length matching)), s)
    /\ page_of (fun l => sort_key_of sort_by (Lead.row l))
         (String.eqb sort_order "desc") skip limit
         (map (Lead.load (db s)) matching) leads.
Proof.
  intros Hsmin Hsmax Hcmin Hcmax Hskip Hlimit matching.
  eexists. split; [apply search_leads_run; assumption|].
  eapply page_of_ext; [|apply order_by_page_of].
  intros l. apply sort_key_of_column.
Qed.

(** C7. With a sort key outside created_at, lead_score and
    capital_available, [search_leads] runs the query of the key
    created_at: same page, same total, same session afterwards. For
    bounds, offset and limit in the INTEGER range it does not fail: it
    returns the number of matching leads and a page of them in the order
    of [created_at], descending when the sort order is [desc] and
    ascending otherwise: the rows from the offset, at most [limit], of
    the matching leads sorted by their creation time. *)
Theorem unknown_sort_key_defaults (stage : option string)
    (score_min score_max capital_min capital_max : option Z)
    (date_from date_to : option datetime) (search : option string)
    (sort_by sort_order : string) (skip limit : Z) (s : Session) :
  sort_by <> "created_at" -> sort_by <> "lead_score" ->
  sort_by <> "capital_available" ->
  let matching :=
    List.filter
      (investor_repo.lead_filter stage score_min score_max capital_min
         capital_max date_from date_to search)
      (investor_profiles (db s)) in
  investor_repo.search_leads stage score_min score_max capital_min
    capital_max date_from date_to search sort_by sort_order skip limit s
  = investor_repo.search_leads stage score_min score_max capital_min
      capital_max date_from date_to search "created_at" sort_order skip
      limit s
  /\ (in_int4 score_min -> in_int4 score_max ->
      in_int4 capital_min -> in_int4 capital_max ->
      (0 <= skip <= 2147483647)%Z -> (0 <= limit <= 2147483647)%Z ->
      exists leads,
        investor_repo.search_leads stage score_min score_max capital_min
          capital_max date_from date_to search sort_by sort_order skip
          limit s
        = (Ok (leads, Z.of_nat (length matching)), s)
        /\ page_of
             (fun l => Some (InvestorProfile.created_at (Lead.row l)))
             (String.eqb sort_order "desc") skip limit
             (map (Lead.load (db s)) matching) leads).
Proof.
  intros H1 H2 H3 matching. split.
  - unfold investor_repo.search_leads.
    rewrite (sort_column_unknown sort_by H1 H2 H3), sort_column_created_at.
    reflexivity.
  - intros Hsmin Hsmax Hcmin Hcmax Hskip Hlimit.
    destruct (search_leads_page stage score_min score_max capital_min
                capital_max date_from date_to search sort_by sort_order
                skip limit s Hsmin Hsmax Hcmin Hcmax Hskip Hlimit)
      as (leads & Hrun & Hpage).
    exists leads. split; [exact Hrun|].
    revert Hpage. apply page_of_ext. intros l. unfold sort_key_of.
    destruct (String.eqb_spec sort_by "lead_score"); [contradiction|].
    destruct (String.eqb_spec sort_by "capital_available"); [contradiction|].
    reflexivity.
Qed.

(** Five leads created at the times 1 to 5, sorted by the unknown key
    [phone], ascending, three from offset 1: the leads created at 2, 3
    and 4, in this order. *)
Lemma unknown_sort_key_defaults_witness :
  exists leads,
    investor_repo.search_leads None None None None None None None None
      "phone" "asc" 1 3 {| db := five_lead_store; pending := []; now := 9 |}
    = (Ok (leads, 5%Z), {| db := five_lead_store; pending := []; now := 9 |})
    /\ map (fun l => InvestorProfile.created_at (Lead.row l)) leads
       = [2; 3; 4]%Z.
Proof.
  destruct (unknown_sort_key_defaults None None None None None None None
              None "phone" "asc" 1 3
              {| db := five_lead_store; pending := []; now := 9 |})
    as [_ Hpage]; try discriminate.
  destruct Hpage as (leads & Hrun & _);
    try (intros v Hv; discriminate Hv); try lia.
  exists leads. split; [exact Hrun|].
  assert (Hleads : fst (investor_repo.search_leads None None None None None
                          None None None "phone" "asc" 1 3
                          {| db := five_lead_store; pending := [];
                             now := 9 |})
                   = Ok (leads, 5%Z))
    by (rewrite Hrun; reflexivity).
  vm_compute in Hleads. injection Hleads as <-. reflexivity.
Defined.

(** ** What a request does to the store *)

Lemma create_run_taken (obj : InvestorProfile.t) (st : Store) (nw : datetime) :
  has_investor st (InvestorProfile.id obj) = true ->
  exists s',
    base_repo.create obj {| db := st; pending := []; now := nw |}
    = (Raise IntegrityError, s').
Proof.
  intros Htaken.
  unfold base_repo.create, session.add, session.flush.
  rewrite run_bind. cbn [db pending now app].
  rewrite run_bind. cbn [db pending now flush_all flush_one].
  rewrite Htaken. eauto.
Qed.

(** A first-time submission succeeds as soon as the identifier drawn for
    the lead is not in use. *)
Lemma submit_lead_fresh (st : Store) (nw : datetime)
    (client xff ua : option string) (req : LeadSubmissionRequest.t) :
  has_investor st (next_uuid st) = false ->
  LeadSubmissionRequest.consent req = true ->
  leads_with_phone st (LeadSubmissionRequest.phoneNumber req) = [] ->
  session.get_db nw (leads.submit_lead client req xff ua) st
  = (Ok {| LeadSubmissionResponse.success := true;
           LeadSubmissionResponse.message := "Lead submitted successfully";
           LeadSubmissionResponse.leadId := Py.str_uuid (next_uuid st) |},
     store_after_submit nw req (Py.or_opt xff client) ua st).
Proof.
  intros Hfresh Hconsent Hnew.
  unfold session.get_db, leads.submit_lead. rewrite Hconsent. cbn [negb].
  rewrite run_bind, get_by_phone_run. cbn [db]. rewrite Hnew.
  rewrite run_bind. cbn [session.uuid4 db pending now].
  rewrite run_bind.
  rewrite (create_run (leads.build_investor (next_uuid st) req)
             (draw_uuid st) nw)
    by (rewrite build_investor_id; exact Hfresh).
  cbn [Lead.row Lead.load].
  change (InvestorProfile.id
            (InvestorProfile.stamp nw
               (leads.build_investor (next_uuid st) req)))
    with (InvestorProfile.id (leads.build_investor (next_uuid st) req)).
  rewrite build_investor_id.
  set (st1 := insert_investor _ (draw_uuid st)).
  assert (Hhas : has_investor st1 (next_uuid st) = true).
  { unfold st1. rewrite has_investor_insert.
    change (InvestorProfile.id (InvestorProfile.stamp nw ?o))
      with (InvestorProfile.id o).
    rewrite build_investor_id, N.eqb_refl. apply orb_true_r. }
  destruct (add_consent_run (next_uuid st)
              "TCPA consent granted via web chatbot"
              (Py.or_opt xff client) ua st1 nw Hhas) as [c Hc].
  rewrite run_bind, Hc.
  rewrite run_bind. cbn [session.uuid4 db pending now].
  rewrite run_bind. cbn [session.add db pending now app].
  cbn [mret M_ret].
  unfold session.flush.
  cbn [db pending now flush_all flush_one StageHistory.investor_id].
  change (has_investor (draw_uuid (insert_consent ?c0 (draw_uuid st1)))
            (next_uuid st))
    with (has_investor st1 (next_uuid st)).
  rewrite Hhas. reflexivity.
Qed.

Lemma submit_lead_effect (st : Store) (nw : datetime)
    (client xff ua : option string) (req : LeadSubmissionRequest.t) :
  snd (session.get_db nw (leads.submit_lead client req xff ua) st) = st
  \/ (leads_with_phone st (LeadSubmissionRequest.phoneNumber req) = []
      /\ has_investor st (next_uuid st) = false
      /\ snd (session.get_db nw (leads.submit_lead client req xff ua) st)
         = store_after_submit nw req (Py.or_opt xff client) ua st).
Proof.
  destruct (LeadSubmissionRequest.consent req) eqn:Hconsent.
  - destruct (leads_with_phone st (LeadSubmissionRequest.phoneNumber req))
      as [|i [|j r]] eqn:Hphone.
    + destruct (has_investor st (next_uuid st)) eqn:Hfresh.
      * left. unfold session.get_db, leads.submit_lead.
        rewrite Hconsent. cbn [negb].
        rewrite run_bind, get_by_phone_run. cbn [db]. rewrite Hphone.
        rewrite run_bind. cbn [session.uuid4 db pending now].
        rewrite run_bind.
        destruct (create_run_taken
                    (leads.build_investor (next_uuid st) req)
                    (draw_uuid st) nw) as [s' Hs'].
        { rewrite build_investor_id. exact Hfresh. }
        rewrite Hs'. reflexivity.
      * right. split; [reflexivity|]. split; [reflexivity|].
        rewrite submit_lead_fresh by assumption. reflexivity.
    + left. rewrite (submit_lead_existing st nw client xff ua req i)
        by assumption. reflexivity.
    + left. unfold session.get_db, leads.submit_lead.
      rewrite Hconsent. cbn [negb].
      rewrite run_bind, get_by_phone_run. cbn [db]. rewrite Hphone.
      reflexivity.
  - left. unfold session.get_db, leads.submit_lead.
    rewrite Hconsent. reflexivity.
Qed.

(** A stage update through the API never changes the store: it is
    refused (400, 404), or its answer cannot be rendered and the
    transaction is rolled back. *)
Lemma update_lead_stage_effect (st : Store) (nw : datetime) (id : UUID)
    (stage_data : StageUpdateRequest.t) :
  snd (session.get_db nw (admin.update_lead_stage id stage_data) st) = st.
Proof.
  destruct stage_data as [stage notes].
  destruct (Py.contains admin.VALID_STAGES stage) eqn:Hvalid.
  - assert (Hin : In stage admin.VALID_STAGES).
    { apply List.existsb_exists in Hvalid as (v & Hv & Heq).
      apply String.eqb_eq in Heq. subst v. exact Hv. }
    destruct (leads_with_id st id) as [|i [|j r]] eqn:Hid.
    + unfold session.get_db, admin.update_lead_stage.
      cbn [StageUpdateRequest.stage StageUpdateRequest.notes].
      rewrite Hvalid. cbn [negb].
      rewrite run_bind, update_stage_missing by exact Hid. reflexivity.
    + rewrite (update_lead_stage_run st nw id stage notes i Hid Hin).
      reflexivity.
    + unfold session.get_db, admin.update_lead_stage.
      cbn [StageUpdateRequest.stage StageUpdateRequest.notes].
      rewrite Hvalid. cbn [negb].
      rewrite run_bind. unfold investor_repo.update_stage.
      rewrite run_bind, get_run. cbn [db]. rewrite Hid. reflexivity.
  - unfold session.get_db, admin.update_lead_stage.
    cbn [StageUpdateRequest.stage StageUpdateRequest.notes].
    rewrite Hvalid. reflexivity.
Qed.

Lemma add_note_run (investor_id : UUID) (content created_by : string)
    (st : Store) (nw : datetime) (i : InvestorProfile.t) :
  leads_with_id st investor_id = [i] ->
  exists note,
    investor_repo.add_note investor_id content created_by
      {| db := st; pending := []; now := nw |}
    = (Ok (Some note),
       {| db := store_after_note nw investor_id content created_by st;
          pending := []; now := nw |})
    /\ List.find (fun n => N.eqb (LeadNote.id n) (next_uuid st))
         (lead_notes st
          ++ [note_row (next_uuid st) investor_id content created_by nw])
       = Some note.
Proof.
  intros Hi.
  assert (Hhas : has_investor st investor_id = true)
    by (rewrite has_investor_by_id, Hi; reflexivity).
  unfold investor_repo.add_note.
  rewrite run_bind, get_run. cbn [db]. rewrite Hi.
  unfold base_repo.refresh_note, session.add, session.flush, session.store,
    session.uuid4, mbind, M_bind, mret, M_ret.
  cbn [db pending now app flush_all flush_one LeadNote.investor_id].
  change (has_investor (draw_uuid st) investor_id)
    with (has_investor st investor_id).
  rewrite Hhas.
  cbn [db pending now insert_note lead_notes draw_uuid].
  change (LeadNote.stamp nw _)
    with (note_row (next_uuid st) investor_id content created_by nw).
  destruct (find_snoc_some
              (fun n => N.eqb (LeadNote.id n) (next_uuid st))
              (lead_notes st)
              (note_row (next_uuid st) investor_id content created_by nw))
    as [note Hnote].
  - simpl. apply N.eqb_refl.
  - rewrite Hnote. exists note. split; reflexivity.
Qed.

Lemma add_lead_note_effect (st : Store) (nw : datetime) (id : UUID)
    (content : string) :
  snd (session.get_db nw (admin.add_lead_note id content) st) = st
  \/ exists i,
       leads_with_id st id = [i]
       /\ snd (session.get_db nw (admin.add_lead_note id content) st)
          = store_after_note nw id content "admin" st.
Proof.
  destruct (leads_with_id st id) as [|i [|j r]] eqn:Hid.
  - left. unfold session.get_db, admin.add_lead_note.
    rewrite run_bind. unfold investor_repo.add_note.
    rewrite run_bind, get_run. cbn [db]. rewrite Hid. reflexivity.
  - right. exists i. split; [reflexivity|].
    destruct (add_note_run id content "admin" st nw i Hid)
      as (note & Hrun & _).
    unfold session.get_db, admin.add_lead_note.
    rewrite run_bind, Hrun. reflexivity.
  - left. unfold session.get_db, admin.add_lead_note.
    rewrite run_bind. unfold investor_repo.add_note.
    rewrite run_bind, get_run. cbn [db]. rewrite Hid. reflexivity.
Qed.

Lemma get_lead_run (st : Store) (nw : datetime) (id : UUID) :
  session.get_db nw (admin.get_lead id) st
  = (match leads_with_id st id with
     | [] => Raise (HTTPException 404 "Lead not found")
     | [i] => Raise AttributeError
     | _ :: _ :: _ => Raise MultipleResultsFound
     end, st).
Proof.
  unfold session.get_db, admin.get_lead.
  rewrite run_bind, get_with_relations_run, get_run. cbn [db].
  destruct (leads_with_id st id) as [|i [|j r]]; reflexivity.
Qed.

(** A request leaves the store as it is, or adds a lead with its consent
    and creation row, or adds a note. *)
Lemma serve_effect (r : datetime * Request) (st : Store) :
  serve r st = st
  \/ (exists nw req ip ua,
        leads_with_phone st (LeadSubmissionRequest.phoneNumber req) = []
        /\ has_investor st (next_uuid st) = false
        /\ serve r st = store_after_submit nw req ip ua st)
  \/ (exists nw id content i,
        leads_with_id st id = [i]
        /\ serve r st = store_after_note nw id content "admin" st).
Proof.
  destruct r as [nw [client req xff ua | id stage_data | id content | id]];
    cbn [serve].
  - destruct (submit_lead_effect st nw client xff ua req)
      as [H|(Hp & Hf & H)]; [left; exact H|].
    right. left. eauto 10.
  - left. apply update_lead_stage_effect.
  - destruct (add_lead_note_effect st nw id content)
      as [H|(i & Hi & H)]; [left; exact H|].
    right. right. eauto 10.
  - left. rewrite get_lead_run. reflexivity.
Qed.

(** ** C8: the qualification block of the detail response *)

(** The loop of [list_leads] over the page: nothing to render on an
    empty page, and the first lead of any other page raises. *)
Lemma render_all_raises (leads : list Lead.t) (s : Session) :
  mapM admin._investor_to_response leads s
  = (match leads with
     | [] => Ok []
     | _ :: _ => Raise AttributeError
     end, s).
Proof. destruct leads; reflexivity. Qed.

(** C8. [_investor_to_response] builds the qualification block first:
    present exactly when [investor_type] and [qualification_bucket] are
    both set and not the empty string, absent for a lead without
    [qualification_bucket], and with a value for every field when
    present. No response carries it: the constructor call then reads
    [lead.name], an attribute that the mapped class does not have, and
    raises [AttributeError] for every lead. The detail of an existing
    lead therefore fails, and so does every non-empty page of the lead
    listing; only an empty page is answered. *)
Theorem qualification_block_presence (lead : Lead.t) :
  let r := Lead.row lead in
  let q := admin.qualification_of lead in
  (forall s : Session,
      admin._investor_to_response lead s = (Raise AttributeError, s))
  /\ (forall (st : Store) (nw : datetime) (id : UUID),
        leads_with_id st id = [r] ->
        session.get_db nw (admin.get_lead id) st
        = (Raise AttributeError, st))
  /\ (forall (fromisoformat : string -> option datetime)
             (stage : option string)
             (score_min score_max capital_min capital_max : option Z)
             (date_from date_to search : option string)
             (sort_by sort_order : string) (page page_size : Z)
             (s : Session) (leads : list Lead.t) (total : Z),
        (1 <= page)%Z -> (1 <= page_size <= 100)%Z ->
        investor_repo.search_leads stage score_min score_max capital_min
          capital_max (admin.parse_date fromisoformat date_from)
          (admin.parse_date fromisoformat date_to) search sort_by sort_order
          ((page - 1) * page_size) page_size s
        = (Ok (leads, total), s) ->
        admin.list_leads fromisoformat stage score_min score_max capital_min
          capital_max date_from date_to search sort_by sort_order page
          page_size s
        = (match leads with
           | [] =>
               Ok {| LeadListResponse.leads := [];
                     LeadListResponse.total := total;
                     LeadListResponse.page := page;
                     LeadListResponse.pageSize := page_size;
                     LeadListResponse.totalPages :=
                       admin.total_pages total page_size |}
           | _ :: _ => Raise AttributeError
           end, s))
  /\ (is_Some q <->
        Py.truthy_opt (InvestorProfile.investor_type r) = true
        /\ Py.truthy_opt (InvestorProfile.qualification_bucket r) = true)
  /\ (InvestorProfile.qualification_bucket r = None -> q = None)
  /\ (InvestorProfile.investor_type r = None -> q = None)
  /\ (forall b, q = Some b ->
        InvestorProfile.investor_type r
        = Some (InvestorQualificationResponse.investorType b)
        /\ InvestorProfile.qualification_bucket r
           = Some (InvestorQualificationResponse.bucket b)
        /\ InvestorQualificationResponse.capacity b
           = Py.or_str (InvestorProfile.capacity r) EmptyString
        /\ InvestorQualificationResponse.fit b
           = Py.or_str (InvestorProfile.fit r) EmptyString
        /\ InvestorQualificationResponse.process b
           = Py.or_str (InvestorProfile.process r) EmptyString
        /\ InvestorQualificationResponse.timing b
           = Py.or_str (InvestorProfile.timing r) EmptyString
        /\ InvestorQualificationResponse.score b
           = Py.or_int (InvestorProfile.qualification_score r)
               (InvestorProfile.lead_score r)).
Proof.
  intros r q.
  split; [intros s; apply to_response_raises|].
  split; [intros st nw id Hid; rewrite get_lead_run, Hid; reflexivity|].
  split.
  { intros fromisoformat stage score_min score_max capital_min capital_max
      date_from date_to search sort_by sort_order page page_size s leads
      total Hpage Hsize Hsearch.
    unfold admin.list_leads.
    destruct (Z.ltb_spec page 1); [lia|].
    destruct (Z.ltb_spec page_size 1); [lia|].
    destruct (Z.ltb_spec 100 page_size); [lia|].
    cbn [orb]. rewrite run_bind, Hsearch.
    rewrite run_bind, render_all_raises.
    destruct leads; reflexivity. }
  subst q. unfold admin.qualification_of. fold r.
  destruct (InvestorProfile.investor_type r) as [it|];
    destruct (InvestorProfile.qualification_bucket r) as [qb|]; simpl.
  - destruct (Py.truthy it) eqn:Hit; destruct (Py.truthy qb) eqn:Hqb; simpl;
      (split; [split; [intros [? ?]; try discriminate; auto
                      | intros [? ?]; try discriminate; eauto] |]);
      (split; [discriminate|]); (split; [discriminate|]);
      intros b Hb; try discriminate; injection Hb as <-; simpl; auto 10.
  - split; [split; [intros [? ?]; discriminate | intros [_ ?]; discriminate]|].
    repeat split; try reflexivity; intros; discriminate.
  - split; [split; [intros [? ?]; discriminate | intros [? _]; discriminate]|].
    repeat split; try reflexivity; intros; discriminate.
  - split; [split; [intros [? ?]; discriminate | intros [? _]; discriminate]|].
    repeat split; try reflexivity; intros; discriminate.
Qed.

(** The sample lead has both columns set, and its block is built; the
    detail request for it raises. A lead stored with an empty investor
    type and a bucket has both columns set and no block. *)
Lemma qualification_block_presence_witness :
  is_Some (admin.qualification_of
             (Lead.load sample_store
                (InvestorProfile.stamp 10
                   (leads.build_investor 0%N sample_request))))
  /\ session.get_db 20 (admin.get_lead 0%N) sample_store
     = (Raise AttributeError, sample_store)
  /\ InvestorProfile.investor_type (Lead.row blank_type_lead) = Some EmptyString
  /\ is_Some (InvestorProfile.qualification_bucket (Lead.row blank_type_lead))
  /\ admin.qualification_of blank_type_lead = None.
Proof.
  destruct (qualification_block_presence
              (Lead.load sample_store
                 (InvestorProfile.stamp 10
                    (leads.build_investor 0%N sample_request))))
    as (_ & Hdetail & _ & Hblock & _).
  destruct (qualification_block_presence blank_type_lead)
    as (_ & _ & _ & Hblank & _).
  split; [apply Hblock; split; reflexivity|].
  split; [apply Hdetail; reflexivity|].
  split; [reflexivity|].
  split; [vm_compute; eauto|].
  destruct (admin.qualification_of blank_type_lead) as [b|] eqn:Hq;
    [|reflexivity].
  destruct (proj1 Hblank (ex_intro _ b eq_refl)) as [Htype _].
  vm_compute in Htype. discriminate Htype.
Defined.

(** ** Invariants of the request handlers *)

Lemma wf_after_note (st : Store) (nw : datetime) (id : UUID)
    (content created_by : string) (i : InvestorProfile.t) :
  wf st -> leads_with_id st id = [i] ->
  wf (store_after_note nw id content created_by st).
Proof.
  intros Hwf Hi.
  assert (Hhas : has_investor st id = true)
    by (rewrite has_investor_by_id, Hi; reflexivity).
  pose proof (wf_draw_uuid _ Hwf) as [Hpk Hfresh Hc Hn Hh].
  unfold store_after_note.
  eapply wf_insert_child; [constructor; eassumption | reflexivity
                          | reflexivity | auto | | auto].
  cbn [lead_notes insert_note]. intros n Hin.
  apply List.in_app_or in Hin as [Hin|[<-|[]]]; [auto | exact Hhas].
Qed.

Lemma serve_wf (r : datetime * Request) (st : Store) :
  wf st -> wf (serve r st).
Proof.
  intros Hwf.
  destruct (serve_effect r st)
    as [->|[(nw & req & ip & ua & _ & _ & ->)
           |(nw & id & content & i & Hi & ->)]].
  - exact Hwf.
  - apply wf_after_submit, Hwf.
  - eapply wf_after_note; eassumption.
Qed.

Lemma serve_ids_fresh (r : datetime * Request) (st : Store) :
  ids_fresh st -> ids_fresh (serve r st).
Proof.
  intros [Hc Hn Hh].
  destruct (serve_effect r st)
    as [->|[(nw & req & ip & ua & _ & _ & ->)
           |(nw & id & content & i & Hi & ->)]].
  - constructor; assumption.
  - constructor;
      cbn [store_after_submit store_after_profile_and_consent consents
           lead_notes stage_history next_uuid insert_history insert_consent
           insert_investor draw_uuid].
    + intros c Hin. apply List.in_app_or in Hin as [Hin|[<-|[]]].
      * specialize (Hc c Hin). lia.
      * cbn. lia.
    + intros n Hin. specialize (Hn n Hin). lia.
    + intros h Hin. apply List.in_app_or in Hin as [Hin|[<-|[]]].
      * specialize (Hh h Hin). lia.
      * cbn. lia.
  - constructor;
      cbn [store_after_note consents lead_notes stage_history next_uuid
           insert_note draw_uuid].
    + intros c Hin. specialize (Hc c Hin). lia.
    + intros n Hin. apply List.in_app_or in Hin as [Hin|[<-|[]]].
      * specialize (Hn n Hin). lia.
      * cbn. lia.
    + intros h Hin. specialize (Hh h Hin). lia.
Qed.

Lemma phones_after_update (st : Store) (nw : datetime) (id : UUID)
    (stage changed_by : string) (notes : option string)
    (i : InvestorProfile.t) :
  map InvestorProfile.phone
    (investor_profiles (store_after_update nw id stage changed_by notes i st))
  = map InvestorProfile.phone (investor_profiles st).
Proof.
  cbn [store_after_update investor_profiles insert_history update_investors
       draw_uuid].
  rewrite List.map_map. apply List.map_ext. intros a.
  apply stage_update_phone.
Qed.

Lemma ids_after_update (st : Store) (nw : datetime) (id : UUID)
    (stage changed_by : string) (notes : option string)
    (i : InvestorProfile.t) :
  map InvestorProfile.id
    (investor_profiles (store_after_update nw id stage changed_by notes i st))
  = map InvestorProfile.id (investor_profiles st).
Proof.
  cbn [store_after_update investor_profiles insert_history update_investors
       draw_uuid].
  rewrite List.map_map. apply List.map_ext. intros a.
  apply stage_update_id.
Qed.

Lemma phone_absent (st : Store) (phone : string) :
  leads_with_phone st phone = [] ->
  ~ In phone (map InvestorProfile.phone (investor_profiles st)).
Proof.
  intros Hnone Hin. apply List.in_map_iff in Hin as (i & Hp & Hi).
  assert (Hf : In i (leads_with_phone st phone)).
  { apply List.filter_In. split; [exact Hi|]. apply String.eqb_eq, Hp. }
  rewrite Hnone in Hf. destruct Hf.
Qed.

Lemma serve_unique_phones (r : datetime * Request) (st : Store) :
  unique_phones st -> unique_phones (serve r st).
Proof.
  unfold unique_phones. intros Huniq.
  destruct (serve_effect r st)
    as [->|[(nw & req & ip & ua & Hnew & _ & ->)
           |(nw & id & content & i & Hi & ->)]].
  - exact Huniq.
  - cbn [store_after_submit store_after_profile_and_consent investor_profiles
         insert_history insert_consent insert_investor draw_uuid].
    rewrite List.map_app. apply NoDup_app. split; [exact Huniq|].
    split; [|apply NoDup_singleton].
    intros x Hx Hx'. apply list_elem_of_In in Hx, Hx'.
    destruct Hx' as [<-|[]].
    change (InvestorProfile.phone (InvestorProfile.stamp nw ?o))
      with (InvestorProfile.phone o) in Hx.
    rewrite build_investor_phone in Hx.
    exact (phone_absent st _ Hnew Hx).
  - exact Huniq.
Qed.

Lemma serve_stages_valid (r : datetime * Request) (st : Store) :
  stages_valid st -> stages_valid (serve r st).
Proof.
  intros [Hleads Hrows].
  destruct (serve_effect r st)
    as [->|[(nw & req & ip & ua & _ & _ & ->)
           |(nw & id & content & i & Hi & ->)]].
  - split; assumption.
  - split;
      cbn [store_after_submit store_after_profile_and_consent
           investor_profiles stage_history insert_history insert_consent
           insert_investor draw_uuid].
    + intros a Ha. apply List.in_app_or in Ha as [Ha|[<-|[]]]; [auto|].
      change (InvestorProfile.stage (InvestorProfile.stamp nw ?o))
        with (InvestorProfile.stage o).
      rewrite build_investor_stage. left. reflexivity.
    + intros h Hh. apply List.in_app_or in Hh as [Hh|[<-|[]]]; [auto|].
      left. reflexivity.
  - split; assumption.
Qed.

Lemma serve_appends (r : datetime * Request) (st : Store) :
  stage_history st `prefix_of` stage_history (serve r st)
  /\ consents st `prefix_of` consents (serve r st)
  /\ lead_notes st `prefix_of` lead_notes (serve r st)
  /\ map InvestorProfile.id (investor_profiles st)
     `prefix_of` map InvestorProfile.id (investor_profiles (serve r st))
  /\ map InvestorProfile.phone (investor_profiles st)
     `prefix_of` map InvestorProfile.phone (investor_profiles (serve r st)).
Proof.
  destruct (serve_effect r st)
    as [->|[(nw & req & ip & ua & _ & _ & ->)
           |(nw & id & content & i & Hi & ->)]].
  - repeat split; reflexivity.
  - cbn [store_after_submit store_after_profile_and_consent investor_profiles
         consents lead_notes stage_history insert_history insert_consent
         insert_investor draw_uuid].
    rewrite !List.map_app.
    repeat split; try reflexivity; apply prefix_app_r; reflexivity.
  - cbn [store_after_note investor_profiles consents lead_notes stage_history
         insert_note draw_uuid].
    repeat split; try reflexivity; apply prefix_app_r; reflexivity.
Qed.

Lemma serve_all_cons (r : datetime * Request) (rs : list (datetime * Request))
    (st : Store) :
  serve_all (r :: rs) st = serve_all rs (serve r st).
Proof. reflexivity. Qed.

(** X1. Whatever requests are served, in whatever order, the store keeps
    the schema constraints (primary key of the leads, foreign keys of
    consents, notes and history rows), every identifier stays below the
    supply, and no second lead appears for a phone number that has
    one. *)
Theorem requests_keep_constraints (rs : list (datetime * Request))
    (st : Store) :
  wf st -> ids_fresh st -> unique_phones st ->
  wf (serve_all rs st) /\ ids_fresh (serve_all rs st)
  /\ unique_phones (serve_all rs st).
Proof.
  revert st. induction rs as [|r rs IH]; intros st Hwf Hids Huniq.
  - auto.
  - rewrite serve_all_cons.
    apply IH; [apply serve_wf | apply serve_ids_fresh
              | apply serve_unique_phones]; assumption.
Qed.

(** X2. The API never leaves the closed stage set: if every lead is in
    one of the seven stages and every history row leads to one, the same
    holds after any series of requests. *)
Theorem requests_keep_stages_valid (rs : list (datetime * Request))
    (st : Store) :
  stages_valid st -> stages_valid (serve_all rs st).
Proof.
  revert st. induction rs as [|r rs IH]; intros st Hvalid.
  - exact Hvalid.
  - rewrite serve_all_cons. apply IH, serve_stages_valid, Hvalid.
Qed.

(** X3. The handlers only append: after any series of requests the
    stage-history, consent and note tables start with the rows they had,
    unchanged and in the same order, and the leads that existed are still
    there with their identifiers and phone numbers. *)
Theorem requests_only_append (rs : list (datetime * Request)) (st : Store) :
  stage_history st `prefix_of` stage_history (serve_all rs st)
  /\ consents st `prefix_of` consents (serve_all rs st)
  /\ lead_notes st `prefix_of` lead_notes (serve_all rs st)
  /\ map InvestorProfile.id (investor_profiles st)
     `prefix_of` map InvestorProfile.id (investor_profiles (serve_all rs st))
  /\ map InvestorProfile.phone (investor_profiles st)
     `prefix_of` map InvestorProfile.phone
                   (investor_profiles (serve_all rs st)).
Proof.
  revert st. induction rs as [|r rs IH]; intros st.
  - repeat split; reflexivity.
  - rewrite serve_all_cons.
    destruct (serve_appends r st) as (H1 & H2 & H3 & H4 & H5).
    destruct (IH (serve r st)) as (G1 & G2 & G3 & G4 & G5).
    repeat split; etrans; eassumption.
Qed.

Lemma empty_store_ids_fresh : ids_fresh empty_store.
Proof. constructor; intros ? []. Qed.

Lemma empty_store_unique_phones : unique_phones empty_store.
Proof. apply NoDup_nil. exact I. Qed.

Lemma empty_store_stages_valid : stages_valid empty_store.
Proof. split; intros ? []. Qed.

Lemma requests_keep_constraints_witness :
  wf (serve_all sample_requests empty_store)
  /\ ids_fresh (serve_all sample_requests empty_store)
  /\ unique_phones (serve_all sample_requests empty_store).
Proof.
  apply requests_keep_constraints.
  - exact empty_store_wf.
  - exact empty_store_ids_fresh.
  - exact empty_store_unique_phones.
Defined.

Lemma requests_keep_stages_valid_witness :
  stages_valid (serve_all sample_requests empty_store).
Proof.
  apply requests_keep_stages_valid. exact empty_store_stages_valid.
Defined.

(** ** Submissions on a store with unique phone numbers *)

Lemma unique_phone_lookup (st : Store) (phone : string) :
  unique_phones st ->
  leads_with_phone st phone = []
  \/ exists i, leads_with_phone st phone = [i].
Proof.
  unfold unique_phones, leads_with_phone.
  induction (investor_profiles st) as [|a l IH]; intros Huniq.
  - left. reflexivity.
  - cbn [map] in Huniq. apply NoDup_cons in Huniq as [Hnotin Hrest].
    cbn [List.filter].
    destruct (String.eqb_spec (InvestorProfile.phone a) phone) as [Heq|Hne].
    + right. exists a. f_equal.
      apply existsb_false_filter.
      destruct (existsb _ l) eqn:E; [|reflexivity].
      apply List.existsb_exists in E as (b & Hb & Hpb).
      apply String.eqb_eq in Hpb. exfalso. apply Hnotin.
      apply list_elem_of_In. rewrite Heq, <- Hpb.
      apply List.in_map. exact Hb.
    + apply IH, Hrest.
Qed.

(** X4. On a store that meets the schema constraints and has unique
    phone numbers, a submission with consent whose values fit their
    columns is always answered with a lead id: the lookup cannot raise,
    and the id is that of the one lead that carries the phone number
    afterwards. *)
Theorem submission_always_answered (st : Store) (nw : datetime)
    (client xff ua : option string) (req : LeadSubmissionRequest.t) :
  wf st -> unique_phones st ->
  LeadSubmissionRequest.consent req = true ->
  request_fits req = true ->
  fits_opt 45 (Py.or_opt xff client) = true ->
  exists resp st' i,
    session.get_db nw (leads.submit_lead client req xff ua) st
    = (Ok resp, st')
    /\ leads_with_phone st' (LeadSubmissionRequest.phoneNumber req) = [i]
    /\ LeadSubmissionResponse.leadId resp
       = Py.str_uuid (InvestorProfile.id i)
    /\ LeadSubmissionResponse.success resp = true.
Proof.
  intros Hwf Huniq Hconsent _ _.
  destruct (unique_phone_lookup st (LeadSubmissionRequest.phoneNumber req)
              Huniq) as [Hnew|[i Hone]].
  - destruct (rows_after_submit st nw req (Py.or_opt xff client) ua Hwf Hnew)
      as (Hp & _).
    eexists _, _, _. split; [apply submit_lead_new; assumption|].
    split; [exact Hp|]. split; [|reflexivity].
    cbn [LeadSubmissionResponse.leadId].
    change (InvestorProfile.id (InvestorProfile.stamp nw ?o))
      with (InvestorProfile.id o).
    rewrite build_investor_id. reflexivity.
  - eexists _, _, _. split; [apply submit_lead_existing; eassumption|].
    split; [exact Hone|]. split; reflexivity.
Qed.

Lemma submission_always_answered_witness :
  request_fits sample_request = true
  /\ exists resp st' i,
    session.get_db 10
      (leads.submit_lead (Some "203.0.113.7") sample_request None None)
      empty_store
    = (Ok resp, st')
    /\ leads_with_phone st' "5551234567" = [i]
    /\ LeadSubmissionResponse.leadId resp
       = Py.str_uuid (InvestorProfile.id i)
    /\ LeadSubmissionResponse.success resp = true.
Proof.
  split; [reflexivity|].
  exact (submission_always_answered empty_store 10 (Some "203.0.113.7") None
           None sample_request empty_store_wf empty_store_unique_phones
           eq_refl eq_refl eq_refl).
Defined.

(** ** The consent check *)

(** X5. The consent check lives in the router only. [submit_lead]
    refuses a submission without consent with status 400 before it looks
    anything up, and nothing is written; [process_lead] does not look at
    the consent flag: for a new phone number it stores the lead and a
    consent row all the same. *)
Theorem consent_checked_by_router_only (st : Store) (nw : datetime)
    (client xff ua ip : option string) (req : LeadSubmissionRequest.t) :
  LeadSubmissionRequest.consent req = false ->
  (forall s : Session,
      leads.submit_lead client req xff ua s
      = (Raise (HTTPException 400 "Consent is required for lead submission"),
         s))
  /\ session.get_db nw (leads.submit_lead client req xff ua) st
     = (Raise (HTTPException 400 "Consent is required for lead submission"),
        st)
  /\ (wf st ->
      leads_with_phone st (LeadSubmissionRequest.phoneNumber req) = [] ->
      exists lead st',
        session.get_db nw (lead_processor.process_lead req ip ua) st
        = (Ok lead, st')
        /\ leads_with_id st' (next_uuid st) = [Lead.row lead]
        /\ consent_rows st' (next_uuid st)
           = [intake_consent_row (next_uuid st) ip ua nw]).
Proof.
  intros Hrefused.
  assert (Hrun : forall s : Session,
             leads.submit_lead client req xff ua s
             = (Raise (HTTPException 400
                         "Consent is required for lead submission"), s)).
  { intros s. unfold leads.submit_lead. rewrite Hrefused. reflexivity. }
  split; [exact Hrun|]. split.
  - unfold session.get_db. rewrite Hrun. reflexivity.
  - intros Hwf Hnew.
    destruct (rows_after_profile_and_consent st nw req ip ua Hwf Hnew)
      as (_ & Hi & Hc & _).
    eexists _, _. split; [apply process_lead_new; assumption|].
    split; [exact Hi | exact Hc].
Qed.

Lemma consent_checked_by_router_only_witness :
  session.get_db 20 (leads.submit_lead None refused_request None None)
    twin_store
  = (Raise (HTTPException 400 "Consent is required for lead submission"),
     twin_store)
  /\ exists lead st',
       session.get_db 20
         (lead_processor.process_lead refused_request None None) empty_store
       = (Ok lead, st')
       /\ leads_with_id st' 0%N = [Lead.row lead]
       /\ consent_rows st' 0%N = [intake_consent_row 0%N None None 20].
Proof.
  destruct (consent_checked_by_router_only twin_store 20 None None None None
              refused_request eq_refl) as (_ & Hrouter & _).
  split; [exact Hrouter|].
  destruct (consent_checked_by_router_only empty_store 20 None None None None
              refused_request eq_refl) as (_ & _ & Hservice).
  exact (Hservice empty_store_wf eq_refl).
Defined.

(** ** Notes *)

Lemma note_id_fresh (st : Store) :
  ids_fresh st ->
  existsb (fun n => N.eqb (LeadNote.id n) (next_uuid st)) (lead_notes st)
  = false.
Proof.
  intros [_ Hn _].
  destruct (existsb _ (lead_notes st)) eqn:E; [|reflexivity].
  apply List.existsb_exists in E as (n & Hin & Heq).
  apply N.eqb_eq in Heq. specialize (Hn n Hin). lia.
Qed.

(** X6. A note on an existing lead: the answer carries the new note's
    id, the text as given, the author [admin] and the time of the
    request; the note is appended to the notes table and no other table
    changes, the lead's [updated_at] included. *)
Theorem note_appended (st : Store) (nw : datetime) (id : UUID)
    (content : string) (i : InvestorProfile.t) :
  ids_fresh st ->
  leads_with_id st id = [i] ->
  exists st',
    session.get_db nw (admin.add_lead_note id content) st
    = (Ok {| LeadNoteResponse.id := Py.str_uuid (next_uuid st);
             LeadNoteResponse.content := content;
             LeadNoteResponse.createdBy := "admin";
             LeadNoteResponse.createdAt := nw |}, st')
    /\ lead_notes st'
       = (lead_notes st ++ [note_row (next_uuid st) id content "admin" nw])%list
    /\ investor_profiles st' = investor_profiles st
    /\ consents st' = consents st
    /\ stage_history st' = stage_history st
    /\ properties st' = properties st.
Proof.
  intros Hfresh Hi.
  destruct (add_note_run id content "admin" st nw i Hi)
    as (note & Hrun & Hfind).
  rewrite (find_snoc_fresh _ _ _ (note_id_fresh st Hfresh)) in Hfind
    by (simpl; apply N.eqb_refl).
  injection Hfind as <-.
  exists (store_after_note nw id content "admin" st).
  split; [|repeat split].
  unfold session.get_db, admin.add_lead_note.
  rewrite run_bind, Hrun. reflexivity.
Qed.

Lemma note_appended_witness :
  exists st',
    session.get_db 20 (admin.add_lead_note 0%N "left a voicemail")
      sample_store
    = (Ok {| LeadNoteResponse.id := Py.str_uuid 3%N;
             LeadNoteResponse.content := "left a voicemail";
             LeadNoteResponse.createdBy := "admin";
             LeadNoteResponse.createdAt := 20 |}, st')
    /\ lead_notes st'
       = ([] ++ [note_row 3%N 0%N "left a voicemail" "admin" 20])%list
    /\ investor_profiles st' = investor_profiles sample_store
    /\ consents st' = consents sample_store
    /\ stage_history st' = stage_history sample_store
    /\ properties st' = properties sample_store.
Proof.
  refine (note_appended sample_store 20 0%N "left a voicemail"
            (InvestorProfile.stamp 10 (leads.build_investor 0%N sample_request))
            _ eq_refl).
  constructor; cbn; intros x Hx;
    repeat (destruct Hx as [<-|Hx]; [vm_compute; reflexivity|]);
    destruct Hx.
Defined.

(** ** Unknown leads *)

(** X7. The three endpoints that address one lead answer 404
    [Lead not found] for an id that no lead has, and write nothing: no
    note and no history row is left behind for a lead that does not
    exist. *)
Theorem unknown_lead_not_found (st : Store) (nw : datetime) (id : UUID) :
  leads_with_id st id = [] ->
  session.get_db nw (admin.get_lead id) st
  = (Raise (HTTPException 404 "Lead not found"), st)
  /\ (forall content,
         session.get_db nw (admin.add_lead_note id content) st
         = (Raise (HTTPException 404 "Lead not found"), st))
  /\ (forall stage_data,
         In (StageUpdateRequest.stage stage_data) admin.VALID_STAGES ->
         session.get_db nw (admin.update_lead_stage id stage_data) st
         = (Raise (HTTPException 404 "Lead not found"), st)).
Proof.
  intros Hnone. split; [|split].
  - rewrite get_lead_run, Hnone. reflexivity.
  - intros content. unfold session.get_db, admin.add_lead_note.
    rewrite run_bind. unfold investor_repo.add_note.
    rewrite run_bind, get_run. cbn [db]. rewrite Hnone. reflexivity.
  - intros stage_data Hvalid.
    unfold session.get_db, admin.update_lead_stage.
    rewrite (contains_true _ _ Hvalid). cbn [negb].
    rewrite run_bind, update_stage_missing by exact Hnone. reflexivity.
Qed.

Lemma unknown_lead_not_found_witness :
  session.get_db 20 (admin.get_lead 9%N) sample_store
  = (Raise (HTTPException 404 "Lead not found"), sample_store)
  /\ (forall content,
         session.get_db 20 (admin.add_lead_note 9%N content) sample_store
         = (Raise (HTTPException 404 "Lead not found"), sample_store))
  /\ (forall stage_data,
         In (StageUpdateRequest.stage stage_data) admin.VALID_STAGES ->
         session.get_db 20 (admin.update_lead_stage 9%N stage_data)
           sample_store
         = (Raise (HTTPException 404 "Lead not found"), sample_store)).
Proof.
  apply (unknown_lead_not_found sample_store 20 9%N). reflexivity.
Defined.

(** X8. The repository treats an unknown lead in two ways. [add_note]
    and [update_stage] look the lead up first and return [None];
    [add_consent] does not look it up, so the INSERT breaks the foreign
    key, the request ends in an [IntegrityError] and is rolled back. *)
Theorem consent_for_unknown_lead_raises (st : Store) (nw : datetime)
    (id : UUID) (consent_text : string) (ip_address user_agent : option string) :
  leads_with_id st id = [] ->
  session.get_db nw
    (investor_repo.add_consent id consent_text ip_address user_agent) st
  = (Raise IntegrityError, st)
  /\ (forall content created_by,
         session.get_db nw (investor_repo.add_note id content created_by) st
         = (Ok None, st))
  /\ (forall new_stage changed_by notes,
         session.get_db nw
           (investor_repo.update_stage id new_stage changed_by notes) st
         = (Ok None, st)).
Proof.
  intros Hnone.
  assert (Hhas : has_investor st id = false)
    by (rewrite has_investor_by_id, Hnone; reflexivity).
  split; [|split].
  - unfold session.get_db, investor_repo.add_consent, session.add,
      session.flush, session.uuid4, mbind, M_bind, mret, M_ret.
    cbn [db pending now app flush_all flush_one Consent.investor_id].
    change (has_investor (draw_uuid st) id) with (has_investor st id).
    rewrite Hhas. reflexivity.
  - intros content created_by.
    unfold session.get_db, investor_repo.add_note.
    rewrite run_bind, get_run. cbn [db]. rewrite Hnone. reflexivity.
  - intros new_stage changed_by notes.
    unfold session.get_db.
    rewrite update_stage_missing by exact Hnone. reflexivity.
Qed.

Lemma consent_for_unknown_lead_raises_witness :
  session.get_db 20
    (investor_repo.add_consent 9%N "TCPA consent granted via web chatbot"
       None None) sample_store
  = (Raise IntegrityError, sample_store)
  /\ (forall content created_by,
         session.get_db 20 (investor_repo.add_note 9%N content created_by)
           sample_store
         = (Ok None, sample_store))
  /\ (forall new_stage changed_by notes,
         session.get_db 20
           (investor_repo.update_stage 9%N new_stage changed_by notes)
           sample_store
         = (Ok None, sample_store)).
Proof.
  apply (consent_for_unknown_lead_raises sample_store 20 9%N). reflexivity.
Defined.

(** ** A lead and its relations *)

Lemma note_rows_fresh (st : Store) :
  wf st ->
  List.filter (fun n => N.eqb (LeadNote.investor_id n) (next_uuid st))
    (lead_notes st) = [].
Proof.
  intros Hwf. pose proof (has_investor_fresh st Hwf) as Hfresh.
  apply existsb_false_filter.
  destruct (existsb _ (lead_notes st)) eqn:E; [|reflexivity].
  apply List.existsb_exists in E as (n & Hin & Heq).
  apply N.eqb_eq in Heq. pose proof (wf_fk_notes st Hwf n Hin) as Hfk.
  rewrite Heq in Hfk. congruence.
Qed.

(** X9. Intake, then the lead. The id answered to a first-time
    submission whose values fit their columns addresses the new lead:
    loaded by a later request, the lead has the submitted phone number
    and timeline, stage [new_lead], source [web], the capital parsed
    from the submission, the qualification score as lead score (0
    without a qualification), both timestamps at the time of the
    submission, no note, and the creation row as its whole stage
    history. *)
Theorem intake_detail_round_trip (st : Store) (nw later : datetime)
    (client xff ua : option string) (req : LeadSubmissionRequest.t) :
  wf st ->
  LeadSubmissionRequest.consent req = true ->
  leads_with_phone st (LeadSubmissionRequest.phoneNumber req) = [] ->
  request_fits req = true ->
  fits_opt 45 (Py.or_opt xff client) = true ->
  exists resp st' lead,
    session.get_db nw (leads.submit_lead client req xff ua) st
    = (Ok resp, st')
    /\ session.get_db later
         (investor_repo.get_with_relations (next_uuid st)) st'
       = (Ok (Some lead), st')
    /\ Py.str_uuid (InvestorProfile.id (Lead.row lead))
       = LeadSubmissionResponse.leadId resp
    /\ InvestorProfile.phone (Lead.row lead)
       = LeadSubmissionRequest.phoneNumber req
    /\ InvestorProfile.timeline (Lead.row lead)
       = LeadSubmissionRequest.investmentTimeline req
    /\ InvestorProfile.stage (Lead.row lead) = "new_lead"
    /\ InvestorProfile.source (Lead.row lead) = "web"
    /\ InvestorProfile.capital_available (Lead.row lead)
       = leads.capital_of req
    /\ InvestorProfile.lead_score (Lead.row lead)
       = match LeadSubmissionRequest.qualification req with
         | Some q => QualificationData.score q
         | None => 0
         end
    /\ InvestorProfile.created_at (Lead.row lead) = nw
    /\ InvestorProfile.updated_at (Lead.row lead) = nw
    /\ Lead.notes lead = []
    /\ Lead.stage_history lead = [intake_creation_row (next_uuid st) nw].
Proof.
  intros Hwf Hconsent Hnew _ _.
  destruct (rows_after_submit st nw req (Py.or_opt xff client) ua Hwf Hnew)
    as (_ & Hid & _ & Hhist).
  pose proof (note_rows_fresh st Hwf) as Hnotes.
  eexists _, _, _.
  split; [apply submit_lead_new; assumption|].
  split.
  { unfold session.get_db. rewrite get_with_relations_run, get_run.
    cbn [db]. rewrite Hid. reflexivity. }
  cbn [Lead.load Lead.row Lead.notes Lead.stage_history
       LeadSubmissionResponse.leadId].
  change (InvestorProfile.id (InvestorProfile.stamp nw ?o))
    with (InvestorProfile.id o).
  rewrite build_investor_id.
  repeat match goal with |- _ /\ _ => split end.
  - reflexivity.
  - apply build_investor_phone.
  - unfold leads.build_investor.
    destruct (LeadSubmissionRequest.qualification req); reflexivity.
  - apply build_investor_stage.
  - unfold leads.build_investor.
    destruct (LeadSubmissionRequest.qualification req); reflexivity.
  - unfold leads.build_investor.
    destruct (LeadSubmissionRequest.qualification req); reflexivity.
  - unfold leads.build_investor.
    destruct (LeadSubmissionRequest.qualification req); reflexivity.
  - reflexivity.
  - reflexivity.
  - unfold notes_of.
    change (lead_notes (store_after_submit nw req (Py.or_opt xff client) ua st))
      with (lead_notes st).
    rewrite Hnotes. reflexivity.
  - unfold stage_history_of. fold (history_rows
      (store_after_submit nw req (Py.or_opt xff client) ua st) (next_uuid st)).
    rewrite Hhist. reflexivity.
Qed.

Lemma intake_detail_round_trip_witness :
  request_fits sample_request = true
  /\ exists resp st' lead,
    session.get_db 10
      (leads.submit_lead (Some "203.0.113.7") sample_request None None)
      empty_store
    = (Ok resp, st')
    /\ session.get_db 99 (investor_repo.get_with_relations 0%N) st'
       = (Ok (Some lead), st')
    /\ Py.str_uuid (InvestorProfile.id (Lead.row lead))
       = LeadSubmissionResponse.leadId resp
    /\ InvestorProfile.phone (Lead.row lead) = "5551234567"
    /\ InvestorProfile.timeline (Lead.row lead) = Some "6 months"
    /\ InvestorProfile.stage (Lead.row lead) = "new_lead"
    /\ InvestorProfile.source (Lead.row lead) = "web"
    /\ InvestorProfile.capital_available (Lead.row lead)
       = leads.capital_of sample_request
    /\ InvestorProfile.lead_score (Lead.row lead) = 80
    /\ InvestorProfile.created_at (Lead.row lead) = 10
    /\ InvestorProfile.updated_at (Lead.row lead) = 10
    /\ Lead.notes lead = []
    /\ Lead.stage_history lead = [intake_creation_row 0%N 10].
Proof.
  split; [reflexivity|].
  exact (intake_detail_round_trip empty_store 10 99 (Some "203.0.113.7") None
           None sample_request empty_store_wf eq_refl eq_refl eq_refl eq_refl).
Defined.

Section NewestFirst.
Context {A : Type} (key : A -> Z).

(** A row appended with a key above all others sorts first in
    descending order. *)
Lemma order_by_desc_newest (l acc : list A) (x : A) :
  (forall a, In a l -> (key a < key x)%Z) ->
  fold_right
    (Sql.insert_by (fun a => Some (key a)) (fun a b => Sql.key_le b a))
    (x :: acc) l
  = x :: fold_right
           (Sql.insert_by (fun a => Some (key a)) (fun a b => Sql.key_le b a))
           acc l.
Proof.
  induction l as [|a l IH]; intros Hlt; [reflexivity|].
  cbn [fold_right]. rewrite IH by (intros b Hb; apply Hlt; right; exact Hb).
  cbn [Sql.insert_by Sql.key_le].
  assert (H : (key x <=? key a)%Z = false)
    by (apply Z.leb_gt, Hlt; left; reflexivity).
  rewrite H. reflexivity.
Qed.

Lemma order_by_desc_snoc (l : list A) (x : A) :
  (forall a, In a l -> (key a < key x)%Z) ->
  Sql.order_by (fun a => Some (key a)) true (l ++ [x])
  = x :: Sql.order_by (fun a => Some (key a)) true l.
Proof.
  intros Hlt. unfold Sql.order_by. rewrite List.fold_right_app.
  cbn [fold_right Sql.insert_by]. apply order_by_desc_newest, Hlt.
Qed.

End NewestFirst.

(** X10. The stage history of a loaded lead is newest first. A stage
    update whose stage and actor fit their columns, at a time later than
    every earlier transition of the lead, is followed in the handler by
    a load of the lead: the loaded lead has the new stage, and its
    history starts with the new transition, followed by the lead's
    earlier rows, newest first. *)
Theorem newest_transition_first (st : Store) (nw : datetime) (id : UUID)
    (stage changed_by : string) (notes : option string)
    (i : InvestorProfile.t) :
  leads_with_id st id = [i] ->
  fits 50 stage = true -> fits 100 changed_by = true ->
  (forall h, In h (history_rows st id) -> (StageHistory.changed_at h < nw)%Z) ->
  exists lead rest,
    session.get_db nw
      (_ ← investor_repo.update_stage id stage changed_by notes;
       investor_repo.get_with_relations id) st
    = (Ok (Some lead), store_after_update nw id stage changed_by notes i st)
    /\ InvestorProfile.stage (Lead.row lead) = stage
    /\ Lead.stage_history lead
       = {| StageHistory.id := next_uuid st;
            StageHistory.investor_id := id;
            StageHistory.from_stage := Some (InvestorProfile.stage i);
            StageHistory.to_stage := stage;
            StageHistory.changed_by := changed_by;
            StageHistory.notes := notes;
            StageHistory.changed_at := nw |} :: rest
    /\ Permutation rest (history_rows st id)
    /\ in_order (fun h => Some (StageHistory.changed_at h)) true rest.
Proof.
  intros Hi _ _ Hlater.
  assert (Hid : InvestorProfile.id i = id)
    by (apply N.eqb_eq; apply (filter_cons_holds _ _ _ _ Hi)).
  exists (Lead.load (store_after_update nw id stage changed_by notes i st)
            (InvestorProfile.set_stage stage nw i)).
  exists (Sql.order_by (fun h => Some (StageHistory.changed_at h)) true
            (history_rows st id)).
  split.
  { unfold session.get_db. rewrite run_bind.
    rewrite (update_stage_run id stage changed_by notes st nw i Hi).
    cbv zeta. rewrite get_with_relations_run, get_run. cbn [db].
    rewrite (leads_with_id_after_update st nw id stage changed_by notes i Hi).
    reflexivity. }
  split; [reflexivity|].
  split.
  { cbn [Lead.load Lead.stage_history InvestorProfile.set_stage
         InvestorProfile.id].
    rewrite Hid. unfold stage_history_of.
    fold (history_rows (store_after_update nw id stage changed_by notes i st)
            id).
    rewrite history_rows_after_update, N.eqb_refl.
    rewrite (order_by_desc_snoc StageHistory.changed_at) by exact Hlater.
    reflexivity. }
  split; [apply order_by_perm|].
  apply (order_by_ordered (fun h => Some (StageHistory.changed_at h)) true).
Qed.

Lemma newest_transition_first_witness :
  exists lead rest,
    session.get_db 20
      (_ ← investor_repo.update_stage 0%N "call_dispatched" "admin" None;
       investor_repo.get_with_relations 0%N) sample_store
    = (Ok (Some lead),
       store_after_update 20 0%N "call_dispatched" "admin" None
         (InvestorProfile.stamp 10 (leads.build_investor 0%N sample_request))
         sample_store)
    /\ InvestorProfile.stage (Lead.row lead) = "call_dispatched"
    /\ Lead.stage_history lead
       = {| StageHistory.id := 3%N;
            StageHistory.investor_id := 0%N;
            StageHistory.from_stage := Some "new_lead";
            StageHistory.to_stage := "call_dispatched";
            StageHistory.changed_by := "admin";
            StageHistory.notes := None;
            StageHistory.changed_at := 20 |} :: rest
    /\ Permutation rest (history_rows sample_store 0%N)
    /\ in_order (fun h => Some (StageHistory.changed_at h)) true rest.
Proof.
  refine (newest_transition_first sample_store 20 0%N "call_dispatched"
            "admin" None
            (InvestorProfile.stamp 10 (leads.build_investor 0%N sample_request))
            eq_refl eq_refl eq_refl _).
  intros h [<-|[]]. reflexivity.
Defined.

(** ** Sorting and paging of a listing *)

Lemma matching_passes (stage : option string)
    (score_min score_max capital_min capital_max : option Z)
    (date_from date_to : option datetime) (search : option string)
    (rows : list InvestorProfile.t) :
  (forall x, search = Some x -> plain (list_ascii_of_string x) = true) ->
  List.filter
    (investor_repo.lead_filter stage score_min score_max capital_min
       capital_max date_from date_to search) rows
  = List.filter
      (passes_filters stage score_min score_max capital_min capital_max
         date_from date_to search) rows.
Proof.
  intros Hplain. apply List.filter_ext. intros i.
  apply lead_filter_passes, Hplain.
Qed.

Lemma page_of_in_order {A} (key : A -> option Z) (desc : bool)
    (skip limit : Z) (rows page : list A) :
  page_of key desc skip limit rows page -> in_order key desc page.
Proof.
  intros (listing & _ & Hord & ->).
  apply ordered_firstn, ordered_skipn, Hord.
Qed.

(** X11. For bounds, offset and limit in the INTEGER range and a search
    term without LIKE metacharacters, the page that [search_leads]
    returns is cut from the leads that pass the filters, listed in the
    order of the column that the sort key names ([created_at] for an
    unknown key): descending when [sort_order] is exactly [desc],
    ascending for every other value; a lead without capital counts as
    larger than every amount. The page itself is in that order. *)
Theorem search_page_sorted (stage : option string)
    (score_min score_max capital_min capital_max : option Z)
    (date_from date_to : option datetime) (search : option string)
    (sort_by sort_order : string) (skip limit : Z) (s : Session) :
  in_int4 score_min -> in_int4 score_max ->
  in_int4 capital_min -> in_int4 capital_max ->
  (forall x, search = Some x -> plain (list_ascii_of_string x) = true) ->
  (0 <= skip <= 2147483647)%Z -> (0 <= limit <= 2147483647)%Z ->
  let matching :=
    List.filter
      (passes_filters stage score_min score_max capital_min capital_max
         date_from date_to search)
      (investor_profiles (db s)) in
  let key := fun l : Lead.t => sort_key_of sort_by (Lead.row l) in
  let desc := String.eqb sort_order "desc" in
  exists leads,
    investor_repo.search_leads stage score_min score_max capital_min
      capital_max date_from date_to search sort_by sort_order skip limit s
    = (Ok (leads, Z.of_nat (length matching)), s)
    /\ page_of key desc skip limit (map (Lead.load (db s)) matching) leads
    /\ in_order key desc leads.
Proof.
  intros Hsmin Hsmax Hcmin Hcmax Hplain Hskip Hlimit matching key desc.
  destruct (search_leads_page stage score_min score_max capital_min
              capital_max date_from date_to search sort_by sort_order
              skip limit s Hsmin Hsmax Hcmin Hcmax Hskip Hlimit)
    as (leads & Hrun & Hpage).
  rewrite matching_passes in Hrun, Hpage by exact Hplain.
  exists leads. split; [exact Hrun|]. split; [exact Hpage|].
  exact (page_of_in_order _ _ _ _ _ _ Hpage).
Qed.

(** Three leads with scores 70, 90, 80 and capital 750000, none, 375000:
    by score, descending, they come as 90, 80, 70; by capital,
    ascending, the lead without capital comes last. *)
Lemma search_page_sorted_witness :
  let s := {| db := scored_store; pending := []; now := 9 |} in
  exists by_score by_capital,
    investor_repo.search_leads None None None None None None None None
      "lead_score" "desc" 0 10 s
    = (Ok (by_score, 3%Z), s)
    /\ map (fun l => InvestorProfile.lead_score (Lead.row l)) by_score
       = [90; 80; 70]%Z
    /\ investor_repo.search_leads None None None None None None None None
         "capital_available" "asc" 0 10 s
       = (Ok (by_capital, 3%Z), s)
    /\ map (fun l => InvestorProfile.capital_available (Lead.row l))
         by_capital
       = [Some 375000; Some 750000; None]%Z.
Proof.
  intros s.
  destruct (search_page_sorted None None None None None None None None
              "lead_score" "desc" 0 10 s)
    as (by_score & Hscore & _);
    try (intros v Hv; discriminate Hv); try lia.
  destruct (search_page_sorted None None None None None None None None
              "capital_available" "asc" 0 10 s)
    as (by_capital & Hcapital & _);
    try (intros v Hv; discriminate Hv); try lia.
  exists by_score, by_capital.
  split; [exact Hscore|].
  split.
  { assert (H : fst (investor_repo.search_leads None None None None None
                       None None None "lead_score" "desc" 0 10 s)
                = Ok (by_score, 3%Z))
      by (rewrite Hscore; reflexivity).
    vm_compute in H. injection H as <-. reflexivity. }
  split; [exact Hcapital|].
  assert (H : fst (investor_repo.search_leads None None None None None
                     None None None "capital_available" "asc" 0 10 s)
              = Ok (by_capital, 3%Z))
    by (rewrite Hcapital; reflexivity).
  vm_compute in H. injection H as <-. reflexivity.
Defined.

Lemma total_pages_cover (total page_size : Z) :
  (0 <= total)%Z -> (1 <= page_size)%Z ->
  (1 <= admin.total_pages total page_size
   /\ total <= admin.total_pages total page_size * page_size
   /\ (admin.total_pages total page_size - 1) * page_size <= total)%Z.
Proof.
  intros Htotal Hsize. unfold admin.total_pages.
  destruct (Z.ltb_spec 0 total) as [Hpos|Hzero]; [|lia].
  pose proof (Z.div_mod (total + page_size - 1) page_size ltac:(lia)) as Hdm.
  pose proof (Z.mod_pos_bound (total + page_size - 1) page_size ltac:(lia))
    as Hmod.
  repeat split; nia.
Qed.

Lemma key_le_trans (a b c : option Z) :
  Sql.key_le a b = true -> Sql.key_le b c = true -> Sql.key_le a c = true.
Proof.
  destruct a, b, c; cbn; try congruence.
  intros H1 H2. apply Z.leb_le in H1, H2. apply Z.leb_le. lia.
Qed.

Lemma key_le_antisym (a b : option Z) :
  Sql.key_le a b = true -> Sql.key_le b a = true -> a = b.
Proof.
  destruct a, b; cbn; try congruence.
  intros H1 H2. apply Z.leb_le in H1, H2. f_equal. lia.
Qed.

Section SortedUnique.
Context {A : Type} (key : A -> option Z) (desc : bool).

(** The head of a listing in order comes before every later row. *)
Lemma in_order_head (x : A) (l : list A) :
  in_order key desc (x :: l) ->
  forall y, In y l ->
    (if desc then Sql.key_le (key y) (key x)
     else Sql.key_le (key x) (key y)) = true.
Proof.
  unfold in_order. revert x. induction l as [|z l IH]; intros x Hord y Hy.
  - destruct Hy.
  - destruct Hord as [Hxz Hrest]. destruct Hy as [<-|Hy]; [exact Hxz|].
    pose proof (IH z Hrest y Hy) as Hzy.
    destruct desc; eapply key_le_trans; eassumption.
Qed.

Lemma in_order_tail (x : A) (l : list A) :
  in_order key desc (x :: l) -> in_order key desc l.
Proof. intros [_ H]. exact H. Qed.

(** Rows with pairwise distinct sort keys have one listing in order. *)
Lemma sorted_unique (l1 l2 : list A) :
  NoDup (map key l1) -> Permutation l1 l2 ->
  in_order key desc l1 -> in_order key desc l2 -> l1 = l2.
Proof.
  revert l2. induction l1 as [|a l1 IH]; intros l2 Hnodup Hperm H1 H2.
  - symmetry. apply Permutation_nil. exact Hperm.
  - destruct l2 as [|b l2].
    { apply Permutation_sym, Permutation_nil in Hperm. discriminate. }
    cbn [map] in Hnodup. apply NoDup_cons in Hnodup as [Hnotin Hnodup].
    assert (Hab : a = b).
    { assert (Ha : In a (b :: l2))
        by (eapply Permutation_in; [exact Hperm | left; reflexivity]).
      assert (Hb : In b (a :: l1))
        by (eapply Permutation_in;
            [apply Permutation_sym; exact Hperm | left; reflexivity]).
      destruct Ha as [Ha|Ha]; [congruence|].
      destruct Hb as [Hb|Hb]; [congruence|].
      exfalso. apply Hnotin. apply list_elem_of_In.
      pose proof (in_order_head a l1 H1 b Hb) as Hle1.
      pose proof (in_order_head b l2 H2 a Ha) as Hle2.
      replace (key a) with (key b); [apply List.in_map, Hb|].
      destruct desc; apply key_le_antisym; assumption. }
    subst b. f_equal.
    apply IH.
    + exact Hnodup.
    + eapply Permutation_cons_inv. exact Hperm.
    + exact (in_order_tail _ _ H1).
    + exact (in_order_tail _ _ H2).
Qed.

(** In a listing in order, every row of a page comes before every row
    behind the page. *)
Lemma in_order_split (n : nat) (l : list A) :
  in_order key desc l ->
  forall x y, In x (firstn n l) -> In y (skipn n l) ->
    (if desc then Sql.key_le (key y) (key x)
     else Sql.key_le (key x) (key y)) = true.
Proof.
  revert l. induction n as [|n IH]; intros [|a l] Hord x y Hx Hy;
    try destruct Hx.
  - subst x. cbn [skipn] in Hy.
    apply (in_order_head a l Hord).
    rewrite <- (List.firstn_skipn n l). apply List.in_or_app. right. exact Hy.
  - apply (IH l (in_order_tail _ _ Hord)); assumption.
Qed.

End SortedUnique.

(** X12. The pages of a listing fit together when no two leads that
    pass the filters have the same sort key. The leads then have one
    listing in the order of the sort; page [p] of the search is its
    slice from [(p - 1) * page_size], pages 1 to [totalPages], one after
    the other, are the whole listing, so every passing lead is on
    exactly one page, and every later page is empty. Bounds and offsets
    are in the INTEGER range and the search term has no LIKE
    metacharacters. *)
Theorem pages_cover_listing (stage : option string)
    (score_min score_max capital_min capital_max : option Z)
    (date_from date_to : option datetime) (search : option string)
    (sort_by sort_order : string) (page_size : Z) (s : Session) :
  in_int4 score_min -> in_int4 score_max ->
  in_int4 capital_min -> in_int4 capital_max ->
  (forall x, search = Some x -> plain (list_ascii_of_string x) = true) ->
  (1 <= page_size <= 100)%Z ->
  let matching :=
    List.filter
      (passes_filters stage score_min score_max capital_min capital_max
         date_from date_to search)
      (investor_profiles (db s)) in
  let loaded := map (Lead.load (db s)) matching in
  let key := fun l : Lead.t => sort_key_of sort_by (Lead.row l) in
  let desc := String.eqb sort_order "desc" in
  let total := Z.of_nat (length matching) in
  let pages := admin.total_pages total page_size in
  let page (p : Z) :=
    investor_repo.search_leads stage score_min score_max capital_min
      capital_max date_from date_to search sort_by sort_order
      ((p - 1) * page_size) page_size s in
  (total <= 2147483647)%Z ->
  NoDup (map key loaded) ->
  exists listing,
    Permutation listing loaded
    /\ in_order key desc listing
    /\ (forall listing',
           Permutation listing' loaded -> in_order key desc listing' ->
           listing' = listing)
    /\ (forall p : Z,
           (1 <= p)%Z -> ((p - 1) * page_size <= 2147483647)%Z ->
           page p
           = (Ok (firstn (Z.to_nat page_size)
                    (skipn (Z.to_nat ((p - 1) * page_size)) listing),
                  total), s))
    /\ concat (map (fun p => rows_of (page (Z.of_nat p)))
                 (seq 1 (Z.to_nat pages)))
       = listing
    /\ (forall p : Z,
           (pages < p)%Z -> ((p - 1) * page_size <= 2147483647)%Z ->
           page p = (Ok ([], total), s)).
Proof.
  intros Hsmin Hsmax Hcmin Hcmax Hplain Hsize matching loaded key desc total
    pages page Htotal Hnodup.
  destruct (total_pages_cover total page_size ltac:(lia) ltac:(lia))
    as (Hone & Hcover & Hlast). fold pages in Hone, Hcover, Hlast.
  set (listing :=
         Sql.order_by
           (fun l =>
              investor_repo.sort_key
                (default investor_repo.created_at
                   (investor_repo.sort_column_map !! sort_by)) (Lead.row l))
           desc loaded).
  assert (Hlen : Z.of_nat (length listing) = total).
  { unfold listing, loaded. rewrite order_by_length, List.length_map.
    reflexivity. }
  assert (Hperm : Permutation listing loaded) by apply order_by_perm.
  assert (Hord : in_order key desc listing).
  { unfold in_order, listing.
    eapply ordered_ext; [|apply order_by_ordered].
    intros a b. cbv beta. rewrite !sort_key_of_column. reflexivity. }
  assert (Hpage : forall p : Z,
             (1 <= p)%Z -> ((p - 1) * page_size <= 2147483647)%Z ->
             page p
             = (Ok (firstn (Z.to_nat page_size)
                      (skipn (Z.to_nat ((p - 1) * page_size)) listing),
                    total), s)).
  { intros p Hp Hoff. unfold page.
    rewrite search_leads_run by (try assumption; nia).
    rewrite matching_passes by exact Hplain. reflexivity. }
  exists listing.
  split; [exact Hperm|]. split; [exact Hord|].
  split.
  { intros listing' Hperm' Hord'.
    apply (sorted_unique key desc); try assumption.
    - rewrite (Permutation_map key Hperm'). exact Hnodup.
    - etransitivity; [exact Hperm' | apply Permutation_sym, Hperm]. }
  split; [exact Hpage|].
  split.
  - rewrite <- List.seq_shift, List.map_map.
    rewrite (List.map_ext_in _
               (fun p => Sql.offset_limit (p * Z.to_nat page_size)
                           (Z.to_nat page_size) listing)).
    + rewrite slices_concat. apply List.firstn_all2. nia.
    + intros p Hp. apply List.in_seq in Hp.
      unfold rows_of. rewrite Hpage by nia. cbn [fst].
      unfold Sql.offset_limit. do 2 f_equal. nia.
  - intros p Hp Hoff. rewrite Hpage by lia. do 3 f_equal.
    apply List.length_zero_iff_nil.
    rewrite List.length_firstn, List.length_skipn. nia.
Qed.

(** Five leads created at the times 1 to 5, newest first, in pages of
    two: the three pages together are the five leads from 5 down to 1,
    and page 4 is empty. *)
Lemma pages_cover_listing_witness :
  let s := {| db := five_lead_store; pending := []; now := 9 |} in
  let page (p : Z) :=
    investor_repo.search_leads None None None None None None None None
      "created_at" "desc" ((p - 1) * 2) 2 s in
  map (fun l => InvestorProfile.created_at (Lead.row l))
    (concat (map (fun p => rows_of (page (Z.of_nat p)))
               (seq 1 (Z.to_nat (admin.total_pages 5 2)))))
  = [5; 4; 3; 2; 1]%Z
  /\ page 4%Z = (Ok ([], 5%Z), s).
Proof.
  intros s page.
  destruct (pages_cover_listing None None None None None None None None
              "created_at" "desc" 2 s)
    as (listing & _ & _ & _ & _ & Hconcat & Hlater);
    try (intros v Hv; discriminate Hv); try lia.
  - vm_compute. discriminate.
  - vm_compute.
    apply (bool_decide_unpack _). vm_compute. exact I.
  - split; [|apply Hlater; vm_compute; [reflexivity | discriminate]].
    vm_compute in Hconcat. subst listing. vm_compute. reflexivity.
Defined.

(** ** The filters of a listing *)

Lemma where_ge_iff (c m : option Z) :
  match m with Some _ => Sql.is_true (Sql.ge c m) | None => true end = true
  <-> (forall m', m = Some m' -> exists c', c = Some c' /\ (m' <= c')%Z).
Proof.
  destruct m as [m|]; [|split; [discriminate | reflexivity]].
  destruct c as [c|]; simpl.
  - destruct (Z.leb_spec m c) as [Hle|Hgt].
    + split; [|reflexivity]. intros _ m' [= <-]. eauto.
    + split; [discriminate|].
      intros H. destruct (H m eq_refl) as (c' & [= <-] & Hle). lia.
  - split; [discriminate|].
    intros H. destruct (H m eq_refl) as (c' & Hc & _). discriminate.
Qed.

Lemma where_phone_iff (search : option string) (phone : string) :
  (forall x, search = Some x -> plain (list_ascii_of_string x) = true) ->
  match search with
  | Some x =>
      if Py.truthy x
      then Sql.is_true (Sql.col_contains (Some phone) x)
      else true
  | None => true
  end = true
  <-> (forall x, search = Some x -> Py.truthy x = true -> occurs_in x phone).
Proof.
  intros Hplain. destruct search as [x|]; [|split; [discriminate | reflexivity]].
  specialize (Hplain x eq_refl).
  destruct (Py.truthy x) eqn:Hx.
  - cbn [Sql.col_contains Sql.is_true].
    rewrite !list_ascii_app.
    change (list_ascii_of_string "%") with ["%"%char].
    cbn [app].
    assert (Hiff := like_wrapped_plain (list_ascii_of_string x)
                      (list_ascii_of_string phone) Hplain).
    destruct (Sql.like _ _).
    + split; [|reflexivity]. intros _ y [= <-] _. apply Hiff. reflexivity.
    + split; [discriminate|]. intros H.
      apply Hiff, (H x); [reflexivity | exact Hx].
  - split; [|reflexivity]. intros _ y [= <-]. congruence.
Qed.

(** X13. What the filters of a lead listing mean, for a search term
    without LIKE metacharacters: a lead is listed exactly when it is in
    the requested stage, its score and its creation time lie in the
    inclusive ranges, it has a capital amount inside the inclusive
    capital range, and its phone number contains the search term. A
    lead without capital is never listed under a capital bound; an
    empty stage or search term filters nothing. *)
Theorem lead_filter_meaning (stage : option string)
    (score_min score_max capital_min capital_max : option Z)
    (date_from date_to : option datetime) (search : option string)
    (i : InvestorProfile.t) :
  (forall x, search = Some x -> plain (list_ascii_of_string x) = true) ->
  investor_repo.lead_filter stage score_min score_max capital_min capital_max
    date_from date_to search i = true
  <-> (forall s, stage = Some s -> Py.truthy s = true ->
                 InvestorProfile.stage i = s)
      /\ (forall m, score_min = Some m -> (m <= InvestorProfile.lead_score i)%Z)
      /\ (forall m, score_max = Some m -> (InvestorProfile.lead_score i <= m)%Z)
      /\ (forall m, capital_min = Some m ->
                    exists c, InvestorProfile.capital_available i = Some c
                              /\ (m <= c)%Z)
      /\ (forall m, capital_max = Some m ->
                    exists c, InvestorProfile.capital_available i = Some c
                              /\ (c <= m)%Z)
      /\ (forall d, date_from = Some d -> (d <= InvestorProfile.created_at i)%Z)
      /\ (forall d, date_to = Some d -> (InvestorProfile.created_at i <= d)%Z)
      /\ (forall x, search = Some x -> Py.truthy x = true ->
                    occurs_in x (InvestorProfile.phone i)).
Proof.
  intros Hplain. unfold investor_repo.lead_filter.
  rewrite !andb_true_iff.
  rewrite where_eq_str_iff, !where_ge_iff, where_phone_iff by exact Hplain.
  pose proof (where_le_iff (Some (InvestorProfile.lead_score i)) score_max)
    as Hsmax.
  pose proof (where_le_iff (InvestorProfile.capital_available i) capital_max)
    as Hcmax.
  pose proof (where_le_iff (Some (InvestorProfile.created_at i)) date_to)
    as Hdto.
  rewrite Hsmax, Hcmax, Hdto. clear Hsmax Hcmax Hdto.
  split.
  - intros (((((((Hst & Hs1) & Hs2) & Hc1) & Hc2) & Hd1) & Hd2) & Hse).
    repeat match goal with |- _ /\ _ => split end.
    + intros s -> Hs. specialize (Hst Hs). congruence.
    + intros m Hm. destruct (Hs1 m Hm) as (c & [= <-] & Hle). exact Hle.
    + intros m Hm. destruct (Hs2 m Hm) as (c & [= <-] & Hle). exact Hle.
    + exact Hc1.
    + exact Hc2.
    + intros d Hd. destruct (Hd1 d Hd) as (c & [= <-] & Hle). exact Hle.
    + intros d Hd. destruct (Hd2 d Hd) as (c & [= <-] & Hle). exact Hle.
    + exact Hse.
  - intros (Hst & Hs1 & Hs2 & Hc1 & Hc2 & Hd1 & Hd2 & Hse).
    repeat match goal with |- _ /\ _ => split end.
    + intros Ht. destruct stage as [s|]; [|discriminate].
      f_equal. symmetry. apply Hst; [reflexivity | exact Ht].
    + intros m Hm. eauto.
    + intros m Hm. eauto.
    + exact Hc1.
    + exact Hc2.
    + intros d Hd. eauto.
    + intros d Hd. eauto.
    + exact Hse.
Qed.

Lemma lead_filter_meaning_witness :
  investor_repo.lead_filter (Some "new_lead") (Some 0) None (Some 500000)
    None None None (Some "0000") first_of_five = true
  /\ occurs_in "0000" "5550000001".
Proof.
  pose proof (lead_filter_meaning (Some "new_lead") (Some 0) None
                (Some 500000) None None None (Some "0000") first_of_five)
    as Hiff.
  assert (Hplain : forall x, Some "0000" = Some x ->
                             plain (list_ascii_of_string x) = true)
    by (intros x [= <-]; reflexivity).
  destruct (Hiff Hplain) as [Hto _].
  split; [reflexivity|].
  destruct (Hto eq_refl) as (_ & _ & _ & _ & _ & _ & _ & Hsearch).
  exact (Hsearch "0000" eq_refl eq_refl).
Defined.

(** X14. Filters that say nothing are ignored, not refused: an empty
    [stage] or [search] string, an empty date and a date that
    [fromisoformat] cannot read give the listing that the request
    without them gives. *)
Theorem blank_filters_ignored (fromisoformat : string -> option datetime)
    (stage : option string)
    (score_min score_max capital_min capital_max : option Z)
    (date_from date_to search : option string)
    (sort_by sort_order : string) (page page_size : Z) (s : Session) :
  Py.truthy_opt stage = false ->
  Py.truthy_opt search = false ->
  (forall d, date_from = Some d -> Py.truthy d = true ->
             fromisoformat (admin.replace_Z d) = None) ->
  (forall d, date_to = Some d -> Py.truthy d = true ->
             fromisoformat (admin.replace_Z d) = None) ->
  admin.list_leads fromisoformat stage score_min score_max capital_min
    capital_max date_from date_to search sort_by sort_order page page_size s
  = admin.list_leads fromisoformat None score_min score_max capital_min
      capital_max None None None sort_by sort_order page page_size s.
Proof.
  intros Hstage Hsearch Hfrom Hto.
  assert (Hparse : forall d,
             (forall x, d = Some x -> Py.truthy x = true ->
                        fromisoformat (admin.replace_Z x) = None) ->
             admin.parse_date fromisoformat d = None).
  { intros [x|] H; [|reflexivity]. unfold admin.parse_date.
    destruct (Py.truthy x) eqn:Hx; [|reflexivity].
    apply H; [reflexivity | exact Hx]. }
  unfold admin.list_leads.
  rewrite (Hparse date_from Hfrom), (Hparse date_to Hto).
  destruct stage as [[|c stage]|]; try discriminate;
    destruct search as [[|c' search]|]; try discriminate; reflexivity.
Qed.

Lemma blank_filters_ignored_witness :
  admin.list_leads no_date (Some EmptyString) None None None None
    (Some "yesterday") (Some EmptyString) (Some EmptyString)
    "created_at" "desc" 1 20
    {| db := five_lead_store; pending := []; now := 9 |}
  = admin.list_leads no_date None None None None None None None None
      "created_at" "desc" 1 20
      {| db := five_lead_store; pending := []; now := 9 |}.
Proof.
  apply blank_filters_ignored.
  - reflexivity.
  - reflexivity.
  - intros d _ _. reflexivity.
  - intros d _ _. reflexivity.
Defined.

(** ** Leads by stage and the dashboard numbers *)

Lemma ordered_map {A B} (g : A -> B) (before : A -> A -> bool)
    (before' : B -> B -> bool) (l : list A) :
  (forall a b, before' (g a) (g b) = before a b) ->
  ordered before l -> ordered before' (map g l).
Proof.
  intros Hg. induction l as [|x l IH]; intros H; [exact I|].
  destruct H as [Hhead Hrest]. cbn [map ordered]. split; [|apply IH, Hrest].
  destruct l as [|y l]; [exact I|]. cbn [map]. rewrite Hg. exact Hhead.
Qed.

(** X15. [get_by_stage] returns exactly the leads of the stage, each
    once, the highest score first. *)
Theorem leads_of_stage (stage : string) (s : Session) :
  exists leads,
    investor_repo.get_by_stage stage s = (Ok leads, s)
    /\ (forall l, In l leads
                  <-> exists i, In i (investor_profiles (db s))
                                /\ InvestorProfile.stage i = stage
                                /\ l = Lead.load (db s) i)
    /\ length leads
       = investor_repo.count_in_stage (investor_profiles (db s)) stage
    /\ ordered
         (fun a b =>
            (InvestorProfile.lead_score (Lead.row b)
             <=? InvestorProfile.lead_score (Lead.row a))%Z)
         leads.
Proof.
  eexists. split; [|split; [|split]].
  - unfold investor_repo.get_by_stage.
    rewrite run_bind, select_leads_run. reflexivity.
  - intros l. rewrite order_by_In, List.in_map_iff. split.
    + intros (i & <- & Hi). apply List.filter_In in Hi as [Hin Hst].
      apply String.eqb_eq in Hst. eauto.
    + intros (i & Hin & Hst & ->). exists i. split; [reflexivity|].
      apply List.filter_In. split; [exact Hin|]. apply String.eqb_eq, Hst.
  - rewrite order_by_length, List.length_map. reflexivity.
  - apply (order_by_ordered
             (fun l => Some (InvestorProfile.lead_score (Lead.row l))) true).
Qed.

Section StageCounts.

Lemma stage_is_absent (x : string) (ks : list string) :
  ~ In x ks -> list_sum (map (stage_is x) ks) = 0%nat.
Proof.
  induction ks as [|k ks IH]; intros Hnot; [reflexivity|].
  cbn [map list_sum fold_right]. unfold stage_is at 1.
  destruct (String.eqb_spec x k) as [->|_].
  - exfalso. apply Hnot. left. reflexivity.
  - apply IH. intros H. apply Hnot. right. exact H.
Qed.

Lemma stage_is_once (x : string) (ks : list string) :
  List.NoDup ks -> In x ks -> list_sum (map (stage_is x) ks) = 1%nat.
Proof.
  induction 1 as [|k ks Hnot Hnodup IH]; intros Hin; [destruct Hin|].
  cbn [map list_sum fold_right]. unfold stage_is at 1.
  destruct (String.eqb_spec x k) as [->|Hne].
  - change (fold_right Nat.add 0%nat (map (stage_is k) ks))
      with (list_sum (map (stage_is k) ks)).
    rewrite stage_is_absent by exact Hnot. reflexivity.
  - destruct Hin as [->|Hin]; [congruence|]. apply IH, Hin.
Qed.

Lemma count_in_stage_cons (a : InvestorProfile.t)
    (rows : list InvestorProfile.t) (k : string) :
  investor_repo.count_in_stage (a :: rows) k
  = (stage_is (InvestorProfile.stage a) k
     + investor_repo.count_in_stage rows k)%nat.
Proof.
  unfold investor_repo.count_in_stage, stage_is. cbn [List.filter].
  destruct (String.eqb (InvestorProfile.stage a) k); reflexivity.
Qed.

Lemma list_sum_map_add {A} (f g : A -> nat) (l : list A) :
  list_sum (map (fun x => (f x + g x)%nat) l)
  = (list_sum (map f l) + list_sum (map g l))%nat.
Proof.
  induction l as [|x l IH]; [reflexivity|].
  cbn [map]. unfold list_sum in *. cbn [fold_right]. lia.
Qed.

(** Over a duplicate-free list of stages that covers the rows, the
    counts per stage add up to the number of rows. *)
Lemma count_in_stage_sum (rows : list InvestorProfile.t) (ks : list string) :
  List.NoDup ks ->
  (forall r, In r rows -> In (InvestorProfile.stage r) ks) ->
  list_sum (map (investor_repo.count_in_stage rows) ks) = length rows.
Proof.
  intros Hnodup. induction rows as [|a rows IH]; intros Hcover.
  - clear Hnodup Hcover. induction ks as [|k ks IHk]; [reflexivity|].
    cbn [map list_sum fold_right]. exact IHk.
  - rewrite (List.map_ext _ _ (count_in_stage_cons a rows)).
    rewrite (list_sum_map_add (stage_is (InvestorProfile.stage a))
               (investor_repo.count_in_stage rows)).
    rewrite stage_is_once;
      [|exact Hnodup | apply Hcover; left; reflexivity].
    rewrite IH by (intros r Hr; apply Hcover; right; exact Hr).
    reflexivity.
Qed.

Lemma count_in_stage_pos (rows : list InvestorProfile.t) (k : string) :
  In k (map InvestorProfile.stage rows)
  <-> (0 < investor_repo.count_in_stage rows k)%nat.
Proof.
  induction rows as [|a rows IH].
  - cbn. lia.
  - rewrite count_in_stage_cons. cbn [map In]. unfold stage_is.
    destruct (String.eqb_spec (InvestorProfile.stage a) k) as [->|Hne].
    + split; [lia | auto].
    + rewrite IH. split; [intros [H|H]; [congruence | lia] | intros H; right; lia].
Qed.

End StageCounts.

Lemma count_by_stage_keys (rows : list InvestorProfile.t) :
  (investor_repo.count_by_stage rows).*1
  = List.nodup string_dec (map InvestorProfile.stage rows).
Proof.
  unfold investor_repo.count_by_stage.
  induction (List.nodup string_dec (map InvestorProfile.stage rows))
    as [|k ks IH]; [reflexivity|].
  cbn [map]. rewrite fmap_cons. cbn [fst]. f_equal. exact IH.
Qed.

Lemma count_by_stage_sum (rows : list InvestorProfile.t) :
  foldr (uncurry (fun (_ : string) (n acc : Z) => (n + acc)%Z)) 0%Z
    (investor_repo.count_by_stage rows)
  = Z.of_nat (length rows).
Proof.
  rewrite <- (count_in_stage_sum rows
                (List.nodup string_dec (map InvestorProfile.stage rows))).
  - unfold investor_repo.count_by_stage.
    induction (List.nodup string_dec (map InvestorProfile.stage rows))
      as [|k ks IH]; [reflexivity|].
    cbn [map foldr uncurry fst snd].
    rewrite IH. unfold list_sum. cbn [fold_right]. lia.
  - apply List.NoDup_nodup.
  - intros r Hr. apply List.nodup_In, List.in_map, Hr.
Qed.

Lemma stats_by_stage_lookup (rows : list InvestorProfile.t) (stage : string)
    (n : Z) :
  (list_to_map (investor_repo.count_by_stage rows) : gmap string Z) !! stage
  = Some n
  <-> n = Z.of_nat (investor_repo.count_in_stage rows stage) /\ (0 < n)%Z.
Proof.
  rewrite <- elem_of_list_to_map
    by (rewrite count_by_stage_keys; apply NoDup_ListNoDup, List.NoDup_nodup).
  rewrite list_elem_of_In. unfold investor_repo.count_by_stage.
  rewrite List.in_map_iff. split.
  - intros (k & [= -> <-] & Hk).
    apply List.nodup_In, count_in_stage_pos in Hk. split; [reflexivity | lia].
  - intros [-> Hpos]. exists stage. split; [reflexivity|].
    apply List.nodup_In, count_in_stage_pos. lia.
Qed.

Lemma stats_by_stage_total (rows : list InvestorProfile.t) :
  map_fold (fun (_ : string) (n acc : Z) => (n + acc)%Z) 0%Z
    (list_to_map (investor_repo.count_by_stage rows) : gmap string Z)
  = Z.of_nat (length rows).
Proof.
  rewrite map_fold_foldr, <- count_by_stage_sum.
  apply (foldr_permutation_proper eq).
  - intros [k n] ? ? ->. reflexivity.
  - intros [k1 n1] [k2 n2] b. cbn. lia.
  - apply map_to_list_to_map.
    rewrite count_by_stage_keys. apply NoDup_ListNoDup, List.NoDup_nodup.
Qed.

(** X16. [get_stats_by_stage] maps a stage to the number of leads in it;
    a stage without a lead has no entry (not an entry 0); and the
    numbers of the dict add up to the number of leads. *)
Theorem stats_by_stage_counts (s : Session) :
  exists by_stage,
    investor_repo.get_stats_by_stage s = (Ok by_stage, s)
    /\ (forall stage n,
           by_stage !! stage = Some n
           <-> n = Z.of_nat (investor_repo.count_in_stage
                               (investor_profiles (db s)) stage)
               /\ (0 < n)%Z)
    /\ (forall stage,
           by_stage !! stage = None
           <-> forall i, In i (investor_profiles (db s)) ->
                         InvestorProfile.stage i <> stage)
    /\ map_fold (fun (_ : string) (n acc : Z) => (n + acc)%Z) 0%Z by_stage
       = Z.of_nat (length (investor_profiles (db s))).
Proof.
  eexists. split; [reflexivity|]. split; [|split].
  - intros stage n. apply stats_by_stage_lookup.
  - intros stage.
    rewrite <- not_elem_of_list_to_map, count_by_stage_keys, list_elem_of_In.
    rewrite List.nodup_In, List.in_map_iff. split.
    + intros Hnot i Hin Hst. apply Hnot. eauto.
    + intros Hall (i & Hst & Hin). exact (Hall i Hin Hst).
  - apply stats_by_stage_total.
Qed.

Lemma filter_all {A} (f : A -> bool) (l : list A) :
  (forall x, f x = true) -> List.filter f l = l.
Proof.
  intros Hf. induction l as [|x l IH]; [reflexivity|].
  cbn [List.filter]. rewrite Hf, IH. reflexivity.
Qed.

Lemma count_run (s : Session) :
  base_repo.count s = (Ok (Z.of_nat (length (investor_profiles (db s)))), s).
Proof. reflexivity. Qed.

Lemma get_stats_by_stage_run (s : Session) :
  investor_repo.get_stats_by_stage s
  = (Ok (list_to_map (investor_repo.count_by_stage (investor_profiles (db s)))),
     s).
Proof. reflexivity. Qed.

Lemma get_average_score_run (float : Type) (float_of_ratio : Z -> Z -> float)
    (zero : float) (s : Session) :
  investor_repo.get_average_score float float_of_ratio zero s
  = (Ok (match map InvestorProfile.lead_score (investor_profiles (db s)) with
         | [] => zero
         | _ :: _ =>
             let scores :=
               map InvestorProfile.lead_score (investor_profiles (db s)) in
             if (fold_right Z.add 0 scores =? 0)%Z then zero
             else float_of_ratio (fold_right Z.add 0 scores)
                    (Z.of_nat (length scores))
         end), s).
Proof.
  unfold investor_repo.get_average_score.
  rewrite run_bind. cbn [session.store mret M_ret].
  destruct (map InvestorProfile.lead_score (investor_profiles (db s)));
    reflexivity.
Qed.

Lemma get_average_score_value (float : Type)
    (float_of_ratio : Z -> Z -> float) (zero : float) (s : Session) :
  let scores := map InvestorProfile.lead_score (investor_profiles (db s)) in
  investor_repo.get_average_score float float_of_ratio zero s
  = (Ok (if (fold_right Z.add 0 scores =? 0)%Z then zero
         else float_of_ratio (fold_right Z.add 0 scores)
                (Z.of_nat (length scores))), s).
Proof.
  intros scores. rewrite get_average_score_run. fold scores.
  destruct scores; reflexivity.
Qed.

Lemma property_count_run (s : Session) :
  property_repo.count s = (Ok (Z.of_nat (length (properties (db s)))), s).
Proof. reflexivity. Qed.

(** X17. The dashboard numbers fit together. [totalLeads] is the number
    of leads and the entries of [byStage] add up to it; [totalDeals]
    counts every deal row, whatever its status. The recent activity
    shows five leads (all of them when there are fewer), newest first,
    and no lead left out is newer than a lead shown; each item is a
    [new_lead] item with the lead's id, the first six characters of its
    phone number and its creation time. The average score is the
    rounded quotient of the sum of the lead scores by their number, and
    [round(0.0, 1)] when there is no lead or the sum is 0. *)
Theorem dashboard_numbers (float : Type) (float_of_ratio : Z -> Z -> float)
    (zero : float) (round1 : float -> float) (s : Session) :
  let rows := investor_profiles (db s) in
  let scores := map InvestorProfile.lead_score rows in
  exists resp shown older,
    admin.get_stats float float_of_ratio zero round1 s = (Ok resp, s)
    /\ AdminStatsResponse.totalLeads resp = Z.of_nat (length rows)
    /\ map_fold (fun (_ : string) (n acc : Z) => (n + acc)%Z) 0%Z
         (AdminStatsResponse.byStage resp)
       = AdminStatsResponse.totalLeads resp
    /\ AdminStatsResponse.totalDeals resp
       = Z.of_nat (length (properties (db s)))
    /\ AdminStatsResponse.recentActivity resp
       = map (fun i =>
                {| ActivityItem.id := Py.str_uuid (InvestorProfile.id i);
                   ActivityItem.type := "new_lead";
                   ActivityItem.message :=
                     "New lead from "
                     +:+ substring 0 6 (InvestorProfile.phone i) +:+ "***";
                   ActivityItem.timestamp := InvestorProfile.created_at i |})
           shown
    /\ Permutation (shown ++ older) rows
    /\ length shown = Nat.min 5 (length rows)
    /\ in_order (fun i => Some (InvestorProfile.created_at i)) true shown
    /\ (forall i o, In i shown -> In o older ->
          (InvestorProfile.created_at o <= InvestorProfile.created_at i)%Z)
    /\ AdminStatsResponse.averageScore resp
       = round1 (if (fold_right Z.add 0 scores =? 0)%Z then zero
                 else float_of_ratio (fold_right Z.add 0 scores)
                        (Z.of_nat (length scores))).
Proof.
  intros rows scores.
  assert (Hall : List.filter
                   (investor_repo.lead_filter None None None None None None
                      None None) (investor_profiles (db s))
                 = rows)
    by (apply filter_all; reflexivity).
  set (listing :=
         Sql.order_by
           (fun l => Some (InvestorProfile.created_at (Lead.row l))) true
           (map (Lead.load (db s)) rows)).
  assert (Hord : in_order
                   (fun l => Some (InvestorProfile.created_at (Lead.row l)))
                   true listing)
    by apply (order_by_ordered
                (fun l => Some (InvestorProfile.created_at (Lead.row l)))
                true).
  eexists.
  exists (map Lead.row (firstn 5 listing)), (map Lead.row (skipn 5 listing)).
  split.
  { unfold admin.get_stats.
    rewrite run_bind, count_run.
    rewrite run_bind, get_stats_by_stage_run.
    rewrite run_bind, get_average_score_value.
    rewrite run_bind, property_count_run.
    rewrite run_bind, search_leads_run
      by (try (intros v Hv; discriminate Hv); lia).
    rewrite Hall, sort_column_created_at. reflexivity. }
  cbn [AdminStatsResponse.totalLeads AdminStatsResponse.byStage
       AdminStatsResponse.totalDeals AdminStatsResponse.recentActivity
       AdminStatsResponse.averageScore].
  split; [reflexivity|].
  split; [apply stats_by_stage_total|].
  split; [reflexivity|].
  split; [rewrite List.map_map; reflexivity|].
  split.
  { rewrite <- List.map_app, List.firstn_skipn. unfold listing.
    rewrite order_by_perm, List.map_map. cbn [Lead.load Lead.row].
    rewrite List.map_id. reflexivity. }
  split.
  { rewrite List.length_map, List.length_firstn. unfold listing.
    rewrite order_by_length, List.length_map. reflexivity. }
  split.
  { unfold in_order.
    eapply ordered_map; [|apply ordered_firstn; exact Hord].
    intros a b. reflexivity. }
  split; [|reflexivity].
  intros i o Hi Ho.
  apply List.in_map_iff in Hi as (li & <- & Hi).
  apply List.in_map_iff in Ho as (lo & <- & Ho).
  pose proof (in_order_split _ true 5 listing Hord li lo Hi Ho) as Hle.
  cbn [Sql.key_le] in Hle. apply Z.leb_le. exact Hle.
Qed.

(** Five leads created at the times 1 to 5 and one more lead at the
    time 6: the dashboard shows the leads of the times 6 to 2. *)
Lemma dashboard_numbers_witness :
  let s :=
    {| db := snd (session.get_db 6
                    (leads.submit_lead None sample_request None None)
                    five_lead_store);
       pending := []; now := 9 |} in
  exists resp,
    admin.get_stats Z Z.div 0%Z (fun x => x) s = (Ok resp, s)
    /\ AdminStatsResponse.totalLeads resp = 6%Z
    /\ map ActivityItem.timestamp (AdminStatsResponse.recentActivity resp)
       = [6; 5; 4; 3; 2]%Z
    /\ AdminStatsResponse.averageScore resp = 13%Z.
Proof.
  intros s.
  destruct (dashboard_numbers Z Z.div 0%Z (fun x => x) s)
    as (resp & shown & older & Hrun & Htotal & _ & _ & _ & _ & _ & _ & _
        & Havg).
  exists resp. split; [exact Hrun|]. split; [exact Htotal|].
  assert (H : fst (admin.get_stats Z Z.div 0%Z (fun x => x) s) = Ok resp)
    by (rewrite Hrun; reflexivity).
  vm_compute in H. injection H as <-. split; reflexivity.
Defined.

(** ** Deals *)

Lemma get_by_status_run (status : string) (skip limit : Z) (s : Session) :
  (0 <= skip <= 2147483647)%Z -> (0 <= limit <= 2147483647)%Z ->
  property_repo.get_by_status status skip limit s
  = (Ok (Sql.offset_limit (Z.to_nat skip) (Z.to_nat limit)
           (Sql.order_by (fun p => Some (Property.created_at p)) true
              (List.filter (fun p => String.eqb (Property.status p) status)
                 (properties (db s))))), s).
Proof.
  intros Hskip Hlimit. unfold property_repo.get_by_status.
  unfold session.store, mbind, M_bind. cbn [db].
  rewrite (paging_accepted skip limit Hskip Hlimit). reflexivity.
Qed.

Lemma get_active_deals_run (skip limit : Z) (s : Session) :
  (0 <= skip <= 2147483647)%Z -> (0 <= limit <= 2147483647)%Z ->
  property_repo.get_active_deals skip limit s
  = (Ok (Sql.offset_limit (Z.to_nat skip) (Z.to_nat limit)
           (Sql.order_by (fun p => Some (Property.created_at p)) true
              (List.filter (fun p => String.eqb (Property.status p) "active")
                 (properties (db s)))),
         Z.of_nat
           (length
              (List.filter (fun p => String.eqb (Property.status p) "active")
                 (properties (db s))))), s).
Proof.
  intros Hskip Hlimit. unfold property_repo.get_active_deals.
  unfold session.store, mbind, M_bind. cbn [db].
  rewrite (paging_accepted skip limit Hskip Hlimit). reflexivity.
Qed.

Lemma list_deals_run (R : Type) (to_response : Property.t -> R)
    (status : option string) (s : Session) :
  let wanted := Py.or_str status "active" in
  let listed :=
    Sql.offset_limit 0 100
      (Sql.order_by (fun p => Some (Property.created_at p)) true
         (List.filter (fun p => String.eqb (Property.status p) wanted)
            (properties (db s)))) in
  properties.list_deals R to_response status s
  = (Ok {| properties.deals := map to_response listed;
           properties.total :=
             if Py.truthy_opt status then Z.of_nat (length listed)
             else Z.of_nat
                    (length
                       (List.filter
                          (fun p => String.eqb (Property.status p) "active")
                          (properties (db s)))) |}, s).
Proof.
  unfold properties.list_deals.
  destruct status as [[|c status]|]; cbn [Py.truthy Py.truthy_opt Py.or_str].
  - rewrite run_bind, get_active_deals_run by lia. reflexivity.
  - rewrite run_bind, get_by_status_run by lia. reflexivity.
  - rewrite run_bind, get_active_deals_run by lia. reflexivity.
Qed.

(** X18. The deal list. With a status the list holds the deals of that
    status, without one (or with an empty one) the active deals; newest
    first and at most 100. The [total] of the two cases differs: with a
    status it is the number of deals listed, so never more than 100;
    without, it is the number of all active deals, listed or not. *)
Theorem deal_list_totals (R : Type) (to_response : Property.t -> R)
    (status : option string) (s : Session) :
  let wanted := Py.or_str status "active" in
  let with_status :=
    List.filter (fun p => String.eqb (Property.status p) wanted)
      (properties (db s)) in
  exists listed,
    properties.list_deals R to_response status s
    = (Ok {| properties.deals := map to_response listed;
             properties.total :=
               if Py.truthy_opt status
               then Z.of_nat (Nat.min 100 (length with_status))
               else Z.of_nat (length with_status) |}, s)
    /\ length listed = Nat.min 100 (length with_status)
    /\ (forall p, In p listed ->
                  In p (properties (db s)) /\ Property.status p = wanted)
    /\ ((length with_status <= 100)%nat ->
        forall p, In p (properties (db s)) -> Property.status p = wanted ->
                  In p listed)
    /\ ordered
         (fun a b => (Property.created_at b <=? Property.created_at a)%Z)
         listed.
Proof.
  intros wanted with_status.
  assert (Hlen : length
                   (Sql.offset_limit 0 100
                      (Sql.order_by (fun p => Some (Property.created_at p))
                         true with_status))
                 = Nat.min 100 (length with_status)).
  { rewrite offset_limit_length, order_by_length. lia. }
  eexists. split; [|split; [exact Hlen|split; [|split]]].
  - rewrite list_deals_run. fold wanted. fold with_status. rewrite Hlen.
    f_equal. f_equal. f_equal.
    destruct (Py.truthy_opt status) eqn:Hs; [reflexivity|].
    unfold with_status, wanted.
    destruct status as [[|c status]|]; try discriminate; reflexivity.
  - intros p Hp. apply offset_limit_In, order_by_In in Hp.
    apply List.filter_In in Hp as [Hin Hst].
    apply String.eqb_eq in Hst. auto.
  - intros Hfew p Hin Hst.
    rewrite offset_limit_all by (rewrite order_by_length; exact Hfew).
    apply order_by_In, List.filter_In. split; [exact Hin|].
    apply String.eqb_eq, Hst.
  - unfold Sql.offset_limit. apply ordered_firstn, ordered_skipn.
    apply (order_by_ordered (fun p => Some (Property.created_at p)) true).
Qed.

(** ** Endpoints that only read *)

Lemma get_db_read_only {A} (nw : datetime) (handler : M A) (st : Store) :
  (exists r, handler {| db := st; pending := []; now := nw |}
             = (r, {| db := st; pending := []; now := nw |})) ->
  snd (session.get_db nw handler st) = st.
Proof.
  intros [r Hr]. unfold session.get_db. rewrite Hr.
  destruct r; reflexivity.
Qed.

Lemma search_leads_session (stage : option string)
    (score_min score_max capital_min capital_max : option Z)
    (date_from date_to : option datetime) (search : option string)
    (sort_by sort_order : string) (skip limit : Z) (s : Session) :
  exists r,
    investor_repo.search_leads stage score_min score_max capital_min
      capital_max date_from date_to search sort_by sort_order skip limit s
    = (r, s).
Proof.
  unfold investor_repo.search_leads.
  destruct (negb _); [eexists; reflexivity|].
  rewrite run_bind, select_leads_run.
  destruct (_ || _); eexists; reflexivity.
Qed.

Lemma list_leads_session (fromisoformat : string -> option datetime)
    (stage : option string)
    (score_min score_max capital_min capital_max : option Z)
    (date_from date_to search : option string)
    (sort_by sort_order : string) (page page_size : Z) (s : Session) :
  exists r,
    admin.list_leads fromisoformat stage score_min score_max capital_min
      capital_max date_from date_to search sort_by sort_order page page_size s
    = (r, s).
Proof.
  unfold admin.list_leads.
  destruct (Z.ltb_spec page 1); [eexists; reflexivity|].
  destruct (Z.ltb_spec page_size 1); [eexists; reflexivity|].
  destruct (Z.ltb_spec 100 page_size); [eexists; reflexivity|].
  cbn [orb]. rewrite run_bind.
  destruct (search_leads_session stage score_min score_max capital_min
              capital_max (admin.parse_date fromisoformat date_from)
              (admin.parse_date fromisoformat date_to) search sort_by
              sort_order ((page - 1) * page_size) page_size s) as [r Hr].
  rewrite Hr. destruct r as [[leads total]|e]; [|eexists; reflexivity].
  rewrite run_bind, render_all_raises.
  destruct leads; eexists; reflexivity.
Qed.

Lemma get_stats_session (float : Type) (float_of_ratio : Z -> Z -> float)
    (zero : float) (round1 : float -> float) (s : Session) :
  exists r, admin.get_stats float float_of_ratio zero round1 s = (r, s).
Proof.
  unfold admin.get_stats.
  rewrite run_bind, count_run.
  rewrite run_bind, get_stats_by_stage_run.
  rewrite run_bind, get_average_score_run.
  rewrite run_bind, property_count_run.
  rewrite run_bind, search_leads_run
    by (try (intros v Hv; discriminate Hv); lia).
  eexists. reflexivity.
Qed.

Lemma get_deal_run (R : Type) (to_response : Property.t -> R) (id : UUID)
    (s : Session) :
  properties.get_deal R to_response id s
  = (match List.filter (fun p => N.eqb (Property.id p) id)
             (properties (db s)) with
     | [] => Raise (HTTPException 404 "Deal not found")
     | [p] => Ok (to_response p)
     | _ :: _ :: _ => Raise MultipleResultsFound
     end, s).
Proof.
  unfold properties.get_deal, property_repo.get.
  rewrite !run_bind. cbn [session.store].
  destruct (List.filter _ (properties (db s))) as [|p [|q r]]; reflexivity.
Qed.

(** X19. The endpoints that read never write: whatever the parameters
    and whatever the answer, an error included, the lead detail, the
    lead listing, the dashboard numbers, the deal list and the deal
    detail leave every table as it was. *)
Theorem read_endpoints_write_nothing (st : Store) (nw : datetime) :
  (forall id, snd (session.get_db nw (admin.get_lead id) st) = st)
  /\ (forall fromisoformat stage score_min score_max capital_min capital_max
             date_from date_to search sort_by sort_order page page_size,
         snd (session.get_db nw
                (admin.list_leads fromisoformat stage score_min score_max
                   capital_min capital_max date_from date_to search sort_by
                   sort_order page page_size) st) = st)
  /\ (forall float float_of_ratio zero round1,
         snd (session.get_db nw
                (admin.get_stats float float_of_ratio zero round1) st) = st)
  /\ (forall R (to_response : Property.t -> R) status,
         snd (session.get_db nw (properties.list_deals R to_response status)
                st) = st)
  /\ (forall R (to_response : Property.t -> R) id,
         snd (session.get_db nw (properties.get_deal R to_response id) st)
         = st).
Proof.
  split; [|split; [|split; [|split]]].
  - intros id. rewrite get_lead_run. reflexivity.
  - intros. apply get_db_read_only, list_leads_session.
  - intros. apply get_db_read_only, get_stats_session.
  - intros. apply get_db_read_only. rewrite list_deals_run. eauto.
  - intros. apply get_db_read_only. rewrite get_deal_run. eauto.
Qed.

(** ** The database URL *)

Lemma startswith_app (p s : string) :
  Py.startswith s p = true -> exists rest, s = p +:+ rest.
Proof.
  revert s. induction p as [|a p IH]; intros s H.
  - exists s. reflexivity.
  - destruct s as [|b s]; [discriminate|].
    cbn [Py.startswith] in H. apply andb_prop in H as [Hab Hrest].
    apply Ascii.eqb_eq in Hab. subst b.
    destruct (IH s Hrest) as [rest ->]. exists rest. reflexivity.
Qed.

(** X20. [async_database_url] swaps the scheme and nothing else: a URL
    [postgresql://rest] becomes [postgresql+asyncpg://rest], with [rest]
    as it was even where the scheme occurs in it again; every other URL
    is returned as it is; and a URL that was converted is not converted
    again. *)
Theorem async_database_url_scheme (url : string) :
  (forall rest, url = "postgresql://" +:+ rest ->
                config.async_database_url url
                = "postgresql+asyncpg://" +:+ rest)
  /\ (Py.startswith url "postgresql://" = false ->
      config.async_database_url url = url)
  /\ config.async_database_url (config.async_database_url url)
     = config.async_database_url url.
Proof.
  assert (Hswap : forall rest,
             config.async_database_url ("postgresql://" +:+ rest)
             = "postgresql+asyncpg://" +:+ rest)
    by (intros rest; reflexivity).
  assert (Hkeep : forall u, Py.startswith u "postgresql://" = false ->
                            config.async_database_url u = u).
  { intros u Hu. unfold config.async_database_url. rewrite Hu. reflexivity. }
  split; [intros rest ->; apply Hswap|]. split; [apply Hkeep|].
  destruct (Py.startswith url "postgresql://") eqn:Hp.
  - apply startswith_app in Hp as [rest ->].
    rewrite Hswap. apply Hkeep. reflexivity.
  - rewrite (Hkeep url Hp). apply Hkeep, Hp.
Qed.

Lemma async_database_url_scheme_witness :
  config.async_database_url "postgresql://u:p@db/app?alt=postgresql://x"
  = "postgresql+asyncpg://u:p@db/app?alt=postgresql://x"
  /\ config.async_database_url "sqlite:///app.db" = "sqlite:///app.db".
Proof.
  destruct (async_database_url_scheme
              "postgresql://u:p@db/app?alt=postgresql://x") as (Hswap & _ & _).
  destruct (async_database_url_scheme "sqlite:///app.db") as (_ & Hkeep & _).
  split; [apply Hswap; reflexivity | apply Hkeep; reflexivity].
Defined.

(** ** A page of a deal search *)

(** X21. [search_deals] counts before it paginates and lists newest
    first. For a ceiling, an offset and a limit in the INTEGER range and
    ASCII text, the total is the number of deals that pass the filters,
    whatever the offset and the limit, and the page is cut from those
    deals listed by creation time, latest first: the rows from the
    offset, at most [limit] of them, min(limit, total - skip) in number;
    a page from offset 0 that is large enough holds every deal that
    passes. Without a search term the deals that pass are those with the
    given status and deal type and a minimum investment, not NULL, of at
    most the ceiling, each filter applying only when it is given. *)
Theorem deal_search_page (status deal_type : option string)
    (min_investment_max : option Z) (search : option string)
    (skip limit : Z) (s : Session) :
  (forall c, min_investment_max = Some c ->
             (-2147483648 <= c <= 2147483647)%Z) ->
  (0 <= skip <= 2147483647)%Z -> (0 <= limit <= 2147483647)%Z ->
  (forall x, search = Some x -> ascii_text x = true) ->
  (forall p, In p (properties (db s)) -> deal_ascii p = true) ->
  let matching :=
    List.filter
      (property_repo.deal_filter status deal_type min_investment_max search)
      (properties (db s)) in
  let total := Z.of_nat (length matching) in
  let newest := fun p : Property.t => Some (Property.created_at p) in
  exists deals,
    property_repo.search_deals status deal_type min_investment_max search
      skip limit s
    = (Ok (deals, total), s)
    /\ page_of newest true skip limit matching deals
    /\ Z.of_nat (length deals) = Z.min limit (Z.max 0 (total - skip))
    /\ in_order newest true deals
    /\ (forall p, In p deals -> In p matching)
    /\ (skip = 0%Z -> (total <= limit)%Z ->
        forall p, In p matching -> In p deals)
    /\ ((forall x, search = Some x -> Py.truthy x = false) ->
        forall p,
          In p matching
          <-> In p (properties (db s))
              /\ (Py.truthy_opt status = true ->
                  status = Some (Property.status p))
              /\ (Py.truthy_opt deal_type = true ->
                  deal_type = Some (Property.deal_type p))
              /\ (forall c, min_investment_max = Some c ->
                    exists m, Property.minimum_investment p = Some m
                              /\ (m <= c)%Z)).
Proof.
  intros Hceiling Hskip Hlimit _ _ matching total newest.
  eexists. split; [apply search_deals_run; assumption|].
  fold matching.
  split; [apply order_by_page_of|].
  split.
  { rewrite offset_limit_length, order_by_length. unfold total. lia. }
  split.
  { unfold Sql.offset_limit. apply ordered_firstn, ordered_skipn.
    apply (order_by_ordered newest true). }
  split.
  { intros p Hp. apply offset_limit_In, order_by_In in Hp. exact Hp. }
  split.
  { intros -> Hfew p Hp. change (Z.to_nat 0) with 0%nat.
    rewrite offset_limit_all
      by (rewrite order_by_length; unfold total in Hfew; lia).
    apply order_by_In. exact Hp. }
  intros Hno p. unfold matching. rewrite List.filter_In.
  unfold property_repo.deal_filter.
  rewrite !andb_true_iff, !where_eq_str_iff, where_le_iff.
  assert (Hsearch : match search with
                    | Some x =>
                        if Py.truthy x
                        then Sql.is_true
                               (Sql.or3
                                  (Sql.col_ilike (Some (Property.name p))
                                     ("%" +:+ x +:+ "%"))
                                  (Sql.col_ilike (Property.summary p)
                                     ("%" +:+ x +:+ "%")))
                        else true
                    | None => true
                    end = true).
  { destruct search as [x|]; [|reflexivity].
    rewrite (Hno x eq_refl). reflexivity. }
  rewrite Hsearch. tauto.
Qed.

(** Of the two active deals, created at the times 1 and 3, the page at
    offset 1 holds the older one. *)
Lemma deal_search_page_witness :
  let s := {| db := deal_store; pending := []; now := 9 |} in
  property_repo.search_deals (Some "active") None None None 1 1 s
  = (Ok ([harbor_lofts], 2%Z), s).
Proof.
  intros s.
  destruct (deal_search_page (Some "active") None None None 1 1 s)
    as (deals & Hrun & _); try (intros v Hv; discriminate Hv); try lia.
  { intros p Hp. cbn in Hp.
    repeat (destruct Hp as [<-|Hp]; [reflexivity|]). destruct Hp. }
  rewrite Hrun. do 2 f_equal.
  assert (H : fst (property_repo.search_deals (Some "active") None None None
                     1 1 s) = Ok (deals, 2%Z))
    by (rewrite Hrun; reflexivity).
  vm_compute in H. injection H as <-. reflexivity.
Defined.

(** ** The stage history explains the stage *)

Lemma update_keeps_history_explained (st : Store) (nw : datetime) (id : UUID)
    (stage changed_by : string) (notes : option string)
    (i : InvestorProfile.t) :
  leads_with_id st id = [i] ->
  history_explains st ->
  history_explains (store_after_update nw id stage changed_by notes i st).
Proof.
  intros Hi Hexp a' Ha'.
  change (investor_profiles
            (store_after_update nw id stage changed_by notes i st))
    with (map (stage_update id stage nw) (investor_profiles st)) in Ha'.
  apply List.in_map_iff in Ha' as (a & <- & Ha).
  rewrite stage_update_id, history_rows_after_update.
  destruct (Hexp a Ha) as [Hlinked Hfinal].
  unfold stage_update.
  destruct (N.eqb_spec (InvestorProfile.id a) id) as [Heq|Hne].
  - assert (Hai : In a (leads_with_id st id)).
    { apply List.filter_In. split; [exact Ha|]. apply N.eqb_eq, Heq. }
    rewrite Hi in Hai. destruct Hai as [<-|[]].
    rewrite Heq, N.eqb_refl. split.
    + apply linked_snoc. rewrite <- Heq. split; [exact Hlinked|].
      symmetry. exact Hfinal.
    + rewrite final_stage_snoc. reflexivity.
  - destruct (N.eqb_spec id (InvestorProfile.id a)) as [E|_];
      [congruence|].
    rewrite List.app_nil_r. split; assumption.
Qed.

Lemma serve_history_explains (r : datetime * Request) (st : Store) :
  wf st -> history_explains st -> history_explains (serve r st).
Proof.
  intros Hwf Hexp.
  destruct (serve_effect r st)
    as [->|[(nw & req & ip & ua & Hnew & _ & ->)
           |(nw & id & content & i & Hi & ->)]].
  - exact Hexp.
  - destruct (rows_after_submit st nw req ip ua Hwf Hnew) as (_ & _ & _ & Hh).
    intros a Ha.
    change (investor_profiles (store_after_submit nw req ip ua st))
      with (investor_profiles st
            ++ [InvestorProfile.stamp nw
                  (leads.build_investor (next_uuid st) req)])%list in Ha.
    apply List.in_app_or in Ha as [Ha|[<-|[]]].
    + pose proof (wf_fresh st Hwf a Ha) as Hlt.
      assert (Hrows : history_rows (store_after_submit nw req ip ua st)
                        (InvestorProfile.id a)
                      = history_rows st (InvestorProfile.id a)).
      { unfold history_rows, store_after_submit.
        cbn [stage_history insert_history draw_uuid
             store_after_profile_and_consent insert_consent insert_investor].
        rewrite filter_snoc.
        cbn [intake_creation_row StageHistory.investor_id].
        destruct (N.eqb_spec (next_uuid st) (InvestorProfile.id a)) as [E|_];
          [lia | apply List.app_nil_r]. }
      rewrite Hrows. apply Hexp, Ha.
    + change (InvestorProfile.id (InvestorProfile.stamp nw ?o))
        with (InvestorProfile.id o).
      change (InvestorProfile.stage (InvestorProfile.stamp nw ?o))
        with (InvestorProfile.stage o).
      rewrite build_investor_id, build_investor_stage, Hh.
      split; [split; [reflexivity | exact I] | reflexivity].
  - exact Hexp.
Qed.

(** X22. The audit trail always explains the stage. However submissions,
    stage updates, notes and reads of any leads are interleaved, the
    stage-history rows of every lead form a chain (each row starts at
    the stage the previous one ended at, the first from no stage) that
    ends at the stage the lead is in. *)
Theorem history_explains_every_stage (rs : list (datetime * Request))
    (st : Store) :
  wf st -> history_explains st -> history_explains (serve_all rs st).
Proof.
  revert st. induction rs as [|r rs IH]; intros st Hwf Hexp; [exact Hexp|].
  rewrite serve_all_cons.
  apply IH; [apply serve_wf, Hwf | apply serve_history_explains; assumption].
Qed.

Lemma history_explains_every_stage_witness :
  history_explains (serve_all sample_requests empty_store).
Proof.
  apply history_explains_every_stage.
  - exact empty_store_wf.
  - intros i [].
Defined.

(** ** A stage update touches one lead *)

(** X23. A stage update of the repository, with a stage and an actor
    that fit their columns, changes the addressed lead only, and of that
    lead only the stage and the time of the last update: phone number,
    score, capital, source and creation time stay; [updated_at] becomes
    the time of the request when the stage differs from the old one;
    every other lead keeps its row and its stage history; the ids and
    phone numbers of the leads are as before; the schema constraints
    are kept; and when the history of every lead explained its stage
    before, it does so after. *)
Theorem stage_update_touches_one_lead (st : Store) (nw : datetime) (id : UUID)
    (stage changed_by : string) (notes : option string)
    (i : InvestorProfile.t) :
  leads_with_id st id = [i] ->
  fits 50 stage = true -> fits 100 changed_by = true ->
  exists i' st',
    run_update_stage nw id stage changed_by notes st
    = (Ok (Some (Lead.load st' i')), st')
    /\ leads_with_id st' id = [i']
    /\ InvestorProfile.stage i' = stage
    /\ InvestorProfile.phone i' = InvestorProfile.phone i
    /\ InvestorProfile.lead_score i' = InvestorProfile.lead_score i
    /\ InvestorProfile.capital_available i'
       = InvestorProfile.capital_available i
    /\ InvestorProfile.source i' = InvestorProfile.source i
    /\ InvestorProfile.created_at i' = InvestorProfile.created_at i
    /\ (stage <> InvestorProfile.stage i -> InvestorProfile.updated_at i' = nw)
    /\ (forall other, other <> id ->
          leads_with_id st' other = leads_with_id st other
          /\ history_rows st' other = history_rows st other)
    /\ map InvestorProfile.id (investor_profiles st')
       = map InvestorProfile.id (investor_profiles st)
    /\ map InvestorProfile.phone (investor_profiles st')
       = map InvestorProfile.phone (investor_profiles st)
    /\ (wf st -> wf st')
    /\ (history_explains st -> history_explains st').
Proof.
  intros Hi _ _.
  exists (InvestorProfile.set_stage stage nw i),
         (store_after_update nw id stage changed_by notes i st).
  split; [exact (run_update_stage_existing st nw id stage changed_by notes i
                   Hi)|].
  split; [apply leads_with_id_after_update, Hi|].
  do 6 (split; [reflexivity|]).
  split.
  { intros Hne. cbn [InvestorProfile.set_stage InvestorProfile.updated_at].
    destruct (String.eqb_spec stage (InvestorProfile.stage i));
      [contradiction | reflexivity]. }
  split.
  { intros other Hother. split.
    - change (leads_with_id
                (store_after_update nw id stage changed_by notes i st) other)
        with (leads_with_id
                (update_investors (stage_update id stage nw) st) other).
      rewrite leads_with_id_update.
      rewrite <- (List.map_id (leads_with_id st other)) at 2.
      apply List.map_ext_in. intros a Ha.
      apply List.filter_In in Ha as [_ Ha]. apply N.eqb_eq in Ha.
      unfold stage_update.
      destruct (N.eqb_spec (InvestorProfile.id a) id); [congruence|].
      reflexivity.
    - rewrite history_rows_after_update.
      destruct (N.eqb_spec id other); [congruence|]. apply List.app_nil_r. }
  split; [apply ids_after_update|].
  split; [apply phones_after_update|].
  split; [intros Hwf; apply wf_after_update; assumption|].
  apply update_keeps_history_explained, Hi.
Qed.

Lemma stage_update_touches_one_lead_witness :
  exists i' st',
    run_update_stage 20 0%N "under_review" "admin" (Some "docs received")
      five_lead_store
    = (Ok (Some (Lead.load st' i')), st')
    /\ leads_with_id st' 0%N = [i']
    /\ InvestorProfile.stage i' = "under_review"
    /\ InvestorProfile.phone i' = InvestorProfile.phone first_of_five
    /\ InvestorProfile.lead_score i' = InvestorProfile.lead_score first_of_five
    /\ InvestorProfile.capital_available i'
       = InvestorProfile.capital_available first_of_five
    /\ InvestorProfile.source i' = InvestorProfile.source first_of_five
    /\ InvestorProfile.created_at i' = InvestorProfile.created_at first_of_five
    /\ ("under_review" <> InvestorProfile.stage first_of_five ->
        InvestorProfile.updated_at i' = 20)
    /\ (forall other, other <> 0%N ->
          leads_with_id st' other = leads_with_id five_lead_store other
          /\ history_rows st' other = history_rows five_lead_store other)
    /\ map InvestorProfile.id (investor_profiles st')
       = map InvestorProfile.id (investor_profiles five_lead_store)
    /\ map InvestorProfile.phone (investor_profiles st')
       = map InvestorProfile.phone (investor_profiles five_lead_store)
    /\ (wf five_lead_store -> wf st')
    /\ (history_explains five_lead_store -> history_explains st').
Proof.
  refine (stage_update_touches_one_lead five_lead_store 20 0%N "under_review"
            "admin" (Some "docs received") first_of_five _ eq_refl eq_refl).
  vm_compute. reflexivity.
Defined.
